(** * Excel Session Manager: a shallow embedding of its core logic

    The development follows the Python sources module by module:
    - [FileUtils]      : utils/file_utils.py
    - [ExternalLinks]  : core/external_links_manager.py
    - [LinkStore]      : the same scan, with its records as objects in a store
    - [Session]        : core/session_manager.py
    - [ExcelSave]      : core/excel_manager.py (save / save-and-close loops)
    - [PerfMonitor]    : core/performance_monitor.py
    - [LinkUpdater]    : excel_session_manager_link_updater.py

    Calls into Excel (COM), the file system, the clock and the dialogs are
    modelled as explicit inputs: every function takes the answers the outside
    world gives and returns the calls it makes. *)

From Stdlib Require Import List String Ascii Bool Arith ZArith Lia Permutation.
From Stdlib Require Import Numbers.DecimalString.
From Stdlib Require Import Numbers.DecimalNat.
Import ListNotations.

Local Open Scope string_scope.
Local Open Scope nat_scope.
Local Open Scope list_scope.

(** ** Python string helpers shared by the modules *)

Module PyStr.

(** [all_chars p s]: every character of [s] satisfies [p]. *)
Fixpoint all_chars (p : ascii -> bool) (s : string) : bool :=
  match s with
  | EmptyString => true
  | String c s' => p c && all_chars p s'
  end.

(** ASCII whitespace as [str.split()] sees it: the characters for which
    [str.isspace] holds. *)
Definition is_space (c : ascii) : bool :=
  let n := nat_of_ascii c in
  ((9 <=? n) && (n <=? 13)) || ((28 <=? n) && (n <=? 32)).

(** The whitespace [int()] skips around the digits of an ASCII string: tab,
    line feed, vertical tab, form feed, carriage return and space. The
    separators 0x1C to 0x1F are not among them: [int] raises [ValueError]
    on a string that holds one. *)
Definition is_int_space (c : ascii) : bool :=
  let n := nat_of_ascii c in
  ((9 <=? n) && (n <=? 13)) || (n =? 32).

Definition is_digit (c : ascii) : bool :=
  let n := nat_of_ascii c in (48 <=? n) && (n <=? 57).

(** [split_by p s] cuts [s] at every character satisfying [p], keeping empty
    pieces: [s.split(sep)] is [split_by (Ascii.eqb sep) s]. *)
Fixpoint split_by (p : ascii -> bool) (s : string) : list string :=
  match s with
  | EmptyString => [EmptyString]
  | String c s' =>
      if p c then EmptyString :: split_by p s'
      else match split_by p s' with
           | h :: t => String c h :: t
           | [] => [String c EmptyString]
           end
  end.

Definition split_on (sep : ascii) (s : string) : list string :=
  split_by (Ascii.eqb sep) s.

Definition nonempty (s : string) : bool :=
  match s with EmptyString => false | _ => true end.

(** [s.split()] with no argument: runs of whitespace separate the pieces and
    no empty piece is returned. *)
Definition split_ws (s : string) : list string :=
  filter nonempty (split_by is_space s).

Fixpoint lstrip (s : string) : string :=
  match s with
  | String c s' => if is_int_space c then lstrip s' else s
  | EmptyString => EmptyString
  end.

Fixpoint rstrip (s : string) : string :=
  match s with
  | EmptyString => EmptyString
  | String c s' =>
      let r := rstrip s' in
      if negb (nonempty r) && is_int_space c then EmptyString else String c r
  end.

(** The text between the whitespace [int()] skips at both ends. *)
Definition strip (s : string) : string := rstrip (lstrip s).

Definition digit_val (c : ascii) : Z := Z.of_nat (nat_of_ascii c - 48).

(** Digits with single underscores between them, as [int()] accepts. *)
Fixpoint digits_value (acc : Z) (prev_us : bool) (s : string) : option Z :=
  match s with
  | EmptyString => if prev_us then None else Some acc
  | String c s' =>
      if is_digit c then digits_value (acc * 10 + digit_val c) false s'
      else if Ascii.eqb c "_" then
             if prev_us then None else digits_value acc true s'
      else None
  end.

Definition int_unsigned (s : string) : option Z :=
  match s with
  | String c _ => if is_digit c then digits_value 0 false s else None
  | EmptyString => None
  end.

(** [int(s)] on a string: [None] stands for [ValueError]. *)
Definition py_int (s : string) : option Z :=
  match strip s with
  | String "+" r => int_unsigned r
  | String "-" r => option_map Z.opp (int_unsigned r)
  | t => int_unsigned t
  end.

(** Decimal text of a natural number, as [str(n)] / [f"{n}"]. *)
Definition dec (n : nat) : string := NilEmpty.string_of_uint (Nat.to_uint n).

(** [f"{n:02d}"] for a non-negative integer. *)
Definition dec02 (n : nat) : string :=
  if n <? 10 then ("0" ++ dec n)%string else dec n.

(** ASCII [str.lower()]. *)
Definition lower_char (c : ascii) : ascii :=
  let n := nat_of_ascii c in
  if (65 <=? n) && (n <=? 90) then ascii_of_nat (n + 32) else c.

Fixpoint lower (s : string) : string :=
  match s with
  | EmptyString => EmptyString
  | String c s' => String (lower_char c) (lower s')
  end.

(** The line feed of a Python string literal. *)
Definition newline : string := String (ascii_of_nat 10) EmptyString.

(** [needle in hay] on strings. *)
Fixpoint contains (needle hay : string) : bool :=
  prefix needle hay ||
  match hay with
  | EmptyString => false
  | String _ hay' => contains needle hay'
  end.

End PyStr.

(** ** utils/file_utils.py *)

Module FileUtils.
Import PyStr.

(** The fields of a [datetime] that the two functions read or build. *)
Record datetime := mk_datetime {
  year : nat; month : nat; day : nat;
  hour : nat; minute : nat; second : nat
}.

(** The file system as [get_file_mtime_str] sees it: [fs path] is [None]
    when [os.path.exists(path)] is false, and otherwise the local time
    [datetime.fromtimestamp(os.path.getmtime(path))]. *)
Definition filesystem := string -> option datetime.

Definition get_file_mtime_str (fs : filesystem) (path : string) : string :=
  match fs path with
  | Some dt =>
      (dec (year dt) ++ "-" ++ dec02 (month dt) ++ "-" ++ dec02 (day dt)
       ++ " " ++ dec02 (hour dt) ++ ":" ++ dec02 (minute dt)
       ++ ":" ++ dec02 (second dt))%string
  | None => ""
  end.

Definition is_leap (y : Z) : bool :=
  ((y mod 4 =? 0) && negb (y mod 100 =? 0) || (y mod 400 =? 0))%Z.

Definition days_in_month (y m : Z) : Z :=
  (if m =? 2 then (if is_leap y then 29 else 28)
   else if (m =? 4) || (m =? 6) || (m =? 9) || (m =? 11) then 30 else 31)%Z.

(** The constructor [datetime(year, month, day, hour, minute)]; [None] stands
    for the [ValueError] it raises on a field out of range. *)
Definition make_datetime (y m d h mi : Z) : option datetime :=
  if ((1 <=? y) && (y <=? 9999) && (1 <=? m) && (m <=? 12)
      && (1 <=? d) && (d <=? days_in_month y m)
      && (0 <=? h) && (h <=? 23) && (0 <=? mi) && (mi <=? 59))%Z
  then Some (mk_datetime (Z.to_nat y) (Z.to_nat m) (Z.to_nat d)
                         (Z.to_nat h) (Z.to_nat mi) 0)
  else None.

(** [parse_mtime]: every exception of the body ends in [return None]. *)
Definition parse_mtime (mtime_str : string) : option datetime :=
  match split_ws mtime_str with
  | date :: time_part :: _ =>
      match map py_int (split_on "/" date) with
      | [Some d; Some m; Some y] =>
          match map py_int (split_on ":" time_part) with
          | [Some h; Some mi] => make_datetime y m d h mi
          | _ => None
          end
      | _ => None
      end
  | _ => None
  end.

End FileUtils.

(** ** core/external_links_manager.py *)

Module ExternalLinks.
Import PyStr.

Inductive LinkType := LinkSource | Formula.

Record ExternalLink := mk_link {
  source_workbook : string;
  source_sheet : string;
  source_cell : string;
  target_file : string;
  formula : string;
  link_type : LinkType
}.

Record ExternalFileGroup := mk_group {
  external_file : string;
  links : list ExternalLink;
  reference_count : nat
}.

(** A Python [dict] keeps its keys in insertion order: an association list
    with one entry per key. *)
Definition dict (V : Type) := list (string * V).

(** The two attributes of an [ExternalLinksManager] instance. *)
Record manager := mk_manager {
  external_links : list ExternalLink;
  grouped_links : dict ExternalFileGroup
}.

(** [ExternalLinksManager.__init__] *)
Definition init : manager := mk_manager [] [].

(** *** What a scan reads from Excel

    A cell whose properties cannot be read raises inside the innermost [try]
    ([CellError]); a worksheet whose name or used range cannot be read raises
    inside the worksheet [try] ([SheetError]); [wb_link_sources] is [None]
    when [LinkSources] raises or returns nothing; [wb_name] is [None] when
    reading [workbook.Name] raises, which no inner [try] catches. The
    enumeration of [excel.Workbooks] yields the workbooks of [Workbooks] and
    then ends, or raises when [enumeration_raises] is set. [excel] is
    [None] when [Dispatch] raises. *)
Inductive cell_read :=
| CellError
| Cell (HasFormula : bool) (Formula_text : string) (Address : string).

Inductive sheet_read :=
| SheetError
| Sheet (sheet_name : string) (UsedRange : option (list cell_read)).

Record workbook := mk_workbook {
  wb_name : option string;
  wb_link_sources : option (list string);
  wb_worksheets : list sheet_read
}.

Record application := mk_application {
  Workbooks : list workbook;
  enumeration_raises : bool
}.

Definition excel := option application.

Record statistics := mk_statistics {
  total_workbooks : nat;
  workbooks_with_links : nat;
  total_links : nat;
  unique_external_files : nat
}.

(** [set.add] on a set kept as a duplicate-free list; only its size is read. *)
Definition set_add (x : string) (s : list string) : list string :=
  if existsb (String.eqb x) s then s else s ++ [x].

(** [_extract_filename_from_path] *)
Definition _extract_filename_from_path (file_path : string) : string :=
  if contains "\" file_path || contains "/" file_path
  then last (split_on "/" (last (split_on "\" file_path) "")) ""
  else file_path.

(** [_has_external_reference] *)
Definition _has_external_reference (formula : string) : bool :=
  contains "[" formula && contains "]" formula &&
  existsb (fun ext => contains ext (lower formula)) [".xlsx"; ".xls"; ".xlsm"].

(** [_is_duplicate_link] *)
Fixpoint _is_duplicate_link (existing_links : list ExternalLink)
    (sheet cell target : string) : bool :=
  match existing_links with
  | [] => false
  | link :: rest =>
      if String.eqb (source_sheet link) sheet
         && String.eqb (source_cell link) cell
         && String.eqb (target_file link) target
      then true
      else _is_duplicate_link rest sheet cell target
  end.

(** [file_groups[k].append(v)] on a [defaultdict(list)]. *)
Fixpoint dd_append {V : Type} (k : string) (v : V) (d : dict (list V))
    : dict (list V) :=
  match d with
  | [] => [(k, [v])]
  | (k', vs) :: d' =>
      if String.eqb k' k then (k', vs ++ [v]) :: d'
      else (k', vs) :: dd_append k v d'
  end.

(** [d[k] = v] on a [dict]. *)
Fixpoint dict_set {V : Type} (k : string) (v : V) (d : dict V) : dict V :=
  match d with
  | [] => [(k, v)]
  | (k', v') :: d' =>
      if String.eqb k' k then (k', v) :: d' else (k', v') :: dict_set k v d'
  end.

(** The first loop of both grouping functions. *)
Definition file_groups_of (ls : list ExternalLink) : dict (list ExternalLink) :=
  fold_left (fun d link => dd_append (target_file link) link d) ls [].

(** The second loop: one [ExternalFileGroup] per item, stored under its key
    in the dictionary [start]. *)
Definition build_groups (start : dict ExternalFileGroup)
    (file_groups : dict (list ExternalLink)) : dict ExternalFileGroup :=
  fold_left
    (fun g item => dict_set (fst item)
                     (mk_group (fst item) (snd item) (List.length (snd item))) g)
    file_groups start.

(** [_group_links_by_external_file]: [self.grouped_links = {}] comes first. *)
Definition _group_links_by_external_file (m : manager) : manager :=
  let m0 := mk_manager (external_links m) [] in
  mk_manager (external_links m0)
             (build_groups (grouped_links m0)
                           (file_groups_of (external_links m0))).

(** The field test of [search_links] for one link. *)
Definition link_matches (keyword_lower search_field : string)
    (link : ExternalLink) : bool :=
  if String.eqb search_field "external_file" then
    contains keyword_lower (lower (target_file link))
  else if String.eqb search_field "formula" then
    contains keyword_lower (lower (formula link))
  else if String.eqb search_field "source_workbook" then
    contains keyword_lower (lower (source_workbook link))
  else if String.eqb search_field "all" then
    contains keyword_lower (lower (target_file link))
    || contains keyword_lower (lower (formula link))
    || contains keyword_lower (lower (source_workbook link))
  else false.

(** [search_links] *)
Definition search_links (m : manager) (keyword search_field : string)
    : list ExternalLink :=
  if negb (nonempty keyword) then external_links m
  else filter (link_matches (lower keyword) search_field) (external_links m).

(** [get_grouped_search_results] *)
Definition get_grouped_search_results (m : manager)
    (keyword search_field : string) : dict ExternalFileGroup :=
  let matching_links := search_links m keyword search_field in
  build_groups [] (file_groups_of matching_links).

Section Scan.

(** [re.findall(r'\[([^\]]+\.xlsx?m?)\]', formula, re.IGNORECASE)] and the
    order in which [list(set(xs))] enumerates a set are fixed by the Python
    runtime; the scan takes them as given. *)
Variable findall : string -> list string.
Variable list_of_set : list string -> list string.

(** [_extract_external_files_from_formula] *)
Definition _extract_external_files_from_formula (formula : string)
    : list string :=
  let external_files := map _extract_filename_from_path (findall formula) in
  list_of_set external_files.

(** The local variables of one workbook iteration that the loops update:
    [workbook_links] and the set [external_files]. *)
Record wb_acc := mk_acc {
  workbook_links : list ExternalLink;
  external_files : list string
}.

(** Method 1: one [LinkSource] record per entry of [LinkSources(1)]. *)
Fixpoint scan_link_sources (workbook_name : string)
    (link_sources : list string) (a : wb_acc) : wb_acc :=
  match link_sources with
  | [] => a
  | link_source :: rest =>
      let external_file := _extract_filename_from_path link_source in
      let link := mk_link workbook_name "" "" external_file
                    ("LinkSource: " ++ link_source)%string LinkSource in
      scan_link_sources workbook_name rest
        (mk_acc (workbook_links a ++ [link])
                (set_add external_file (external_files a)))
  end.

(** The loop over the files named by one formula. *)
Fixpoint scan_formula_files (workbook_name sheet address formula : string)
    (ext_files : list string) (a : wb_acc) : wb_acc :=
  match ext_files with
  | [] => a
  | ext_file :: rest =>
      scan_formula_files workbook_name sheet address formula rest
        (if negb (_is_duplicate_link (workbook_links a) sheet address ext_file)
         then mk_acc (workbook_links a
                        ++ [mk_link workbook_name sheet address ext_file
                              formula Formula])
                     (set_add ext_file (external_files a))
         else a)
  end.

Definition scan_cell (workbook_name sheet : string) (c : cell_read)
    (a : wb_acc) : wb_acc :=
  match c with
  | CellError => a
  | Cell has_formula formula address =>
      if has_formula && _has_external_reference formula
      then scan_formula_files workbook_name sheet address formula
             (_extract_external_files_from_formula formula) a
      else a
  end.

Definition scan_cells (workbook_name sheet : string) (cells : list cell_read)
    (a : wb_acc) : wb_acc :=
  fold_left (fun a c => scan_cell workbook_name sheet c a) cells a.

(** Method 2: the loop over the worksheets. The second component is [false]
    when a worksheet raised: the [except: continue] of that [try] moves on to
    the next workbook. *)
Fixpoint scan_worksheets (workbook_name : string) (sheets : list sheet_read)
    (a : wb_acc) : wb_acc * bool :=
  match sheets with
  | [] => (a, true)
  | SheetError :: _ => (a, false)
  | Sheet name used_range :: rest =>
      scan_worksheets workbook_name rest
        (match used_range with
         | Some cells => scan_cells workbook_name name cells a
         | None => a
         end)
  end.

(** What the workbook loop carries from one workbook to the next. *)
Record scan_state := mk_scan {
  st_links : list ExternalLink;        (* self.external_links *)
  st_total : nat;                      (* statistics['total_workbooks'] *)
  st_with_links : list string;         (* workbooks_with_links *)
  st_files : list string               (* external_files *)
}.

(** The links one workbook contributes to [self.external_links], its name
    having been read as [workbook_name]. *)
Definition workbook_block (workbook_name : string) (wb : workbook)
    (files : list string) : list ExternalLink * list string :=
  let a1 := match wb_link_sources wb with
            | Some link_sources =>
                scan_link_sources workbook_name link_sources (mk_acc [] files)
            | None => mk_acc [] files
            end in
  let '(a2, completed) :=
    scan_worksheets workbook_name (wb_worksheets wb) a1 in
  (if completed then workbook_links a2 else [], external_files a2).

(** The body of the workbook loop after [workbook.Name] was read. *)
Definition scan_workbook (workbook_name : string) (wb : workbook)
    (st : scan_state) : scan_state :=
  let '(block, files) := workbook_block workbook_name wb (st_files st) in
  mk_scan (st_links st ++ block)
          (st_total st)
          (match block with
           | [] => st_with_links st
           | _ => set_add workbook_name (st_with_links st)
           end)
          files.

(** The loop over [excel.Workbooks]. The second component is [false] when
    an exception leaves the loop for the outer [except]: [workbook.Name]
    raises, after the workbook was counted, or the enumeration raises. *)
Fixpoint scan_workbooks (workbooks : list workbook) (raises_at_end : bool)
    (st : scan_state) : scan_state * bool :=
  match workbooks with
  | [] => (st, negb raises_at_end)
  | wb :: rest =>
      let st1 := mk_scan (st_links st) (S (st_total st))
                   (st_with_links st) (st_files st) in
      match wb_name wb with
      | None => (st1, false)
      | Some workbook_name =>
          scan_workbooks rest raises_at_end
            (scan_workbook workbook_name wb st1)
      end
  end.

(** [scan_open_workbooks]: the stored list is emptied first, then the open
    workbooks are walked, then the links are grouped. The three counts
    after [total_workbooks] are filled in only when the loop ends without
    an exception. *)
Definition scan_open_workbooks (m : manager) (xl : excel)
    : manager * (list ExternalLink * statistics) :=
  let m0 := mk_manager [] (grouped_links m) in
  let st0 := mk_scan (external_links m0) 0 [] [] in
  let '(m1, stats) :=
    match xl with
    | Some app =>
        let '(st, completed) :=
          scan_workbooks (Workbooks app) (enumeration_raises app) st0 in
        (mk_manager (st_links st) (grouped_links m0),
         if completed
         then mk_statistics (st_total st) (List.length (st_with_links st))
                            (List.length (st_links st))
                            (List.length (st_files st))
         else mk_statistics (st_total st) 0 0 0)
    | None => (m0, mk_statistics 0 0 0 0)
    end in
  let m2 := _group_links_by_external_file m1 in
  (m2, (external_links m2, stats)).

End Scan.

(** An ASCII reading of the pattern, used to run the scan on examples: at an
    opening bracket the run up to the next closing bracket is a match when it
    ends, ignoring case, in [.xls], [.xlsx], [.xlsm] or [.xlsxm] after at
    least one other character; the search resumes after the match. *)
Fixpoint until_rbracket (s : string) : option (string * string) :=
  match s with
  | EmptyString => None
  | String c s' =>
      if Ascii.eqb c "]" then Some (EmptyString, s')
      else match until_rbracket s' with
           | Some (run, rest) => Some (String c run, rest)
           | None => None
           end
  end.

Fixpoint has_xl_suffix_from (s : string) : bool :=
  match s with
  | EmptyString => false
  | String _ s' =>
      existsb (String.eqb s') [".xls"; ".xlsx"; ".xlsm"; ".xlsxm"]
      || has_xl_suffix_from s'
  end.

Fixpoint findall_from (fuel : nat) (s : string) : list string :=
  match fuel, s with
  | S n, String c s' =>
      if Ascii.eqb c "[" then
        match until_rbracket s' with
        | Some (run, rest) =>
            if has_xl_suffix_from (lower run)
            then run :: findall_from n rest
            else findall_from n s'
        | None => findall_from n s'
        end
      else findall_from n s'
  | _, _ => []
  end.

Definition findall_ascii (s : string) : list string :=
  findall_from (String.length s) s.

(** One enumeration order of [list(set(xs))]: first occurrences, in order. *)
Fixpoint first_occurrences (xs : list string) : list string :=
  match xs with
  | [] => []
  | x :: rest =>
      x :: filter (fun y => negb (String.eqb x y)) (first_occurrences rest)
  end.

End ExternalLinks.

(** ** core/external_links_manager.py: the records as objects

    An [ExternalLink] is a Python object, and the manager's list, its groups
    and the lists it hands out hold references to the same objects. Here
    the objects live in a store, a reference is the position of its object
    in the store, and the scan is written out once more, this time with the
    store in which its [ExternalLink(...)] calls create their objects. *)

Module LinkStore.
Import PyStr ExternalLinks.

Definition ref := nat.
Definition store := list ExternalLink.

(** [ExternalLink(...)]: a new object, placed after all the others. *)
Definition alloc (h : store) (link : ExternalLink) : store * ref :=
  (h ++ [link], List.length h).

Definition deref (h : store) (r : ref) : option ExternalLink :=
  nth_error h r.

(** The records a list of references stands for. *)
Definition links_of (h : store) (refs : list ref) : list ExternalLink :=
  flat_map (fun r => match deref h r with
                     | Some link => [link]
                     | None => []
                     end) refs.

Record ref_group := mk_ref_group {
  rg_external_file : string;
  rg_links : list ref;
  rg_reference_count : nat
}.

(** The two attributes of the manager, as references. *)
Record ref_manager := mk_ref_manager {
  ref_links : list ref;
  ref_groups : dict ref_group
}.

(** [_is_duplicate_link], reading the fields of each existing record. *)
Fixpoint _is_duplicate_link (h : store) (existing_links : list ref)
    (sheet cell target : string) : bool :=
  match existing_links with
  | [] => false
  | r :: rest =>
      match deref h r with
      | Some link =>
          if String.eqb (source_sheet link) sheet
             && String.eqb (source_cell link) cell
             && String.eqb (target_file link) target
          then true
          else _is_duplicate_link h rest sheet cell target
      | None => _is_duplicate_link h rest sheet cell target
      end
  end.

(** The store and the two local variables of one workbook iteration. *)
Record wb_acc := mk_acc {
  acc_store : store;
  workbook_links : list ref;
  external_files : list string
}.

(** [workbook_links.append(ExternalLink(...))] and
    [external_files.add(file)]. *)
Definition append_new (link : ExternalLink) (file : string) (a : wb_acc)
    : wb_acc :=
  let '(h, r) := alloc (acc_store a) link in
  mk_acc h (workbook_links a ++ [r]) (set_add file (external_files a)).

Section Scan.
Variable findall : string -> list string.
Variable list_of_set : list string -> list string.

Fixpoint scan_link_sources (workbook_name : string)
    (link_sources : list string) (a : wb_acc) : wb_acc :=
  match link_sources with
  | [] => a
  | link_source :: rest =>
      let external_file := _extract_filename_from_path link_source in
      let link := mk_link workbook_name "" "" external_file
                    ("LinkSource: " ++ link_source)%string LinkSource in
      scan_link_sources workbook_name rest (append_new link external_file a)
  end.

Fixpoint scan_formula_files (workbook_name sheet address formula : string)
    (ext_files : list string) (a : wb_acc) : wb_acc :=
  match ext_files with
  | [] => a
  | ext_file :: rest =>
      scan_formula_files workbook_name sheet address formula rest
        (if negb (_is_duplicate_link (acc_store a) (workbook_links a)
                    sheet address ext_file)
         then append_new (mk_link workbook_name sheet address ext_file
                            formula Formula) ext_file a
         else a)
  end.

Definition scan_cell (workbook_name sheet : string) (c : cell_read)
    (a : wb_acc) : wb_acc :=
  match c with
  | CellError => a
  | Cell has_formula formula address =>
      if has_formula && _has_external_reference formula
      then scan_formula_files workbook_name sheet address formula
             (_extract_external_files_from_formula findall list_of_set
                formula) a
      else a
  end.

Definition scan_cells (workbook_name sheet : string) (cells : list cell_read)
    (a : wb_acc) : wb_acc :=
  fold_left (fun a c => scan_cell workbook_name sheet c a) cells a.

Fixpoint scan_worksheets (workbook_name : string) (sheets : list sheet_read)
    (a : wb_acc) : wb_acc * bool :=
  match sheets with
  | [] => (a, true)
  | SheetError :: _ => (a, false)
  | Sheet name used_range :: rest =>
      scan_worksheets workbook_name rest
        (match used_range with
         | Some cells => scan_cells workbook_name name cells a
         | None => a
         end)
  end.

(** What the workbook loop carries from one workbook to the next. *)
Record scan_state := mk_scan {
  st_store : store;
  st_links : list ref;                 (* self.external_links *)
  st_total : nat;
  st_with_links : list string;
  st_files : list string
}.

(** One workbook: the records it creates stay in the store also when a
    worksheet error makes the loop drop its [workbook_links]. *)
Definition scan_workbook (workbook_name : string) (wb : workbook)
    (st : scan_state) : scan_state :=
  let a0 := mk_acc (st_store st) [] (st_files st) in
  let a1 := match wb_link_sources wb with
            | Some link_sources =>
                scan_link_sources workbook_name link_sources a0
            | None => a0
            end in
  let '(a2, completed) :=
    scan_worksheets workbook_name (wb_worksheets wb) a1 in
  let block := if completed then workbook_links a2 else [] in
  mk_scan (acc_store a2) (st_links st ++ block) (st_total st)
          (match block with
           | [] => st_with_links st
           | _ => set_add workbook_name (st_with_links st)
           end)
          (external_files a2).

Fixpoint scan_workbooks (workbooks : list workbook) (raises_at_end : bool)
    (st : scan_state) : scan_state * bool :=
  match workbooks with
  | [] => (st, negb raises_at_end)
  | wb :: rest =>
      let st1 := mk_scan (st_store st) (st_links st) (S (st_total st))
                   (st_with_links st) (st_files st) in
      match wb_name wb with
      | None => (st1, false)
      | Some workbook_name =>
          scan_workbooks rest raises_at_end
            (scan_workbook workbook_name wb st1)
      end
  end.

End Scan.

(** [link.target_file] through a reference. *)
Definition target_of (h : store) (r : ref) : string :=
  match deref h r with
  | Some link => target_file link
  | None => EmptyString
  end.

(** The two loops of [_group_links_by_external_file]: the groups hold the
    references they are given, not copies of the records. *)
Definition file_groups_of (h : store) (refs : list ref) : dict (list ref) :=
  fold_left (fun d r => dd_append (target_of h r) r d) refs [].

Definition build_groups (start : dict ref_group)
    (file_groups : dict (list ref)) : dict ref_group :=
  fold_left
    (fun g item => dict_set (fst item)
                     (mk_ref_group (fst item) (snd item)
                        (List.length (snd item))) g)
    file_groups start.

Definition _group_links_by_external_file (h : store) (m : ref_manager)
    : ref_manager :=
  mk_ref_manager (ref_links m) (build_groups [] (file_groups_of h (ref_links m))).

(** [scan_open_workbooks]: [self.external_links = []] makes a new list; the
    records of earlier scans stay in the store, where nothing refers to
    them any more. *)
Definition scan_open_workbooks (findall : string -> list string)
    (list_of_set : list string -> list string)
    (h : store) (m : ref_manager) (xl : excel)
    : store * ref_manager * (list ref * statistics) :=
  let st0 := mk_scan h [] 0 [] [] in
  let '(st, stats) :=
    match xl with
    | Some app =>
        let '(st, completed) :=
          scan_workbooks findall list_of_set (Workbooks app)
            (enumeration_raises app) st0 in
        (st,
         if completed
         then mk_statistics (st_total st) (List.length (st_with_links st))
                            (List.length (st_links st))
                            (List.length (st_files st))
         else mk_statistics (st_total st) 0 0 0)
    | None => (st0, mk_statistics 0 0 0 0)
    end in
  let m2 := _group_links_by_external_file (st_store st)
              (mk_ref_manager (st_links st) (ref_groups m)) in
  (st_store st, m2, (ref_links m2, stats)).

(** [search_links]: the whole stored list for an empty keyword, else a new
    list of the references whose record matches. *)
Definition search_links (h : store) (m : ref_manager)
    (keyword search_field : string) : list ref :=
  if negb (nonempty keyword) then ref_links m
  else filter (fun r => match deref h r with
                        | Some link =>
                            link_matches (lower keyword) search_field link
                        | None => false
                        end) (ref_links m).

(** [get_grouped_search_results] *)
Definition get_grouped_search_results (h : store) (m : ref_manager)
    (keyword search_field : string) : dict ref_group :=
  build_groups [] (file_groups_of h (search_links h m keyword search_field)).

(** The calls of the manager that touch the records. *)
Inductive call :=
| do_scan (xl : excel)
| do_group
| do_search (keyword search_field : string)
| do_grouped_search (keyword search_field : string).

(** The store and the manager after one call; the searches return their
    result and leave both as they are. *)
Definition step (findall : string -> list string)
    (list_of_set : list string -> list string)
    (s : store * ref_manager) (c : call) : store * ref_manager :=
  match c with
  | do_scan xl =>
      fst (scan_open_workbooks findall list_of_set (fst s) (snd s) xl)
  | do_group => (fst s, _group_links_by_external_file (fst s) (snd s))
  | do_search _ _ => s
  | do_grouped_search _ _ => s
  end.

Definition run (findall : string -> list string)
    (list_of_set : list string -> list string)
    (calls : list call) (s : store * ref_manager) : store * ref_manager :=
  fold_left (step findall list_of_set) calls s.

End LinkStore.

(** ** core/session_manager.py *)

Module Session.
Import PyStr.

(** One entry of [selected_workbooks]: (name, path, sheet, cell). *)
Definition selected_workbook := (string * string * string * string)%type.

(** A worksheet as the rows [ws.append] wrote, first row first. *)
Definition written_sheet := list (list string).

Inductive dialog :=
| showinfo (title body : string)
| showerror (title body : string)
| showwarning (title body : string).

Inductive monitor_call :=
| start_operation (operation : string) (count : nat)
| end_operation (success : bool).

(** What the outside world answers during [save_session]: the path chosen in
    the save dialog (empty when cancelled), the clock formatted by
    [strftime("%Y-%m-%d_%H-%M-%S")], and the exception text when building or
    saving the workbook raises. *)
Record save_env := mk_save_env {
  asksaveasfilename : string;
  timestamp : string;
  save_raises : option string
}.

Record save_result := mk_save_result {
  returned : option string;
  saved_file : option (string * written_sheet);
  dialogs : list dialog;
  monitored : list monitor_call
}.

Definition header_row : list string :=
  ["File Path"; "Sheet Name"; "Cell Address"].

Definition session_row (w : selected_workbook) : list string :=
  let '(_, path, sheet, cell) := w in [path; sheet; cell].

Section Save.

(** [os.path.splitext] *)
Variable splitext : string -> string * string.

(** [_save_session_impl] *)
Definition _save_session_impl (env : save_env)
    (selected_workbooks : list selected_workbook) : save_result :=
  let file_path := asksaveasfilename env in
  if negb (nonempty file_path) then mk_save_result None None [] []
  else
    let '(base, ext) := splitext file_path in
    let file_path_with_ts := (base ++ "_" ++ timestamp env ++ ext)%string in
    let ws := header_row :: map session_row selected_workbooks in
    match save_raises env with
    | None =>
        mk_save_result (Some file_path_with_ts)
          (Some (file_path_with_ts, ws))
          [showinfo "Success"
             ("Session saved at:" ++ newline ++ file_path_with_ts)%string] []
    | Some e =>
        mk_save_result None None
          [showerror "Error"
             ("Failed to save session:" ++ newline ++ e)%string] []
    end.

(** [save_session] *)
Definition save_session (env : save_env)
    (selected_workbooks : list selected_workbook) : save_result :=
  match selected_workbooks with
  | [] => mk_save_result None None [] []
  | _ =>
      let r := _save_session_impl env selected_workbooks in
      mk_save_result (returned r) (saved_file r) (dialogs r)
        [start_operation "save_session" (List.length selected_workbooks);
         end_operation true]
  end.

End Save.

(** A cell read with [values_only=True]: empty, a text, or one of the other
    values a worksheet cell can hold. A float is [mantissa * 2 ** exponent];
    dates, times and durations are counted in microseconds. A row is the
    tuple of its cells. *)
Inductive cell_value :=
| CNone
| CText (s : string)
| CInt (z : Z)
| CBool (b : bool)
| CFloat (mantissa exponent : Z)
| CDate (microseconds : Z)
| CDuration (microseconds : Z).

Definition session_row_read := list cell_value.

(** The truth value of a cell, as [if v:] takes it. *)
Definition truthy (v : cell_value) : bool :=
  match v with
  | CNone => false
  | CText s => nonempty s
  | CInt z => negb (z =? 0)%Z
  | CBool b => b
  | CFloat mantissa _ => negb (mantissa =? 0)%Z
  | CDate _ => true
  | CDuration d => negb (d =? 0)%Z
  end.

(** Truth value of [r and r[0]]. *)
Definition has_first (r : session_row_read) : bool :=
  match r with
  | v :: _ => truthy v
  | [] => false
  end.

(** [r[0]] of a row that is not empty. *)
Definition first_cell (r : session_row_read) : cell_value := hd CNone r.

(** [v == s] for a text [s]: only a text cell can be equal to it. *)
Definition is_text (v : cell_value) (s : string) : bool :=
  match v with
  | CText t => String.eqb t s
  | _ => false
  end.

(** What the outside world answers during [load_session]. [fd_exists n] is
    [os.path.exists] on the integer [n], which is taken as a file
    descriptor, and [None] when [n] is too large for one (OverflowError).
    [load_workbook] is [inl e] when reading the file raises [e] and
    otherwise all rows of the active sheet; [file_selection] is
    [FileSelectionDialog(...).show()]. *)
Record load_env := mk_load_env {
  current_files : list string;
  askopenfilename : string;
  path_exists : string -> bool;
  fd_exists : Z -> option bool;
  load_workbook : string + list session_row_read;
  file_selection : list string -> string * list string
}.

(** [os.path.exists(v)] on a cell value: a text is looked up as a path, an
    integer or a boolean as a file descriptor; on any other value it
    raises TypeError, which is [None] here. *)
Definition os_path_exists (env : load_env) (v : cell_value) : option bool :=
  match v with
  | CText s => Some (path_exists env s)
  | CInt z => fd_exists env z
  | CBool b => fd_exists env (if b then 1 else 0)%Z
  | _ => None
  end.

(** The exception that sends [load_session] to its [except] branch, which
    shows the dialog 'Error reading session file:' with the text of the
    exception. *)
Inductive read_error :=
| load_workbook_raised (e : string)
| exists_raised (v : cell_value)        (* in [os.path.exists(v)] *)
| basename_raised (v : cell_value).     (* in [FileSelectionDialog] *)

Inductive load_outcome :=
| FilesStillOpen (d : dialog)
| NoSessionFile
| ReadFailed (e : read_error)
| NoValidPaths (d : dialog)
| SelectionDismissed (offered : list string)
| Loading (offered : list string) (selected_rows : list session_row_read).

(** [ws.iter_rows(min_row=2, values_only=True)] *)
Definition data_rows (sheet : list session_row_read) : list session_row_read :=
  skipn 1 sheet.

(** [[r[0] for r in rows if r and r[0]]] *)
Definition all_file_paths (rows : list session_row_read) : list cell_value :=
  map first_cell (filter has_first rows).

(** [[path for path in all_file_paths if os.path.exists(path)]]: [inl v]
    when the test raises on [v]. *)
Fixpoint valid_file_paths (exists_ : cell_value -> option bool)
    (paths : list cell_value) : cell_value + list cell_value :=
  match paths with
  | [] => inr []
  | path :: rest =>
      match exists_ path with
      | None => inl path
      | Some b =>
          match valid_file_paths exists_ rest with
          | inl v => inl v
          | inr valid => inr (if b then path :: valid else valid)
          end
      end
  end.

(** The rows [FileSelectionDialog] builds from the paths it is given:
    [os.path.basename(file_path)] raises TypeError on a path that is not a
    text, which is [inl] here. *)
Fixpoint dialog_rows (file_list : list cell_value)
    : cell_value + list string :=
  match file_list with
  | [] => inr []
  | CText s :: rest =>
      match dialog_rows rest with
      | inl v => inl v
      | inr paths => inr (s :: paths)
      end
  | v :: _ => inl v
  end.

(** [load_session], up to the start of the loading thread. *)
Definition load_session (env : load_env) : load_outcome :=
  match current_files env with
  | _ :: _ =>
      FilesStillOpen (showwarning "Warning"
        "Please close all currently open Excel files before loading a session.")
  | [] =>
      let file_path := askopenfilename env in
      if negb (nonempty file_path) || negb (path_exists env file_path)
      then NoSessionFile
      else
        match load_workbook env with
        | inl e => ReadFailed (load_workbook_raised e)
        | inr sheet =>
            let rows := data_rows sheet in
            match valid_file_paths (os_path_exists env)
                    (all_file_paths rows) with
            | inl v => ReadFailed (exists_raised v)
            | inr [] => NoValidPaths (showwarning "Warning"
                                        "No valid file paths found in session.")
            | inr valid =>
                match dialog_rows valid with
                | inl v => ReadFailed (basename_raised v)
                | inr offered =>
                    let '(result, selected_files) :=
                      file_selection env offered in
                    if negb (String.eqb result "ok")
                       || match selected_files with
                          | [] => true
                          | _ => false
                          end
                    then SelectionDismissed offered
                    else Loading offered
                           (filter (fun r => has_first r
                                      && existsb (is_text (first_cell r))
                                           selected_files) rows)
                end
            end
        end
  end.

(** The rows handed to [_load_files_thread], which opens one file per row. *)
Definition rows_to_open (o : load_outcome) : list session_row_read :=
  match o with
  | Loading _ selected_rows => selected_rows
  | _ => []
  end.

(** The paths listed in the selection dialog, when it is shown. *)
Definition offered_paths (o : load_outcome) : option (list string) :=
  match o with
  | SelectionDismissed offered => Some offered
  | Loading offered _ => Some offered
  | _ => None
  end.

End Session.

(** ** core/excel_manager.py: saving the selected workbooks *)

Module ExcelSave.
Import PyStr.

(** An open workbook as the loops use it. [save_script] lists the outcomes of
    the coming calls of [Save()], [None] for a call that returns and [Some e]
    for one that raises [e]; once the script is used up [Save()] returns.
    [close_raises] is the outcome of [Close(SaveChanges=False)]. *)
Record xl_workbook := mk_xl {
  Name : string;
  save_script : list (option string);
  close_raises : option string
}.

(** [excel.Workbooks], in enumeration order. *)
Definition workbooks := list xl_workbook.

Inductive log_line :=
| line_retrying (attempt_no : nat)
| line_saved (idx total : nat) (name : string)
| line_saved_and_closed (idx total : nat) (name : string)
| line_not_found (name : string)
| line_failed (idx total : nat) (name : string) (e : string).

(** The calls the loops make, in order. [sleep] carries the delay in
    milliseconds. *)
Inductive event :=
| call_Save (name : string)
| call_Close (name : string)
| sleep (ms : nat)
| print_msg (l : log_line).

Definition max_retries : nat := 3.

(** One call of [wb.Save()]. *)
Definition do_Save (wb : xl_workbook) : option string * xl_workbook :=
  match save_script wb with
  | [] => (None, wb)
  | r :: rest => (r, mk_xl (Name wb) rest (close_raises wb))
  end.

(** [for attempt in range(max_retries)] from iteration [attempt] on, with
    [left] iterations to go. The middle component is the exception that
    leaves the loop, if any. *)
Fixpoint retry_loop (left attempt : nat) (wb : xl_workbook)
    : list event * option string * xl_workbook :=
  match left with
  | 0 => ([], None, wb)
  | S left' =>
      let '(r, wb1) := do_Save wb in
      match r with
      | None => ([call_Save (Name wb)], None, wb1)
      | Some e =>
          if attempt <? max_retries - 1 then
            let '(evs, res, wb2) := retry_loop left' (S attempt) wb1 in
            (call_Save (Name wb) :: print_msg (line_retrying (attempt + 1))
               :: sleep 100 :: evs, res, wb2)
          else ([call_Save (Name wb)], Some e, wb1)
      end
  end.

Definition save_with_retry (wb : xl_workbook) :=
  retry_loop max_retries 0 wb.

(** The search loop: the first open workbook whose [Name] equals [name],
    with the workbooks before and after it. *)
Fixpoint find_workbook (name : string) (wbs : workbooks)
    : option (workbooks * xl_workbook * workbooks) :=
  match wbs with
  | [] => None
  | wb :: rest =>
      if String.eqb (Name wb) name then Some ([], wb, rest)
      else match find_workbook name rest with
           | Some (before, found, after) => Some (wb :: before, found, after)
           | None => None
           end
  end.

(** The body of the loop of [_save_workbooks_impl] for one selected workbook
    (the timestamp and elapsed-time lines, which decide nothing, are left
    out). *)
Definition save_one (idx total : nat) (name : string) (wbs : workbooks)
    : list event * workbooks :=
  match find_workbook name wbs with
  | Some (before, wb, after) =>
      let '(evs, res, wb') := save_with_retry wb in
      (evs ++ [print_msg (match res with
                          | None => line_saved idx total name
                          | Some e => line_failed idx total name e
                          end)],
       before ++ wb' :: after)
  | None => ([print_msg (line_not_found name)], wbs)
  end.

(** The body of the loop of [_save_and_close_impl]. *)
Definition save_and_close_one (idx total : nat) (name : string)
    (wbs : workbooks) : list event * workbooks :=
  match find_workbook name wbs with
  | Some (before, wb, after) =>
      let '(evs, res, wb') := save_with_retry wb in
      match res with
      | Some e =>
          (evs ++ [print_msg (line_failed idx total name e)],
           before ++ wb' :: after)
      | None =>
          match close_raises wb' with
          | Some e =>
              (evs ++ [call_Close (Name wb');
                       print_msg (line_failed idx total name e)],
               before ++ wb' :: after)
          | None =>
              (evs ++ [call_Close (Name wb');
                       print_msg (line_saved_and_closed idx total name)],
               before ++ after)
          end
      end
  | None => ([print_msg (line_not_found name)], wbs)
  end.

(** [for idx, (name, path, sheet, cell) in enumerate(selected_workbooks, 1)] *)
Fixpoint for_each_selected
    (body : nat -> nat -> string -> workbooks -> list event * workbooks)
    (idx total : nat) (names : list string) (wbs : workbooks)
    : list event * workbooks :=
  match names with
  | [] => ([], wbs)
  | name :: rest =>
      let '(evs, wbs1) := body idx total name wbs in
      let '(evs', wbs2) := for_each_selected body (S idx) total rest wbs1 in
      (evs ++ evs', wbs2)
  end.

Definition _save_workbooks_impl (names : list string) (wbs : workbooks) :=
  for_each_selected save_one 1 (List.length names) names wbs.

Definition _save_and_close_impl (names : list string) (wbs : workbooks) :=
  for_each_selected save_and_close_one 1 (List.length names) names wbs.

(** Reading a trace. *)
Definition is_Save (e : event) : bool :=
  match e with call_Save _ => true | _ => false end.

Definition is_sleep (e : event) : bool :=
  match e with sleep _ => true | _ => false end.

End ExcelSave.

(** ** core/performance_monitor.py *)

Module PerfMonitor.
Import PyStr.

(** [deque(maxlen=n).append(x)]: a full deque drops its oldest entry; with
    [maxlen=0] nothing is ever kept. *)
Definition deque_append {A : Type} (maxlen : nat) (x : A) (d : list A)
    : list A :=
  match maxlen with
  | 0 => []
  | _ => if maxlen <=? List.length d then tl d ++ [x] else d ++ [x]
  end.

Section Monitor.

(** Python floats and the operations the monitor applies to them; [millis t]
    is [int(t * 1000)]. *)
Variable float : Type.
Variable fsub : float -> float -> float.
Variable fge : float -> float -> bool.
Variable millis : float -> nat.
Variable float_of_nat : nat -> float.

Record PerformanceMetric := mk_metric {
  metric_name : string;
  value : float;
  unit_ : string;
  timestamp : float;
  category : string
}.

Record OperationTiming := mk_timing {
  operation : string;
  start_time : float;
  end_time : option float;
  duration : option float;
  success : bool;
  context : list (string * nat)
}.

Record monitor := mk_monitor {
  max_history : nat;
  metrics_history : list PerformanceMetric;
  operation_timings : list OperationTiming;
  active_operations : list (string * OperationTiming);
  cpu_percent : list float;
  memory_percent : list float;
  disk_usage : list float
}.

(** Events sent to the registered callbacks. *)
Inductive notification :=
| threshold_exceeded (issues : list string)
| very_slow_operation (op : string)
| slow_operation (op : string).

(** [PerformanceMonitor.__init__] *)
Definition init (max_history : nat) : monitor :=
  mk_monitor max_history [] [] [] [] [] [].

Definition system_maxlen : nat := 100.

(** [record_metric]; [now] is the clock read when no timestamp is given. *)
Definition record_metric (m : monitor) (name : string) (v : float)
    (unit_ category : string) (timestamp : option float) (now : float)
    : monitor :=
  let timestamp := match timestamp with Some t => t | None => now end in
  let metric := mk_metric name v unit_ timestamp category in
  mk_monitor (max_history m)
    (deque_append (max_history m) metric (metrics_history m))
    (operation_timings m) (active_operations m)
    (cpu_percent m) (memory_percent m) (disk_usage m).

(** [d[k] = v] *)
Fixpoint dict_set {V : Type} (k : string) (v : V) (d : list (string * V))
    : list (string * V) :=
  match d with
  | [] => [(k, v)]
  | (k', v') :: d' =>
      if String.eqb k' k then (k', v) :: d' else (k', v') :: dict_set k v d'
  end.

(** [d.pop(k)] guarded by [k in d] *)
Fixpoint dict_pop {V : Type} (k : string) (d : list (string * V))
    : option (V * list (string * V)) :=
  match d with
  | [] => None
  | (k', v') :: d' =>
      if String.eqb k' k then Some (v', d')
      else match dict_pop k d' with
           | Some (v, rest) => Some (v, (k', v') :: rest)
           | None => None
           end
  end.

(** [start_operation]; the clock is read twice. *)
Definition start_operation (m : monitor) (op : string)
    (ctx : list (string * nat)) (t_id t_start : float) : monitor * string :=
  let operation_id := (op ++ "_" ++ dec (millis t_id))%string in
  let timing := mk_timing op t_start None None true ctx in
  (mk_monitor (max_history m) (metrics_history m) (operation_timings m)
     (dict_set operation_id timing (active_operations m))
     (cpu_percent m) (memory_percent m) (disk_usage m),
   operation_id).

(** [end_operation] *)
Definition end_operation (m : monitor) (operation_id : string) (ok : bool)
    (t_end now : float) : monitor * list notification :=
  match dict_pop operation_id (active_operations m) with
  | None => (m, [])
  | Some (timing, rest) =>
      let d := fsub t_end (start_time timing) in
      let timing' := mk_timing (operation timing) (start_time timing)
                       (Some t_end) (Some d) ok (context timing) in
      let m1 := mk_monitor (max_history m) (metrics_history m)
                  (deque_append (max_history m) timing' (operation_timings m))
                  rest (cpu_percent m) (memory_percent m) (disk_usage m) in
      let m2 := record_metric m1 ("operation_" ++ operation timing)%string d
                  "seconds" "operations" None now in
      (m2,
       if fge d (float_of_nat 15) then [very_slow_operation (operation timing)]
       else if fge d (float_of_nat 5) then [slow_operation (operation timing)]
       else [])
  end.

(** [_check_performance_thresholds] *)
Definition _check_performance_thresholds (cpu mem : float)
    : list notification :=
  let issues :=
    ((if fge cpu (float_of_nat 95) then ["Critical CPU usage"]
      else if fge cpu (float_of_nat 80) then ["High CPU usage"] else [])
     ++
     (if fge mem (float_of_nat 95) then ["Critical memory usage"]
      else if fge mem (float_of_nat 80) then ["High memory usage"] else []))
  in match issues with [] => [] | _ => [threshold_exceeded issues] end.

(** One round of [_background_monitor] with the readings of [psutil]. *)
Definition monitor_round (m : monitor) (cpu mem disk now : float)
    : monitor * list notification :=
  let m1 := mk_monitor (max_history m) (metrics_history m)
              (operation_timings m) (active_operations m)
              (deque_append system_maxlen cpu (cpu_percent m))
              (deque_append system_maxlen mem (memory_percent m))
              (deque_append system_maxlen disk (disk_usage m)) in
  let m2 := record_metric m1 "cpu_usage" cpu "percent" "system"
              (Some now) now in
  let m3 := record_metric m2 "memory_usage" mem "percent" "system"
              (Some now) now in
  let m4 := record_metric m3 "disk_usage" disk "percent" "system"
              (Some now) now in
  (m4, _check_performance_thresholds cpu mem).

(** The calls that reach a monitor, with the values each one reads. *)
Inductive call :=
| do_record_metric (name : string) (v : float) (unit_ category : string)
    (timestamp : option float) (now : float)
| do_start_operation (op : string) (ctx : list (string * nat))
    (t_id t_start : float)
| do_end_operation (operation_id : string) (ok : bool) (t_end now : float)
| do_monitor_round (cpu mem disk now : float).

Definition step (m : monitor) (c : call) : monitor :=
  match c with
  | do_record_metric name v u cat ts now => record_metric m name v u cat ts now
  | do_start_operation op ctx t1 t2 => fst (start_operation m op ctx t1 t2)
  | do_end_operation id ok t now => fst (end_operation m id ok t now)
  | do_monitor_round cpu mem disk now => fst (monitor_round m cpu mem disk now)
  end.

Definition run (calls : list call) (m : monitor) : monitor :=
  fold_left step calls m.

(** The bound the buffers are declared with. *)
Definition bounded (m : monitor) : Prop :=
  List.length (metrics_history m) <= max_history m /\
  List.length (operation_timings m) <= max_history m /\
  List.length (cpu_percent m) <= system_maxlen /\
  List.length (memory_percent m) <= system_maxlen /\
  List.length (disk_usage m) <= system_maxlen.

End Monitor.

(** [PerformanceMonitor(max_history)], the argument defaulting to 1000. *)
Definition PerformanceMonitor (float : Type) (max_history : option nat)
    : monitor float :=
  init float (match max_history with Some n => n | None => 1000 end).

End PerfMonitor.

(** ** excel_session_manager_link_updater.py *)

Module LinkUpdater.
Import PyStr.

Local Open Scope Z_scope.

(** A value of the [options] dictionary. *)
Inductive opt_value :=
| OInt (z : Z)
| OStr (s : string)
| OBool (b : bool).

Definition options := list (string * opt_value).

(** [options.get(key)] *)
Fixpoint get (key : string) (o : options) : option opt_value :=
  match o with
  | [] => None
  | (k, v) :: rest => if String.eqb k key then Some v else get key rest
  end.

(** [int(v)]; [None] stands for [ValueError]. *)
Definition int_of (v : opt_value) : option Z :=
  match v with
  | OInt z => Some z
  | OStr s => py_int s
  | OBool b => Some (if b then 1 else 0)
  end.

(** [CHECK_DAYS = int(options.get("CHECK_DAYS", 14))] *)
Definition CHECK_DAYS (o : options) : option Z :=
  match get "CHECK_DAYS" o with
  | Some v => int_of v
  | None => Some 14
  end.

(** A [datetime] is counted in microseconds from 0001-01-01 00:00:00, the
    smallest one; [datetime_max] is 9999-12-31 23:59:59.999999. *)
Definition us_per_day : Z := 86400000000.
Definition datetime_max : Z := 3652059 * us_per_day - 1.
Definition timedelta_max_days : Z := 999999999.

(** [datetime.now() - timedelta(days=CHECK_DAYS)]; [None] stands for the
    [OverflowError] of a delta or a result out of range. *)
Definition threshold_date (now days : Z) : option Z :=
  if (Z.abs days <=? timedelta_max_days) then
    let t := now - days * us_per_day in
    if (0 <=? t) && (t <=? datetime_max) then Some t else None
  else None.

(** The file system: [getmtime p] is [None] when [p] does not exist or its
    time cannot be read ([get_last_modified_date] returns [None] in both
    cases); [samefile a b] is [None] when [os.path.samefile] raises. *)
Record world := mk_world {
  getmtime : string -> option Z;
  samefile : string -> string -> option bool;
  UpdateLink_raises : string -> string -> bool
}.

(** An open workbook: [FullName] is [None] when reading the property
    raises; [LinkSources] is [None] when the call raises, and an empty list
    stands for any falsy answer. *)
Record workbook := mk_workbook {
  FullName : option string;
  LinkSources : option (list string)
}.

(** [get_last_modified_date] *)
Definition get_last_modified_date (w : world) (file_path : string)
    : option Z := getmtime w file_path.

(** [is_workbook_open]: an exception inside the loop, from [wb.FullName]
    or from [os.path.samefile], ends it with [False]. *)
Fixpoint is_workbook_open (w : world) (open_workbooks : list workbook)
    (file_path : string) : bool :=
  match open_workbooks with
  | [] => false
  | wb :: rest =>
      match FullName wb with
      | None => false
      | Some full_name =>
          match samefile w full_name file_path with
          | Some true => true
          | Some false => is_workbook_open w rest file_path
          | None => false
          end
      end
  end.

(** The test that puts a link on [updated_links]. *)
Definition needs_update (w : world) (open_workbooks : list workbook)
    (threshold : Z) (link : string) : bool :=
  match get_last_modified_date w link with
  | Some last_modified =>
      if threshold <=? last_modified then
        negb (is_workbook_open w open_workbooks link)
      else false
  | None => false
  end.

(** A call [workbook.UpdateLink(Name=link, Type=xlExcelLinks)]. *)
Record update_call := mk_call {
  on_workbook : string;
  link_name : string
}.

(** The inner [try] of the workbook loop: the calls made for one workbook
    whose [FullName] was read as [workbook_name]. *)
Definition update_workbook (w : world) (open_workbooks : list workbook)
    (threshold : Z) (workbook_name : string) (wb : workbook)
    : list update_call :=
  match LinkSources wb with
  | None => []
  | Some links =>
      let updated_links :=
        filter (needs_update w open_workbooks threshold) links in
      map (mk_call workbook_name) updated_links
  end.

(** The workbooks the loop gets to, each with the name read at its start:
    [workbook.FullName] is read outside the inner [try], so the first
    workbook for which it raises ends the loop ('Process failed') and the
    workbooks after it are not looked at. *)
Fixpoint reached (open_workbooks : list workbook)
    : list (string * workbook) :=
  match open_workbooks with
  | [] => []
  | wb :: rest =>
      match FullName wb with
      | Some workbook_name => (workbook_name, wb) :: reached rest
      | None => []
      end
  end.

Record run_result := mk_result {
  calls : list update_call;
  total_workbooks : nat;
  total_updated : nat
}.

(** [check_and_update_links] once the threshold is known. *)
Definition check_and_update_links (w : world) (open_workbooks : list workbook)
    (threshold : Z) : run_result :=
  let cs := flat_map (fun nw => update_workbook w open_workbooks threshold
                                  (fst nw) (snd nw))
              (reached open_workbooks) in
  mk_result cs (List.length open_workbooks)
    (List.length
       (filter (fun c => negb (UpdateLink_raises w (on_workbook c)
                                 (link_name c))) cs)).

(** [run_excel_link_update]; [None] when the run raises before it looks at
    any workbook. [now] is the clock when the scan starts. *)
Definition run_excel_link_update (o : options) (now : Z) (w : world)
    (open_workbooks : list workbook) : option run_result :=
  match CHECK_DAYS o with
  | None => None
  | Some days =>
      match threshold_date now days with
      | None => None
      | Some threshold =>
          Some (check_and_update_links w open_workbooks threshold)
      end
  end.

(** Some open workbook is the file [file_path]. *)
Definition target_is_open (w : world) (open_workbooks : list workbook)
    (file_path : string) : Prop :=
  exists wb full_name,
    In wb open_workbooks /\ FullName wb = Some full_name /\
    samefile w full_name file_path = Some true.

End LinkUpdater.

(** ** core/external_links_manager.py: statistics and export *)

Module Reports.
Import PyStr ExternalLinks.

(** The text a link's [link_type] field holds. *)
Definition link_type_str (t : LinkType) : string :=
  match t with LinkSource => "LinkSource" | Formula => "Formula" end.

(** [len(set(xs))]: the number of different values in [xs]. *)
Definition distinct_count (xs : list string) : nat :=
  List.length (first_occurrences xs).

Definition is_link_source (link : ExternalLink) : bool :=
  match link_type link with LinkSource => true | Formula => false end.

Definition is_formula_link (link : ExternalLink) : bool :=
  match link_type link with Formula => true | LinkSource => false end.

(** The dictionary [get_statistics] returns. *)
Record link_statistics := mk_link_statistics {
  stat_total_links : nat;
  stat_unique_external_files : nat;
  stat_unique_source_workbooks : nat;
  stat_link_sources : nat;
  stat_formula_links : nat
}.

(** [get_statistics] *)
Definition get_statistics (m : manager) : link_statistics :=
  let unique_external_files :=
    distinct_count (map target_file (external_links m)) in
  let unique_source_workbooks :=
    distinct_count (map source_workbook (external_links m)) in
  mk_link_statistics
    (List.length (external_links m))
    unique_external_files
    unique_source_workbooks
    (List.length (filter is_link_source (external_links m)))
    (List.length (filter is_formula_link (external_links m))).

(** One dictionary of [export_to_dict], its keys in the order written. *)
Definition export_row (link : ExternalLink) : dict string :=
  [ ("Source Workbook", source_workbook link);
    ("Source Sheet", source_sheet link);
    ("Source Cell", source_cell link);
    ("External File", target_file link);
    ("Formula", formula link);
    ("Link Type", link_type_str (link_type link)) ].

(** [export_to_dict] *)
Definition export_to_dict (m : manager) : list (dict string) :=
  map export_row (external_links m).

End Reports.

(** ** utils/external_links_utils.py: display formats and CSV export *)

Module LinksUtils.
Import PyStr ExternalLinks.

(** [s[:k]] for an integer [k]: a negative [k] counts from the end. *)
Definition slice_to (k : Z) (s : string) : string :=
  let n := Z.of_nat (String.length s) in
  if (k <? 0)%Z then substring 0 (Z.to_nat (n + k)) s
  else substring 0 (Z.to_nat k) s.

(** [DataFormatter.truncate_formula] *)
Definition truncate_formula (formula : string) (max_length : Z) : string :=
  if (Z.of_nat (String.length formula) <=? max_length)%Z then formula
  else (slice_to (max_length - 3) formula ++ "...")%string.

(** [DataFormatter.format_reference_count], for the length of a list. *)
Definition format_reference_count (count : nat) : string :=
  if count =? 1 then "1 reference" else (dec count ++ " references")%string.

(** [s.replace(c, '')] for a one-character [c]. *)
Fixpoint remove_char (c : ascii) (s : string) : string :=
  match s with
  | EmptyString => EmptyString
  | String a s' =>
      if Ascii.eqb a c then remove_char c s' else String a (remove_char c s')
  end.

(** [DataFormatter.format_cell_address] *)
Definition format_cell_address (address : string) : string :=
  if negb (nonempty address) then "" else remove_char "$" address.

(** The location column of the links dialog for one link. *)
Definition location_text (link : ExternalLink) : string :=
  if nonempty (source_sheet link)
  then (source_sheet link ++ "!" ++ format_cell_address (source_cell link))%string
  else "LinkSource".

(** [d.get(k, '')] *)
Fixpoint dict_get (k : string) (d : dict string) : string :=
  match d with
  | [] => ""
  | (k', v) :: d' => if String.eqb k' k then v else dict_get k d'
  end.

(** What [csv.DictWriter.writerow] writes for [row]: its values in the order
    of [fieldnames], an empty field for a missing key; [None] stands for the
    [ValueError] raised when [row] has a key that is no field name. *)
Definition writerow (fieldnames : list string) (row : dict string)
    : option (list string) :=
  if forallb (fun kv => existsb (String.eqb (fst kv)) fieldnames) row
  then Some (map (fun f => dict_get f row) fieldnames)
  else None.

Inductive export_status :=
| exported          (* (True, "... exported successfully to <path>") *)
| no_data           (* (False, "No data to export") *)
| export_failed.    (* (False, "Export failed: ...") *)

(** The outcome of an export: its answer and the rows the file holds
    afterwards, [None] when the file could not be opened. *)
Definition export_outcome := (export_status * option (list (list string)))%type.

(** The loop of [export_to_csv] over the rows, after the header. *)
Fixpoint write_rows (fieldnames : list string) (include_timestamp : bool)
    (scan_time : string) (data : list (dict string))
    (written : list (list string)) : export_outcome :=
  match data with
  | [] => (exported, Some written)
  | row :: rest =>
      let row' := if include_timestamp
                  then dict_set "Scan Time" scan_time row else row in
      match writerow fieldnames row' with
      | Some fields =>
          write_rows fieldnames include_timestamp scan_time rest
            (written ++ [fields])
      | None => (export_failed, Some written)
      end
  end.

(** [ExternalLinksExporter.export_to_csv]; [can_open] tells whether
    [open(file_path, 'w')] succeeds and [scan_time] is the clock text. *)
Definition export_to_csv (can_open : bool) (scan_time : string)
    (data : list (dict string)) (include_timestamp : bool) : export_outcome :=
  if negb can_open then (export_failed, None)
  else
    match data with
    | [] => (no_data, Some [])
    | first :: _ =>
        let fieldnames :=
          map fst first ++ (if include_timestamp then ["Scan Time"] else []) in
        write_rows fieldnames include_timestamp scan_time data [fieldnames]
    end.

Definition grouped_fieldnames : list string :=
  [ "External File"; "Reference Count"; "Source Workbook"; "Source Sheet";
    "Source Cell"; "Formula"; "Link Type" ].

(** The row [export_grouped_to_csv] writes for the [i]-th link of a group. *)
Definition grouped_row (external_file : string) (group : ExternalFileGroup)
    (i : nat) (link : ExternalLink) : list string :=
  [ if i =? 0 then external_file else "";
    if i =? 0 then dec (reference_count group) else "";
    source_workbook link; source_sheet link; source_cell link;
    formula link; Reports.link_type_str (link_type link) ].

(** [enumerate(xs)] from index [i]. *)
Fixpoint enumerate_from {A : Type} (i : nat) (xs : list A) : list (nat * A) :=
  match xs with
  | [] => []
  | x :: rest => (i, x) :: enumerate_from (S i) rest
  end.

Definition blank_row : list string := map (fun _ => "") grouped_fieldnames.

(** The rows written for one group: its links, then the separating empty
    row when there is more than one group. *)
Definition group_rows (separate : bool) (item : string * ExternalFileGroup)
    : list (list string) :=
  map (fun il => grouped_row (fst item) (snd item) (fst il) (snd il))
      (enumerate_from 0 (links (snd item)))
  ++ (if separate then [blank_row] else []).

(** [ExternalLinksExporter.export_grouped_to_csv] *)
Definition export_grouped_to_csv (can_open : bool)
    (grouped_data : dict ExternalFileGroup) : export_outcome :=
  if negb can_open then (export_failed, None)
  else
    (exported,
     Some (grouped_fieldnames ::
           flat_map (group_rows (1 <? List.length grouped_data)) grouped_data)).

End LinksUtils.

(** ** core/excel_manager.py: listing the open workbooks *)

Module ExcelInfo.
Import PyStr FileUtils.

(** What the properties of one open workbook answer. [None] stands for a
    property that raises; the active sheet and cell are [Some None] when
    Excel has none, else [Some (Some text)] with the sheet name or the
    address. *)
Record workbook_read := mk_workbook_read {
  read_Name : option string;
  read_FullName : option string;
  read_ActiveSheet : option (option string);
  read_ActiveCell : option (option string)
}.

(** The four lists [_get_workbooks] fills. *)
Record lists := mk_lists {
  file_list : list string;
  sheet_list : list string;
  cell_list : list string;
  path_list : list string
}.

Definition no_lists : lists := mk_lists [] [] [] [].

(** The handler of the inner [try]: "Error" goes to all four lists. *)
Definition append_errors (l : lists) : lists :=
  mk_lists (file_list l ++ ["Error"]) (sheet_list l ++ ["Error"])
           (cell_list l ++ ["Error"]) (path_list l ++ ["Error"]).

Definition text_or_empty (v : option string) : string :=
  match v with Some s => s | None => "" end.

(** The body of the workbook loop. The second component is [false] when the
    loop is left: a workbook whose [Name] raises makes the handler, which
    reads [Name] again for its message, raise in turn. *)
Definition read_workbook (wb : workbook_read) (l : lists) : lists * bool :=
  match read_Name wb with
  | None => (l, false)
  | Some name =>
      let l1 := mk_lists (file_list l ++ [name]) (sheet_list l)
                  (cell_list l) (path_list l) in
      match read_FullName wb with
      | None => (append_errors l1, true)
      | Some full_name =>
          let l2 := mk_lists (file_list l1) (sheet_list l1) (cell_list l1)
                      (path_list l1 ++ [full_name]) in
          match read_ActiveSheet wb with
          | None => (append_errors l2, true)
          | Some active_sheet =>
              let active_cell :=
                match read_ActiveCell wb with
                | Some cell => text_or_empty cell
                | None => ""
                end in
              (mk_lists (file_list l2)
                 (sheet_list l2 ++ [text_or_empty active_sheet])
                 (cell_list l2 ++ [active_cell]) (path_list l2), true)
          end
      end
  end.

Fixpoint read_workbooks (wbs : list workbook_read) (l : lists) : lists :=
  match wbs with
  | [] => l
  | wb :: rest =>
      let '(l', continue) := read_workbook wb l in
      if continue then read_workbooks rest l' else l'
  end.

(** [get_open_workbooks]; [None] for an Excel that cannot be reached. The
    result is (file_list, sheet_list, cell_list, path_list). *)
Definition get_open_workbooks (excel : option (list workbook_read)) : lists :=
  match excel with
  | Some wbs => read_workbooks wbs no_lists
  | None => no_lists
  end.

(** [get_workbook_details] *)
Definition get_workbook_details (fs : filesystem)
    (file_list sheet_list cell_list path_list : list string)
    : list (string * string * string * string * string) :=
  map (fun i =>
         let name := nth i file_list "" in
         let path := nth i path_list "" in
         let sheet := nth i sheet_list "" in
         let cell := nth i cell_list "" in
         let mtime_str :=
           if nonempty path then get_file_mtime_str fs path else "" in
         (name, path, sheet, cell, mtime_str))
      (seq 0 (List.length file_list)).

Definition details_of (fs : filesystem) (l : lists) :=
  get_workbook_details fs (file_list l) (sheet_list l) (cell_list l)
    (path_list l).

End ExcelInfo.

(** ** ui/main_window.py: the rows of the workbook list and their order *)

Module MainWindow.
Import PyStr FileUtils ExcelInfo.

(** A row of the list: the [values] (name, modified) of a tree item. *)
Definition row := (string * string)%type.

(** [show_names]: one row per entry of [get_workbook_details]. *)
Definition show_names (fs : filesystem) (l : lists) : list row :=
  map (fun d => let '(name, _, _, _, mtime_str) := d in (name, mtime_str))
      (details_of fs l).

Inductive sort_state := none | asc | desc.
Inductive column := col1 | col2.

Record window := mk_window {
  items : list row;                       (* the rows of the tree, in order *)
  original_data : option (list row);      (* unset until the first sort *)
  col1_state : sort_state;
  col2_state : sort_state
}.

Definition datetime_min : datetime := mk_datetime 1 1 1 0 0 0.

(** [a < b] on datetimes. *)
Definition datetime_ltb (a b : datetime) : bool :=
  let fields d := [year d; month d; day d; hour d; minute d; second d] in
  (fix lex (x y : list nat) : bool :=
     match x, y with
     | p :: x', q :: y' => (p <? q) || ((p =? q) && lex x' y')
     | _, _ => false
     end) (fields a) (fields b).

(** The sort keys of the two columns. *)
Definition key1 (x : row) : string := lower (fst x).
Definition key2 (x : row) : datetime :=
  match parse_mtime (snd x) with Some dt => dt | None => datetime_min end.

Section Sorted.
Variables (A K : Type) (ltb : K -> K -> bool) (key : A -> K).

(** Stable insertion: [x] goes before the first element whose key is not
    smaller than its own. *)
Fixpoint insert (x : A) (l : list A) : list A :=
  match l with
  | [] => [x]
  | y :: l' => if ltb (key y) (key x) then y :: insert x l' else x :: l
  end.

Definition stable_sort (l : list A) : list A := fold_right insert [] l.

(** [sorted(items, key=key, reverse=reverse)]: a stable sort; with [reverse]
    the list is reversed before and after, so equal keys keep their
    order. *)
Definition sorted (reverse : bool) (l : list A) : list A :=
  if reverse then rev (stable_sort (rev l)) else stable_sort l.

End Sorted.

Definition next_state (s : sort_state) : sort_state :=
  match s with none => asc | asc => desc | desc => none end.

(** [sort_column] *)
Definition sort_column (col : column) (w : window) : window :=
  let original :=
    match original_data w with
    | Some o => if List.length o =? List.length (items w)
                then o else items w
    | None => items w
    end in
  let state := next_state (match col with
                           | col1 => col1_state w
                           | col2 => col2_state w
                           end) in
  let sorted_items :=
    match state with
    | none => original
    | _ =>
        let reverse := match state with desc => true | _ => false end in
        match col with
        | col1 => sorted row string String.ltb key1 reverse (items w)
        | col2 => sorted row datetime datetime_ltb key2 reverse (items w)
        end
    end in
  mk_window sorted_items (Some original)
    (match col with col1 => state | col2 => none end)
    (match col with col2 => state | col1 => none end).

End MainWindow.

(** ** core/performance_monitor.py: the status of a reading *)

Module PerfOps.
Import PyStr PerfMonitor.

Section Ops.
Variable float : Type.
Variable fsub : float -> float -> float.
Variable fge : float -> float -> bool.
Variable millis : float -> nat.
Variable float_of_nat : nat -> float.

(** [_get_status], with the thresholds the constructor sets. *)
Definition _get_status (v : float) (metric_type : string) : string :=
  if String.eqb metric_type "cpu" then
    if fge v (float_of_nat 95) then "critical"
    else if fge v (float_of_nat 80) then "warning" else "normal"
  else if String.eqb metric_type "memory" then
    if fge v (float_of_nat 95) then "critical"
    else if fge v (float_of_nat 80) then "warning" else "normal"
  else "normal".

End Ops.

End PerfOps.

(** ** core/session_manager.py: opening the files of a session *)

Module SessionLoad.
Import PyStr Session.

(** What Excel answers when the loader opens [path]: [None] when [Open]
    raises; otherwise whether the workbook is read-only, whether the sheet
    can be activated and whether the cell can be selected. *)
Record opened := mk_opened {
  ReadOnly : bool;
  sheet_ok : cell_value -> bool;
  cell_ok : cell_value -> cell_value -> bool
}.

(** [dispatch_raises] is the exception text when Excel cannot be reached. *)
Record excel := mk_excel {
  dispatch_raises : option string;
  Open : cell_value -> option opened
}.

Inductive line :=
| line_no_files
| line_loading (n : nat)
| line_opening (idx total : nat) (path : cell_value)
| line_read_only (path : cell_value)
| line_select_error
| line_opened (idx total : nat) (path : cell_value)
| line_failed (idx total : nat) (path : cell_value)
| line_all_loaded (n : nat)
| line_error (e : string).

Inductive event :=
| print_func (l : line)
| set_Visible
| set_AskToUpdateLinks (b : bool)
| call_Open (path : cell_value)
| call_Activate (sheet : cell_value)
| call_Select (cell : cell_value)
| show (d : dialog).

(** [r[i] if len(r) > i else None] *)
Definition column (i : nat) (r : session_row_read) : cell_value :=
  nth i r CNone.

(** The body of the loop for one row. *)
Definition load_row (xl : excel) (idx total : nat) (r : session_row_read)
    : list event :=
  let path := first_cell r in
  let sheet := column 1 r in
  let cell := column 2 r in
  [print_func (line_opening idx total path); call_Open path] ++
  match Open xl path with
  | Some wb =>
      (if ReadOnly wb then [print_func (line_read_only path)] else [])
      ++ [set_Visible]
      ++ (if truthy sheet then
            if sheet_ok wb sheet then
              call_Activate sheet ::
              (if truthy cell then
                 call_Select cell ::
                 (if cell_ok wb sheet cell then []
                  else [print_func line_select_error])
               else [])
            else [call_Activate sheet; print_func line_select_error]
          else [])
      ++ [print_func (line_opened idx total path)]
  | None => [print_func (line_failed idx total path)]
  end.

Fixpoint load_rows (xl : excel) (idx total : nat)
    (rows : list session_row_read) : list event :=
  match rows with
  | [] => []
  | r :: rest => load_row xl idx total r ++ load_rows xl (S idx) total rest
  end.

(** [_load_files_thread] (the time stamps, the elapsed times and the
    separator lines of the progress console are left out). *)
Definition _load_files_thread (xl : excel)
    (selected_rows : list session_row_read) : list event :=
  match selected_rows with
  | [] => [print_func line_no_files;
           show (showwarning "Warning" "No files selected to load.")]
  | _ =>
      let n := List.length selected_rows in
      print_func (line_loading n) ::
      match dispatch_raises xl with
      | None =>
          [set_Visible; set_AskToUpdateLinks false]
          ++ load_rows xl 1 n selected_rows
          ++ [set_AskToUpdateLinks true; print_func (line_all_loaded n);
              show (showinfo "Complete" (dec n ++ " file(s) opened."))]
      | Some e =>
          [print_func (line_error e);
           show (showerror "Error"
                   ("Error loading session:" ++ newline ++ e))]
      end
  end.


End SessionLoad.

(** ** excel_session_manager_link_updater.py: what the run reports *)

Module LinkReport.
Import PyStr LinkUpdater.

Local Open Scope Z_scope.

(** [str(n)] for an integer. *)
Definition str_int (z : Z) : string := NilZero.string_of_int (Z.to_int z).

(** [(datetime.now() - last_modified).days] *)
Definition days_since (now last_modified : Z) : Z :=
  (now - last_modified) / us_per_day.

(** [get_days_ago]; [now] is the clock when the line is written. *)
Definition get_days_ago (now : Z) (last_modified : option Z) : string :=
  match last_modified with
  | None => ""
  | Some t => ("(" ++ str_int (days_since now t) ++ " days ago)")%string
  end.

Section Summary.

(** [os.path.dirname] and [os.path.basename] *)
Variables dirname basename : string -> string.

(** The records one workbook adds to [summary_records]. *)
Definition workbook_records (workbook_name : string) (wb : workbook)
    : list (string * string * string) :=
  let folderpath := dirname workbook_name in
  let filename := basename workbook_name in
  match LinkSources wb with
  | None => []
  | Some [] => [(folderpath, filename, "No external links found")]
  | Some links => map (fun link => (folderpath, filename, link)) links
  end.

Definition summary_records (open_workbooks : list workbook)
    : list (string * string * string) :=
  flat_map (fun nw => workbook_records (fst nw) (snd nw))
    (reached open_workbooks).

(** The sheet written at the end of the run: only when the option
    [SAVE_SCAN_SUMMARY] is set and there is a record. *)
Definition summary_sheet (save_scan_summary : bool)
    (open_workbooks : list workbook) : option (list (list string)) :=
  if save_scan_summary then
    match summary_records open_workbooks with
    | [] => None
    | records =>
        Some (["Scanned file path"; "Scanned file"; "External Linkage"]
              :: map (fun rec => let '(a, b, c) := rec in [a; b; c]) records)
    end
  else None.

End Summary.

End LinkReport.

(** * Properties *)

Module PyStrFacts.
Import PyStr.

Lemma all_chars_app p s t :
  all_chars p (s ++ t)%string = all_chars p s && all_chars p t.
Proof.
  induction s as [|c s IH]; simpl; [reflexivity|].
  rewrite IH. now rewrite andb_assoc.
Qed.

Lemma all_chars_weaken (p q : ascii -> bool) s :
  (forall c, p c = true -> q c = true) ->
  all_chars p s = true -> all_chars q s = true.
Proof.
  intros Hpq. induction s as [|c s IH]; simpl; [reflexivity|].
  intros H. apply andb_prop in H as [Hc Hs].
  rewrite (Hpq _ Hc), (IH Hs). reflexivity.
Qed.

Lemma split_by_not_nil p s : split_by p s <> [].
Proof.
  destruct s as [|c s]; simpl; [discriminate|].
  destruct (p c); [discriminate|].
  destruct (split_by p s); discriminate.
Qed.

(** A string without separator is returned whole. *)
Lemma split_by_none p s :
  all_chars (fun c => negb (p c)) s = true -> split_by p s = [s].
Proof.
  induction s as [|c s IH]; simpl; [reflexivity|].
  intros H. apply andb_prop in H as [Hc Hs].
  apply negb_true_iff in Hc. rewrite Hc, (IH Hs). reflexivity.
Qed.

(** The pieces only contain characters of the string that was cut. *)
Lemma split_by_all_chars p q s :
  all_chars q s = true ->
  Forall (fun t => all_chars q t = true) (split_by p s).
Proof.
  induction s as [|c s IH]; simpl; intros H.
  - repeat constructor.
  - apply andb_prop in H as [Hc Hs]. specialize (IH Hs).
    destruct (p c).
    + constructor; [reflexivity | exact IH].
    + destruct (split_by p s) as [|h t] eqn:E.
      * constructor; [simpl; now rewrite Hc | constructor].
      * inversion IH; subst. constructor; [simpl|assumption].
        rewrite Hc. assumption.
Qed.

Lemma split_ws_all_chars q s :
  all_chars q s = true ->
  Forall (fun t => all_chars q t = true) (split_ws s).
Proof.
  intros H. unfold split_ws.
  apply Forall_forall. intros t Ht. apply filter_In in Ht as [Ht _].
  pose proof (split_by_all_chars is_space q s H) as HF.
  rewrite Forall_forall in HF. now apply HF.
Qed.

Lemma uint_all_digits (u : Decimal.uint) :
  all_chars is_digit (NilEmpty.string_of_uint u) = true.
Proof. induction u; simpl; auto. Qed.

Lemma dec_all_digits n : all_chars is_digit (dec n) = true.
Proof. apply uint_all_digits. Qed.

Lemma dec02_all_digits n : all_chars is_digit (dec02 n) = true.
Proof.
  unfold dec02. destruct (n <? 10); simpl; apply dec_all_digits.
Qed.

(** [int()] skips blanks and line ends around the digits, and rejects the
    separator 0x1C that [str.strip()] would remove. *)
Example py_int_whitespace :
  py_int (" 14" ++ newline) = Some 14%Z /\
  py_int (String (ascii_of_nat 28) "14") = None.
Proof. split; reflexivity. Qed.

End PyStrFacts.

(** ** utils/file_utils.py: the two time formats *)

Module FileUtilsFacts.
Import PyStr PyStrFacts FileUtils.

Definition not_slash (c : ascii) : bool := negb (Ascii.eqb "/" c).

Lemma digit_not_slash c : is_digit c = true -> not_slash c = true.
Proof.
  unfold is_digit, not_slash. intros H.
  destruct (Ascii.eqb_spec "/"%char c) as [<-|]; [discriminate H | reflexivity].
Qed.

Lemma dec_no_slash n : all_chars not_slash (dec n) = true.
Proof.
  apply all_chars_weaken with (p := is_digit);
    [exact digit_not_slash | apply dec_all_digits].
Qed.

Lemma dec02_no_slash n : all_chars not_slash (dec02 n) = true.
Proof.
  apply all_chars_weaken with (p := is_digit);
    [exact digit_not_slash | apply dec02_all_digits].
Qed.

(** No slash is ever written by [get_file_mtime_str]. *)
Lemma get_file_mtime_str_no_slash fs path :
  all_chars not_slash (get_file_mtime_str fs path) = true.
Proof.
  unfold get_file_mtime_str. destruct (fs path) as [dt|]; [|reflexivity].
  repeat rewrite all_chars_app.
  rewrite dec_no_slash. repeat rewrite dec02_no_slash. reflexivity.
Qed.

(** A text without slash has a one-piece date, which cannot be unpacked into
    day, month and year. *)
Lemma parse_mtime_needs_slash s :
  all_chars not_slash s = true -> parse_mtime s = None.
Proof.
  intros H. unfold parse_mtime.
  pose proof (split_ws_all_chars not_slash s H) as HF.
  destruct (split_ws s) as [|date [|time_part rest]]; try reflexivity.
  inversion HF as [|? ? Hdate _]; subst.
  unfold split_on at 1.
  rewrite (split_by_none (Ascii.eqb "/") date Hdate). simpl.
  destruct (py_int date); reflexivity.
Qed.

Example get_file_mtime_str_sample :
  get_file_mtime_str
    (fun p => if String.eqb p "book.xlsx"
              then Some (mk_datetime 2024 1 15 13 45 7) else None)
    "book.xlsx" = "2024-01-15 13:45:07".
Proof. reflexivity. Qed.

Example parse_mtime_sample :
  parse_mtime "15/01/2024 13:45" = Some (mk_datetime 2024 1 15 13 45 0).
Proof. reflexivity. Qed.

Example parse_mtime_rejects_day_31_in_april :
  parse_mtime "31/04/2024 13:45" = None.
Proof. reflexivity. Qed.

(** C9: [parse_mtime] returns [None] on every text [get_file_mtime_str]
    produces, the empty text of a missing file included: the first writes
    "YYYY-MM-DD HH:MM:SS", the second reads "dd/mm/yyyy hh:mm". *)
Theorem parse_mtime_of_get_file_mtime_str :
  forall (fs : filesystem) (path : string),
    parse_mtime (get_file_mtime_str fs path) = None.
Proof.
  intros fs path. apply parse_mtime_needs_slash.
  apply get_file_mtime_str_no_slash.
Qed.

End FileUtilsFacts.

(** ** core/external_links_manager.py: searching and grouping *)

Module ExternalLinksFacts.
Import PyStr ExternalLinks.

(** *** Searching *)

Lemma link_matches_unknown_field kw field link :
  field <> "external_file" -> field <> "formula" ->
  field <> "source_workbook" -> field <> "all" ->
  link_matches kw field link = false.
Proof.
  intros H1 H2 H3 H4. unfold link_matches.
  apply String.eqb_neq in H1, H2, H3, H4.
  now rewrite H1, H2, H3, H4.
Qed.

Lemma filter_none {A} (p : A -> bool) (l : list A) :
  (forall x, p x = false) -> filter p l = [].
Proof.
  intros H. induction l as [|x l IH]; simpl; [reflexivity|].
  now rewrite H.
Qed.

Lemma nonempty_true s : s <> "" -> nonempty s = true.
Proof. destruct s; [congruence | reflexivity]. Qed.

Lemma search_links_subset m kw field link :
  In link (search_links m kw field) -> In link (external_links m).
Proof.
  unfold search_links. destruct (negb (nonempty kw)); [trivial|].
  intros H. now apply filter_In in H.
Qed.

(** *** The [defaultdict] of the grouping loops *)

Definition keys {V} (d : dict V) : list string := map fst d.

Definition same_target (f : string) (link : ExternalLink) : bool :=
  String.eqb (target_file link) f.

Lemma dd_append_keys_In {V} k (v : V) d x :
  In x (keys (dd_append k v d)) <-> x = k \/ In x (keys d).
Proof.
  induction d as [|[k' vs] d IH]; simpl.
  - intuition.
  - destruct (String.eqb_spec k' k) as [->|Hne]; simpl.
    + intuition.
    + rewrite IH. intuition.
Qed.

Lemma dd_append_keys_NoDup {V} k (v : V) d :
  NoDup (keys d) -> NoDup (keys (dd_append k v d)).
Proof.
  induction d as [|[k' vs] d IH]; simpl; intros H.
  - repeat constructor. intros [].
  - inversion H as [|? ? Hnin Hd]; subst.
    destruct (String.eqb_spec k' k) as [->|Hne]; simpl.
    + now constructor.
    + constructor; [|now apply IH].
      intros Hin. apply dd_append_keys_In in Hin as [->|Hin]; tauto.
Qed.

Lemma dd_append_concat {V} k (v : V) d :
  Permutation (List.concat (map snd (dd_append k v d))) (v :: List.concat (map snd d)).
Proof.
  induction d as [|[k' vs] d IH]; simpl.
  - apply Permutation_refl.
  - destruct (String.eqb k' k); simpl.
    + rewrite <- app_assoc. simpl. symmetry. apply Permutation_middle.
    + rewrite IH. symmetry. apply Permutation_middle.
Qed.

(** Where an entry of the dictionary comes from after one [append]. *)
Lemma dd_append_entry {V} k (v : V) d k' vs' :
  NoDup (keys d) ->
  In (k', vs') (dd_append k v d) ->
  (k' <> k /\ In (k', vs') d)
  \/ (k' = k /\ exists vs, vs' = vs ++ [v] /\ In (k, vs) d)
  \/ (k' = k /\ vs' = [v] /\ ~ In k (keys d)).
Proof.
  induction d as [|[k0 vs0] d IH]; simpl; intros Hnd Hin.
  - destruct Hin as [Heq|[]]. inversion Heq; subst. right; right. tauto.
  - inversion Hnd as [|? ? Hnin Hd]; subst.
    destruct (String.eqb_spec k0 k) as [->|Hne].
    + destruct Hin as [Heq|Hin].
      * inversion Heq; subst. right; left. split; [reflexivity|].
        exists vs0. split; [reflexivity | now left].
      * left. split; [|now right].
        intros ->. apply Hnin. now apply (in_map fst) in Hin.
    + destruct Hin as [Heq|Hin].
      * inversion Heq; subst. left. split; [assumption | now left].
      * destruct (IH Hd Hin) as [[H1 H2]|[[H1 [vs [H2 H3]]]|[H1 [H2 H3]]]].
        -- left. split; [assumption | now right].
        -- right; left. split; [assumption|]. exists vs. split; [assumption | now right].
        -- right; right. split; [assumption|]. split; [assumption|].
           intros [Hk|Hk]; [congruence | tauto].
Qed.

(** What the first grouping loop has built after reading [seen]. *)
Record grouped_so_far (d : dict (list ExternalLink))
    (seen : list ExternalLink) : Prop := {
  gsf_keys : NoDup (keys d);
  gsf_lists : forall k vs, In (k, vs) d ->
                vs = filter (same_target k) seen /\ vs <> [];
  gsf_all : Permutation (List.concat (map snd d)) seen
}.

Lemma grouped_so_far_nil : grouped_so_far [] [].
Proof. split; simpl; [constructor | intros ? ? [] | constructor]. Qed.

Lemma grouped_so_far_key d seen link :
  grouped_so_far d seen -> In link seen -> In (target_file link) (keys d).
Proof.
  intros [_ Hl Hp] Hin.
  apply (Permutation_in _ (Permutation_sym Hp)) in Hin.
  apply in_concat in Hin as [vs [Hvs Hlink]].
  apply in_map_iff in Hvs as [[k vs'] [Heq Hd]]. simpl in Heq. subst vs'.
  destruct (Hl _ _ Hd) as [Hf _]. rewrite Hf in Hlink.
  apply filter_In in Hlink as [_ Ht]. apply String.eqb_eq in Ht.
  rewrite Ht. now apply (in_map fst) in Hd.
Qed.

Lemma grouped_so_far_step d seen link :
  grouped_so_far d seen ->
  grouped_so_far (dd_append (target_file link) link d) (seen ++ [link]).
Proof.
  intros H. pose proof H as [Hk Hl Hp]. split.
  - now apply dd_append_keys_NoDup.
  - intros k vs Hin. rewrite filter_app. simpl. unfold same_target at 2.
    destruct (dd_append_entry _ _ _ _ _ Hk Hin)
      as [[Hne Hd]|[[-> [vs0 [-> Hd]]]|[-> [-> Hnew]]]].
    + apply String.eqb_neq in Hne. rewrite String.eqb_sym, Hne, app_nil_r.
      now apply Hl.
    + rewrite String.eqb_refl. destruct (Hl _ _ Hd) as [<- _].
      split; [reflexivity|]. now destruct vs0.
    + rewrite String.eqb_refl. split; [|discriminate].
      replace (filter (same_target (target_file link)) seen) with
        (@nil ExternalLink); [reflexivity|].
      symmetry. destruct (filter _ seen) as [|x xs] eqn:E; [reflexivity|].
      exfalso. assert (Hx : In x (filter (same_target (target_file link)) seen))
        by (rewrite E; now left).
      apply filter_In in Hx as [Hx Ht]. apply String.eqb_eq in Ht.
      apply Hnew. rewrite <- Ht. now apply (grouped_so_far_key d seen).
  - rewrite dd_append_concat, Hp. apply Permutation_cons_append.
Qed.

Lemma grouped_so_far_fold ls : forall d seen,
  grouped_so_far d seen ->
  grouped_so_far
    (fold_left (fun d link => dd_append (target_file link) link d) ls d)
    (seen ++ ls).
Proof.
  induction ls as [|link ls IH]; simpl; intros d seen H.
  - now rewrite app_nil_r.
  - replace (seen ++ link :: ls) with ((seen ++ [link]) ++ ls)
      by (now rewrite <- app_assoc).
    apply IH. now apply grouped_so_far_step.
Qed.

Lemma file_groups_of_spec ls : grouped_so_far (file_groups_of ls) ls.
Proof. apply (grouped_so_far_fold ls [] []), grouped_so_far_nil. Qed.

(** *** The dictionary of [ExternalFileGroup]s *)

Definition group_of (item : string * list ExternalLink)
    : string * ExternalFileGroup :=
  (fst item, mk_group (fst item) (snd item) (List.length (snd item))).

Lemma dict_set_fresh {V} k (v : V) d :
  ~ In k (keys d) -> dict_set k v d = d ++ [(k, v)].
Proof.
  induction d as [|[k' v'] d IH]; simpl; intros H; [reflexivity|].
  destruct (String.eqb_spec k' k) as [->|Hne]; [tauto|].
  rewrite IH; tauto.
Qed.

Lemma build_groups_fresh fg : forall start,
  NoDup (keys fg) ->
  (forall k, In k (keys fg) -> ~ In k (keys start)) ->
  build_groups start fg = start ++ map group_of fg.
Proof.
  unfold build_groups.
  induction fg as [|[k vs] fg IH]; simpl; intros start Hnd Hfresh.
  - now rewrite app_nil_r.
  - inversion Hnd as [|? ? Hnin Hfg]; subst.
    rewrite dict_set_fresh by (apply Hfresh; now left).
    rewrite IH; [now rewrite <- app_assoc | assumption |].
    intros k' Hk' Hin. unfold keys in Hin. rewrite map_app in Hin.
    apply in_app_or in Hin as [Hin|[<-|[]]].
    + apply (Hfresh k'); [now right | assumption].
    + tauto.
Qed.

Lemma build_groups_nil fg :
  NoDup (keys fg) -> build_groups [] fg = map group_of fg.
Proof. intros H. now apply (build_groups_fresh fg []). Qed.

(** A dictionary of groups that partitions [input] by target file: one entry
    per target file, each holding, in their input order, exactly the links of
    [input] with that target. *)
Record faithful_partition (input : list ExternalLink)
    (grouped : dict ExternalFileGroup) : Prop := {
  fp_keys : NoDup (keys grouped);
  fp_name : forall f g, In (f, g) grouped -> external_file g = f;
  fp_target : forall f g link, In (f, g) grouped ->
                In link (links g) -> target_file link = f;
  fp_links : forall f g, In (f, g) grouped ->
               links g = filter (same_target f) input;
  fp_count : forall f g, In (f, g) grouped ->
               reference_count g = List.length (links g);
  fp_all : Permutation (List.concat (map (fun e => links (snd e)) grouped)) input
}.

Lemma grouping_faithful ls :
  faithful_partition ls (build_groups [] (file_groups_of ls)).
Proof.
  destruct (file_groups_of_spec ls) as [Hk Hl Hp].
  rewrite (build_groups_nil _ Hk).
  assert (Hent : forall f g, In (f, g) (map group_of (file_groups_of ls)) ->
            exists vs, In (f, vs) (file_groups_of ls) /\
                       g = mk_group f vs (List.length vs)).
  { intros f g Hin. apply in_map_iff in Hin as [[k vs] [Heq Hd]].
    unfold group_of in Heq. simpl in Heq. inversion Heq; subst.
    now exists vs. }
  split.
  - unfold keys. rewrite map_map. simpl. exact Hk.
  - intros f g Hin. destruct (Hent f g Hin) as [vs [_ ->]]. reflexivity.
  - intros f g link Hin Hlink. destruct (Hent f g Hin) as [vs [Hd ->]].
    simpl in Hlink. destruct (Hl _ _ Hd) as [Hf _]. rewrite Hf in Hlink.
    apply filter_In in Hlink as [_ Ht]. now apply String.eqb_eq in Ht.
  - intros f g Hin. destruct (Hent f g Hin) as [vs [Hd ->]].
    simpl. now destruct (Hl _ _ Hd).
  - intros f g Hin. destruct (Hent f g Hin) as [vs [_ ->]]. reflexivity.
  - rewrite map_map. simpl.
    replace (map (fun x : string * list ExternalLink => snd x)
               (file_groups_of ls)) with (map snd (file_groups_of ls))
      by reflexivity.
    exact Hp.
Qed.

End ExternalLinksFacts.

(** ** core/external_links_manager.py: scanning *)

Module ScanFacts.
Import PyStr ExternalLinks ExternalLinksFacts.

(** The three fields [_is_duplicate_link] compares. *)
Definition triple (link : ExternalLink) : string * string * string :=
  (source_sheet link, source_cell link, target_file link).

Definition is_formula (link : ExternalLink) : bool :=
  match link_type link with Formula => true | LinkSource => false end.

(** The formula links recorded for the workbook called [name]. *)
Definition formula_of (name : string) (link : ExternalLink) : bool :=
  is_formula link && String.eqb (source_workbook link) name.

(** A list grown at its end in which no formula link repeats the triple of
    any link before it. *)
Inductive distinct_formulas : list ExternalLink -> Prop :=
| df_nil : distinct_formulas []
| df_source wl link :
    distinct_formulas wl -> link_type link = LinkSource ->
    distinct_formulas (wl ++ [link])
| df_fresh wl link :
    distinct_formulas wl -> ~ In (triple link) (map triple wl) ->
    distinct_formulas (wl ++ [link]).

Lemma _is_duplicate_link_false wl sheet cell target :
  _is_duplicate_link wl sheet cell target = false ->
  ~ In (sheet, cell, target) (map triple wl).
Proof.
  induction wl as [|link wl IH]; simpl; intros H; [tauto|].
  destruct (String.eqb_spec (source_sheet link) sheet) as [Hs|Hs];
  destruct (String.eqb_spec (source_cell link) cell) as [Hc|Hc];
  destruct (String.eqb_spec (target_file link) target) as [Ht|Ht];
    simpl in H; try discriminate H;
    (intros [Heq|Hin]; [unfold triple in Heq; congruence | now apply IH]).
Qed.

Lemma _is_duplicate_link_true wl sheet cell target :
  _is_duplicate_link wl sheet cell target = true ->
  In (sheet, cell, target) (map triple wl).
Proof.
  induction wl as [|link wl IH]; simpl; intros H; [discriminate|].
  destruct (String.eqb_spec (source_sheet link) sheet) as [Hs|Hs];
  destruct (String.eqb_spec (source_cell link) cell) as [Hc|Hc];
  destruct (String.eqb_spec (target_file link) target) as [Ht|Ht];
    simpl in H; try (right; now apply IH).
  left. unfold triple. congruence.
Qed.

Lemma NoDup_snoc {A} (xs : list A) x :
  NoDup xs -> ~ In x xs -> NoDup (xs ++ [x]).
Proof.
  intros H Hx. apply (Permutation_NoDup (Permutation_cons_append xs x)).
  now constructor.
Qed.

Lemma distinct_formulas_NoDup wl :
  distinct_formulas wl -> NoDup (map triple (filter is_formula wl)).
Proof.
  induction 1 as [|wl link _ IH Hsrc|wl link _ IH Hfresh]; simpl.
  - constructor.
  - rewrite filter_app. simpl. unfold is_formula at 2. rewrite Hsrc.
    now rewrite app_nil_r.
  - rewrite filter_app. simpl. destruct (is_formula link).
    + rewrite map_app. simpl. apply NoDup_snoc; [assumption|].
      intros Hin. apply Hfresh. apply in_map_iff in Hin as [x [Hx Hin]].
      apply filter_In in Hin as [Hin _]. rewrite <- Hx. now apply in_map.
    + now rewrite app_nil_r.
Qed.

(** What holds of [workbook_links] all along one workbook iteration. *)
Definition block_ok (name : string) (wl : list ExternalLink) : Prop :=
  distinct_formulas wl /\ Forall (fun l => source_workbook l = name) wl.

Lemma block_ok_snoc name wl link :
  block_ok name wl -> source_workbook link = name ->
  (link_type link = LinkSource \/ ~ In (triple link) (map triple wl)) ->
  block_ok name (wl ++ [link]).
Proof.
  intros [Hd Hn] Hname Hcase. split.
  - destruct Hcase; [now apply df_source | now apply df_fresh].
  - apply Forall_app. split; [assumption | now repeat constructor].
Qed.

Section WithRuntime.
Variable findall : string -> list string.
Variable list_of_set : list string -> list string.

Lemma scan_link_sources_ok name sources : forall a,
  block_ok name (workbook_links a) ->
  block_ok name (workbook_links (scan_link_sources name sources a)).
Proof.
  induction sources as [|src rest IH]; simpl; intros a H; [assumption|].
  apply IH. simpl. apply block_ok_snoc; [assumption | reflexivity | now left].
Qed.

Lemma scan_formula_files_ok name sheet address formula files : forall a,
  block_ok name (workbook_links a) ->
  block_ok name
    (workbook_links (scan_formula_files name sheet address formula files a)).
Proof.
  induction files as [|f rest IH]; simpl; intros a H; [assumption|].
  apply IH.
  destruct (_is_duplicate_link (workbook_links a) sheet address f) eqn:E;
    simpl; [assumption|].
  apply block_ok_snoc; [assumption | reflexivity |].
  right. now apply _is_duplicate_link_false.
Qed.

Lemma scan_cell_ok name sheet c a :
  block_ok name (workbook_links a) ->
  block_ok name
    (workbook_links (scan_cell findall list_of_set name sheet c a)).
Proof.
  intros H. destruct c as [|hf formula address]; simpl; [assumption|].
  destruct (hf && _has_external_reference formula); [|assumption].
  now apply scan_formula_files_ok.
Qed.

Lemma scan_cells_ok name sheet cells : forall a,
  block_ok name (workbook_links a) ->
  block_ok name
    (workbook_links (scan_cells findall list_of_set name sheet cells a)).
Proof.
  unfold scan_cells.
  induction cells as [|c rest IH]; simpl; intros a H; [assumption|].
  apply IH. now apply scan_cell_ok.
Qed.

Lemma scan_worksheets_ok name sheets : forall a,
  block_ok name (workbook_links a) ->
  block_ok name
    (workbook_links
       (fst (scan_worksheets findall list_of_set name sheets a))).
Proof.
  induction sheets as [|[|sheet used] rest IH]; simpl; intros a H;
    try assumption.
  apply IH. destruct used as [cells|]; [|assumption].
  now apply scan_cells_ok.
Qed.

Lemma block_ok_nil name : block_ok name [].
Proof. split; constructor. Qed.

Lemma workbook_block_ok name wb files :
  block_ok name (fst (workbook_block findall list_of_set name wb files)).
Proof.
  unfold workbook_block.
  set (a1 := match wb_link_sources wb with
             | Some ls => scan_link_sources name ls (mk_acc [] files)
             | None => mk_acc [] files
             end).
  assert (H1 : block_ok name (workbook_links a1)).
  { unfold a1. destruct (wb_link_sources wb) as [ls|].
    - apply scan_link_sources_ok. apply block_ok_nil.
    - apply block_ok_nil. }
  pose proof (scan_worksheets_ok name (wb_worksheets wb) a1 H1) as H2.
  destruct (scan_worksheets findall list_of_set name
              (wb_worksheets wb) a1) as [a2 completed].
  simpl in *. destruct completed; [assumption | apply block_ok_nil].
Qed.

(** What holds of [self.external_links] after the workbooks called [done]. *)
Definition links_ok (done : list string) (ls : list ExternalLink) : Prop :=
  Forall (fun l => In (source_workbook l) done) ls /\
  forall name, NoDup (map triple (filter (formula_of name) ls)).

Lemma filter_formula_of_other name done ls :
  Forall (fun l => In (source_workbook l) done) ls -> ~ In name done ->
  filter (formula_of name) ls = [].
Proof.
  intros H Hn. induction H as [|l ls Hl _ IH]; simpl; [reflexivity|].
  unfold formula_of at 1.
  destruct (String.eqb_spec (source_workbook l) name) as [Heq|_].
  - exfalso. apply Hn. now rewrite <- Heq.
  - now rewrite andb_false_r.
Qed.

Lemma filter_formula_of_block name block :
  Forall (fun l => source_workbook l = name) block ->
  filter (formula_of name) block = filter is_formula block.
Proof.
  induction 1 as [|l ls Hl _ IH]; simpl; [reflexivity|].
  unfold formula_of at 1. rewrite Hl, String.eqb_refl, andb_true_r.
  now rewrite IH.
Qed.

Lemma links_ok_step done ls name block :
  links_ok done ls -> ~ In name done -> block_ok name block ->
  links_ok (done ++ [name]) (ls ++ block).
Proof.
  intros [Hsrc Hnd] Hnew [Hd Hn]. split.
  - apply Forall_app. split.
    + eapply Forall_impl; [|exact Hsrc]. intros l Hl.
      apply in_or_app. now left.
    + eapply Forall_impl; [|exact Hn]. intros l Hl.
      apply in_or_app. right. now left.
  - intros n. rewrite filter_app.
    destruct (String.eqb_spec n name) as [->|Hne].
    + rewrite (filter_formula_of_other name done ls Hsrc Hnew). simpl.
      rewrite (filter_formula_of_block name block Hn).
      now apply distinct_formulas_NoDup.
    + rewrite (filter_formula_of_other n [name] block), app_nil_r.
      * apply Hnd.
      * eapply Forall_impl; [|exact Hn]. intros l Hl. now left.
      * intros [Heq|[]]. congruence.
Qed.

Lemma links_ok_more done more ls :
  links_ok done ls -> links_ok (done ++ more) ls.
Proof.
  intros [Hsrc Hnd]. split; [|exact Hnd].
  eapply Forall_impl; [|exact Hsrc]. intros l Hl. apply in_or_app. now left.
Qed.

(** The names of the workbooks whose [Name] can be read. *)
Definition names (workbooks : list workbook) : list string :=
  flat_map (fun wb => match wb_name wb with
                      | Some n => [n]
                      | None => []
                      end) workbooks.

(** The state of the workbook loop when it ends or is left. *)
Definition scan_all (workbooks : list workbook) (raises_at_end : bool)
    (st : scan_state) : scan_state :=
  fst (scan_workbooks findall list_of_set workbooks raises_at_end st).

Lemma scan_workbook_links name wb st :
  st_links (scan_workbook findall list_of_set name wb st) =
  st_links st
  ++ fst (workbook_block findall list_of_set name wb (st_files st)).
Proof.
  unfold scan_workbook.
  destruct (workbook_block findall list_of_set name wb (st_files st)).
  reflexivity.
Qed.

Lemma scan_all_ok e workbooks : forall done st,
  NoDup (names workbooks) ->
  (forall n, In n done -> ~ In n (names workbooks)) ->
  links_ok done (st_links st) ->
  links_ok (done ++ names workbooks)
           (st_links (scan_all workbooks e st)).
Proof.
  unfold scan_all.
  induction workbooks as [|wb rest IH]; intros done st Hnd Hdis H.
  - simpl. now rewrite app_nil_r.
  - cbn [scan_workbooks]. unfold names in *. cbn [flat_map] in *.
    destruct (wb_name wb) as [name|] eqn:En.
    + cbn [app] in *. inversion Hnd as [|? ? Hnin Hrest]; subst.
      replace (done ++ name :: flat_map
                 (fun wb0 => match wb_name wb0 with
                             | Some n => [n]
                             | None => []
                             end) rest)
        with ((done ++ [name]) ++ flat_map
                 (fun wb0 => match wb_name wb0 with
                             | Some n => [n]
                             | None => []
                             end) rest)
        by (now rewrite <- app_assoc).
      apply IH; [assumption | |].
      * intros n Hn Hin. apply in_app_or in Hn as [Hn|[<-|[]]].
        -- apply (Hdis n Hn). now right.
        -- tauto.
      * rewrite scan_workbook_links. cbn [st_links st_files].
        apply links_ok_step; [assumption | |].
        -- intros Hin. apply (Hdis _ Hin). now left.
        -- apply workbook_block_ok.
    + cbn [fst st_links]. now apply links_ok_more.
Qed.

(** The list a scan returns is the one the workbook loop has built. *)
Lemma scan_returns m app :
  fst (snd (scan_open_workbooks findall list_of_set m (Some app))) =
  st_links (scan_all (Workbooks app) (enumeration_raises app)
              (mk_scan [] 0 [] [])).
Proof.
  unfold scan_open_workbooks, scan_all. cbn [external_links].
  now destruct (scan_workbooks findall list_of_set (Workbooks app)
                  (enumeration_raises app) (mk_scan [] 0 [] [])).
Qed.

Lemma scan_open_workbooks_ok m app :
  NoDup (names (Workbooks app)) ->
  links_ok (names (Workbooks app))
    (fst (snd (scan_open_workbooks findall list_of_set m (Some app)))).
Proof.
  intros Hnd. rewrite scan_returns.
  apply (scan_all_ok (enumeration_raises app) (Workbooks app) []
           (mk_scan [] 0 [] [])); try assumption.
  - intros n [].
  - split; [constructor | intros; constructor].
Qed.

End WithRuntime.

(** The loop ends without an exception: every [Name] can be read and the
    enumeration does not raise. *)
Definition completes (app : application) : bool :=
  forallb (fun wb => match wb_name wb with
                     | Some _ => true
                     | None => false
                     end) (Workbooks app)
  && negb (enumeration_raises app).

Lemma scan_workbooks_completed findall list_of_set e workbooks : forall st,
  snd (scan_workbooks findall list_of_set workbooks e st)
  = forallb (fun wb => match wb_name wb with
                       | Some _ => true
                       | None => false
                       end) workbooks && negb e.
Proof.
  induction workbooks as [|wb rest IH]; intros st; simpl; [reflexivity|].
  destruct (wb_name wb); [apply IH | reflexivity].
Qed.

(** The scan on values, whatever the manager held: its result depends on
    what Excel shows only. *)
Lemma scan_open_workbooks_fresh findall list_of_set m xl :
  scan_open_workbooks findall list_of_set m xl
  = scan_open_workbooks findall list_of_set init xl.
Proof.
  unfold scan_open_workbooks. destruct xl as [app|]; cbn [external_links].
  - now destruct (scan_workbooks findall list_of_set (Workbooks app)
                    (enumeration_raises app) (mk_scan [] 0 [] [])).
  - reflexivity.
Qed.

End ScanFacts.

(** ** core/external_links_manager.py: the records in the store *)

Module LinkStoreFacts.
Import PyStr ExternalLinks ExternalLinksFacts ScanFacts.

(** The store [h'] holds every record of [h], unchanged and at the same
    place, and possibly new ones after them. *)
Definition extends (h h' : LinkStore.store) : Prop :=
  exists new, h' = h ++ new.

Lemma extends_refl h : extends h h.
Proof. exists []. now rewrite app_nil_r. Qed.

Lemma extends_trans h1 h2 h3 :
  extends h1 h2 -> extends h2 h3 -> extends h1 h3.
Proof.
  intros [n1 ->] [n2 ->]. exists (n1 ++ n2). now rewrite app_assoc.
Qed.

Lemma extends_length h h' : extends h h' -> List.length h <= List.length h'.
Proof. intros [new ->]. rewrite length_app. lia. Qed.

Lemma extends_deref h h' r link :
  extends h h' -> LinkStore.deref h r = Some link ->
  LinkStore.deref h' r = Some link.
Proof.
  intros [new ->] H. unfold LinkStore.deref in *.
  rewrite nth_error_app1; [assumption|].
  apply nth_error_Some. congruence.
Qed.

(** The references [refs] stand for the records [links], one for one. *)
Definition points (h : LinkStore.store) (refs : list LinkStore.ref)
    (links : list ExternalLink) : Prop :=
  Forall2 (fun r link => LinkStore.deref h r = Some link) refs links.

Lemma points_extends h h' refs links :
  extends h h' -> points h refs links -> points h' refs links.
Proof.
  intros He H. induction H; constructor; [|assumption].
  now apply (extends_deref h h').
Qed.

Lemma points_app h r1 l1 r2 l2 :
  points h r1 l1 -> points h r2 l2 -> points h (r1 ++ r2) (l1 ++ l2).
Proof. apply Forall2_app. Qed.

Lemma points_snoc h refs links link :
  points h refs links ->
  points (h ++ [link]) (refs ++ [List.length h]) (links ++ [link]).
Proof.
  intros H. apply points_app.
  - apply (points_extends h); [now exists [link] | assumption].
  - constructor; [|constructor]. unfold LinkStore.deref.
    rewrite nth_error_app2 by lia. now rewrite Nat.sub_diag.
Qed.

Lemma points_links_of h refs links :
  points h refs links -> LinkStore.links_of h refs = links.
Proof.
  unfold LinkStore.links_of.
  induction 1 as [|r link refs links Hr _ IH]; simpl; [reflexivity|].
  now rewrite Hr, IH.
Qed.

Lemma points_valid h refs links :
  points h refs links -> Forall (fun r => r < List.length h) refs.
Proof.
  induction 1 as [|r link refs links Hr _ IH]; constructor; [|assumption].
  apply nth_error_Some. unfold LinkStore.deref in Hr. congruence.
Qed.

Lemma points_length h refs links :
  points h refs links -> List.length refs = List.length links.
Proof. apply Forall2_length. Qed.

Lemma points_In h refs links r :
  points h refs links -> In r refs ->
  exists link, LinkStore.deref h r = Some link /\ In link links.
Proof.
  induction 1 as [|x link refs links Hx _ IH]; intros Hin; [destruct Hin|].
  destruct Hin as [->|Hin].
  - exists link. split; [assumption | now left].
  - destruct (IH Hin) as (l & Hl & Hl'). exists l. split; [assumption|].
    now right.
Qed.

Lemma _is_duplicate_link_points h refs links sheet cell target :
  points h refs links ->
  LinkStore._is_duplicate_link h refs sheet cell target
  = _is_duplicate_link links sheet cell target.
Proof.
  induction 1 as [|r link refs links Hr _ IH]; simpl; [reflexivity|].
  now rewrite Hr, IH.
Qed.

(** What ties the variables of one workbook iteration to those of the scan
    on values: same records, same set of files; every reference was made
    since the scan began, when the store held [base] records. *)
Record acc_inv (base : nat) (a : LinkStore.wb_acc) (v : wb_acc) : Prop := {
  inv_points : points (LinkStore.acc_store a) (LinkStore.workbook_links a)
                 (workbook_links v);
  inv_files : LinkStore.external_files a = external_files v;
  inv_new : Forall (fun r => base <= r) (LinkStore.workbook_links a);
  inv_base : base <= List.length (LinkStore.acc_store a)
}.

Lemma append_new_inv base a v link file :
  acc_inv base a v ->
  acc_inv base (LinkStore.append_new link file a)
    (mk_acc (workbook_links v ++ [link]) (set_add file (external_files v)))
  /\ extends (LinkStore.acc_store a)
       (LinkStore.acc_store (LinkStore.append_new link file a)).
Proof.
  intros [Hp Hf Hn Hb]. unfold LinkStore.append_new, LinkStore.alloc. simpl.
  split; [|now exists [link]]. constructor; simpl.
  - now apply points_snoc.
  - now rewrite Hf.
  - apply Forall_app. split; [assumption|]. now repeat constructor.
  - rewrite length_app. simpl. lia.
Qed.

Section WithRuntime.
Variable findall : string -> list string.
Variable list_of_set : list string -> list string.

Lemma scan_link_sources_inv base name sources : forall a v,
  acc_inv base a v ->
  acc_inv base (LinkStore.scan_link_sources name sources a)
    (scan_link_sources name sources v)
  /\ extends (LinkStore.acc_store a)
       (LinkStore.acc_store (LinkStore.scan_link_sources name sources a)).
Proof.
  induction sources as [|src rest IH]; simpl; intros a v H.
  - split; [assumption | apply extends_refl].
  - destruct (append_new_inv base a v
                (mk_link name "" "" (_extract_filename_from_path src)
                   ("LinkSource: " ++ src)%string LinkSource)
                (_extract_filename_from_path src) H) as [H1 E1].
    destruct (IH _ _ H1) as [H2 E2].
    split; [exact H2 | exact (extends_trans _ _ _ E1 E2)].
Qed.

Lemma scan_formula_files_inv base name sheet address formula files :
  forall a v, acc_inv base a v ->
  acc_inv base
    (LinkStore.scan_formula_files name sheet address formula files a)
    (scan_formula_files name sheet address formula files v)
  /\ extends (LinkStore.acc_store a)
       (LinkStore.acc_store
          (LinkStore.scan_formula_files name sheet address formula files a)).
Proof.
  induction files as [|f rest IH]; simpl; intros a v H.
  - split; [assumption | apply extends_refl].
  - rewrite (_is_duplicate_link_points _ _ _ sheet address f (inv_points _ _ _ H)).
    destruct (_is_duplicate_link (workbook_links v) sheet address f); simpl.
    + now apply IH.
    + destruct (append_new_inv base a v
                  (mk_link name sheet address f formula Formula) f H)
        as [H1 E1].
      destruct (IH _ _ H1) as [H2 E2].
      split; [exact H2 | exact (extends_trans _ _ _ E1 E2)].
Qed.

Lemma scan_cell_inv base name sheet c a v :
  acc_inv base a v ->
  acc_inv base (LinkStore.scan_cell findall list_of_set name sheet c a)
    (scan_cell findall list_of_set name sheet c v)
  /\ extends (LinkStore.acc_store a)
       (LinkStore.acc_store
          (LinkStore.scan_cell findall list_of_set name sheet c a)).
Proof.
  intros H. destruct c as [|hf formula address]; simpl.
  - split; [assumption | apply extends_refl].
  - destruct (hf && _has_external_reference formula).
    + now apply scan_formula_files_inv.
    + split; [assumption | apply extends_refl].
Qed.

Lemma scan_cells_inv base name sheet cells : forall a v,
  acc_inv base a v ->
  acc_inv base (LinkStore.scan_cells findall list_of_set name sheet cells a)
    (scan_cells findall list_of_set name sheet cells v)
  /\ extends (LinkStore.acc_store a)
       (LinkStore.acc_store
          (LinkStore.scan_cells findall list_of_set name sheet cells a)).
Proof.
  unfold LinkStore.scan_cells, scan_cells.
  induction cells as [|c rest IH]; simpl; intros a v H.
  - split; [assumption | apply extends_refl].
  - destruct (scan_cell_inv base name sheet c a v H) as [H1 E1].
    destruct (IH _ _ H1) as [H2 E2].
    split; [exact H2 | exact (extends_trans _ _ _ E1 E2)].
Qed.

Lemma scan_worksheets_inv base name sheets : forall a v,
  acc_inv base a v ->
  acc_inv base
    (fst (LinkStore.scan_worksheets findall list_of_set name sheets a))
    (fst (scan_worksheets findall list_of_set name sheets v))
  /\ snd (LinkStore.scan_worksheets findall list_of_set name sheets a)
     = snd (scan_worksheets findall list_of_set name sheets v)
  /\ extends (LinkStore.acc_store a)
       (LinkStore.acc_store
          (fst (LinkStore.scan_worksheets findall list_of_set name sheets
                  a))).
Proof.
  induction sheets as [|[|sheet used] rest IH]; simpl; intros a v H.
  - split; [assumption|]. split; [reflexivity | apply extends_refl].
  - split; [assumption|]. split; [reflexivity | apply extends_refl].
  - destruct used as [cells|]; [|now apply IH].
    destruct (scan_cells_inv base name sheet cells a v H) as [H1 E1].
    destruct (IH _ _ H1) as (H2 & Hc & E2).
    split; [exact H2|]. split; [exact Hc|].
    exact (extends_trans _ _ _ E1 E2).
Qed.

Lemma points_match {A} h refs links (x y : A) :
  points h refs links ->
  match refs with [] => x | _ :: _ => y end
  = match links with [] => x | _ :: _ => y end.
Proof. now destruct 1. Qed.

(** What ties the variables of the workbook loop to those of the scan on
    values. *)
Record st_inv (base : nat) (st : LinkStore.scan_state) (v : scan_state)
    : Prop := {
  sti_points : points (LinkStore.st_store st) (LinkStore.st_links st)
                 (st_links v);
  sti_total : LinkStore.st_total st = st_total v;
  sti_with : LinkStore.st_with_links st = st_with_links v;
  sti_files : LinkStore.st_files st = st_files v;
  sti_new : Forall (fun r => base <= r) (LinkStore.st_links st);
  sti_base : base <= List.length (LinkStore.st_store st)
}.

Lemma scan_workbook_inv base name wb st v :
  st_inv base st v ->
  st_inv base (LinkStore.scan_workbook findall list_of_set name wb st)
    (scan_workbook findall list_of_set name wb v)
  /\ extends (LinkStore.st_store st)
       (LinkStore.st_store
          (LinkStore.scan_workbook findall list_of_set name wb st)).
Proof.
  intros [Hp Ht Hw Hf Hn Hb].
  unfold LinkStore.scan_workbook, scan_workbook, workbook_block.
  set (a0 := LinkStore.mk_acc (LinkStore.st_store st) []
               (LinkStore.st_files st)).
  set (v0 := mk_acc [] (st_files v)).
  assert (H0 : acc_inv base a0 v0).
  { constructor; simpl; [constructor | assumption | constructor | assumption]. }
  set (a1 := match wb_link_sources wb with
             | Some ls => LinkStore.scan_link_sources name ls a0
             | None => a0
             end).
  set (v1 := match wb_link_sources wb with
             | Some ls => scan_link_sources name ls v0
             | None => v0
             end).
  assert (H1 : acc_inv base a1 v1 /\
               extends (LinkStore.acc_store a0) (LinkStore.acc_store a1)).
  { unfold a1, v1. destruct (wb_link_sources wb) as [ls|].
    - now apply scan_link_sources_inv.
    - split; [assumption | apply extends_refl]. }
  destruct H1 as [H1 E1].
  destruct (scan_worksheets_inv base name (wb_worksheets wb) a1 v1 H1)
    as (H2 & Hc & E2).
  destruct (LinkStore.scan_worksheets findall list_of_set name
              (wb_worksheets wb) a1) as [a2 completed].
  destruct (scan_worksheets findall list_of_set name (wb_worksheets wb) v1)
    as [v2 completed'].
  simpl in H2, Hc, E2. subst completed'.
  destruct H2 as [Hp2 Hf2 Hn2 Hb2].
  assert (E : extends (LinkStore.st_store st) (LinkStore.acc_store a2))
    by exact (extends_trans _ _ _ E1 E2).
  assert (Hblock : points (LinkStore.acc_store a2)
                     (if completed then LinkStore.workbook_links a2 else [])
                     (if completed then workbook_links v2 else []))
    by (destruct completed; [assumption | constructor]).
  cbn [LinkStore.st_store LinkStore.st_links LinkStore.st_total
       LinkStore.st_with_links LinkStore.st_files].
  split; [|exact E]. constructor; simpl.
  - apply points_app; [|exact Hblock].
    now apply (points_extends (LinkStore.st_store st)).
  - assumption.
  - rewrite Hw. apply (points_match _ _ _ _ _ Hblock).
  - assumption.
  - apply Forall_app. split; [assumption|].
    destruct completed; [assumption | constructor].
  - assumption.
Qed.

Lemma scan_workbooks_inv base e workbooks : forall st v,
  st_inv base st v ->
  st_inv base
    (fst (LinkStore.scan_workbooks findall list_of_set workbooks e st))
    (fst (scan_workbooks findall list_of_set workbooks e v))
  /\ snd (LinkStore.scan_workbooks findall list_of_set workbooks e st)
     = snd (scan_workbooks findall list_of_set workbooks e v)
  /\ extends (LinkStore.st_store st)
       (LinkStore.st_store
          (fst (LinkStore.scan_workbooks findall list_of_set workbooks e
                  st))).
Proof.
  induction workbooks as [|wb rest IH]; intros st v H.
  - simpl. split; [assumption|]. split; [reflexivity | apply extends_refl].
  - cbn [LinkStore.scan_workbooks scan_workbooks].
    assert (H1 : st_inv base
                   (LinkStore.mk_scan (LinkStore.st_store st)
                      (LinkStore.st_links st) (S (LinkStore.st_total st))
                      (LinkStore.st_with_links st) (LinkStore.st_files st))
                   (mk_scan (st_links v) (S (st_total v))
                      (st_with_links v) (st_files v))).
    { destruct H as [Hp Ht Hw Hf Hn Hb]. constructor; simpl; congruence. }
    destruct (wb_name wb) as [name|].
    + destruct (scan_workbook_inv base name wb _ _ H1) as [H2 E2].
      destruct (IH _ _ H2) as (H3 & Hc & E3).
      split; [exact H3|]. split; [exact Hc|].
      exact (extends_trans _ _ _ E2 E3).
    + simpl. split; [assumption|]. split; [reflexivity | apply extends_refl].
Qed.

End WithRuntime.

(** *** Grouping through references *)

Definition abs_file_groups (h : LinkStore.store)
    (d : dict (list LinkStore.ref)) : dict (list ExternalLink) :=
  map (fun e => (fst e, LinkStore.links_of h (snd e))) d.

Definition abs_group (h : LinkStore.store) (g : LinkStore.ref_group)
    : ExternalFileGroup :=
  mk_group (LinkStore.rg_external_file g)
    (LinkStore.links_of h (LinkStore.rg_links g))
    (LinkStore.rg_reference_count g).

Definition abs_groups (h : LinkStore.store) (d : dict LinkStore.ref_group)
    : dict ExternalFileGroup :=
  map (fun e => (fst e, abs_group h (snd e))) d.

(** The manager on values that a manager on references stands for. *)
Definition abs_manager (h : LinkStore.store) (m : LinkStore.ref_manager)
    : manager :=
  mk_manager (LinkStore.links_of h (LinkStore.ref_links m))
    (abs_groups h (LinkStore.ref_groups m)).

Lemma links_of_snoc h refs r link :
  LinkStore.deref h r = Some link ->
  LinkStore.links_of h (refs ++ [r]) = LinkStore.links_of h refs ++ [link].
Proof.
  intros H. unfold LinkStore.links_of. rewrite flat_map_app. simpl.
  now rewrite H.
Qed.

Lemma links_of_length h refs :
  Forall (fun r => r < List.length h) refs ->
  List.length (LinkStore.links_of h refs) = List.length refs.
Proof.
  unfold LinkStore.links_of.
  induction 1 as [|r refs Hr _ IH]; simpl; [reflexivity|].
  apply nth_error_Some in Hr. fold (LinkStore.deref h r) in Hr.
  destruct (LinkStore.deref h r); [|congruence]. simpl. now rewrite IH.
Qed.

Lemma dd_append_abs h k r link d :
  LinkStore.deref h r = Some link ->
  abs_file_groups h (dd_append k r d) = dd_append k link (abs_file_groups h d).
Proof.
  intros H. induction d as [|[k' vs] d IH]; simpl.
  - now rewrite H.
  - destruct (String.eqb k' k); simpl.
    + now rewrite (links_of_snoc h vs r link H).
    + now rewrite IH.
Qed.

Lemma file_groups_of_abs h refs links :
  points h refs links ->
  abs_file_groups h (LinkStore.file_groups_of h refs) = file_groups_of links.
Proof.
  unfold LinkStore.file_groups_of, file_groups_of.
  assert (G : forall d, points h refs links ->
            abs_file_groups h
              (fold_left (fun d r => dd_append (LinkStore.target_of h r) r d)
                 refs d)
            = fold_left (fun d link => dd_append (target_file link) link d)
                links (abs_file_groups h d)).
  { intros d H. revert d.
    induction H as [|r link refs links Hr _ IH]; intros d; simpl;
      [reflexivity|].
    rewrite IH. f_equal. unfold LinkStore.target_of. rewrite Hr.
    now apply dd_append_abs. }
  intros H. now rewrite (G [] H).
Qed.

(** Every reference in the dictionary is one of [refs]. *)
Definition within {V : Type} (proj : V -> list LinkStore.ref)
    (refs : list LinkStore.ref) (d : dict V) : Prop :=
  Forall (fun e => incl (proj (snd e)) refs) d.

Lemma dd_append_within refs k r d :
  In r refs -> within (fun rs => rs) refs d ->
  within (fun rs => rs) refs (dd_append k r d).
Proof.
  intros Hr H. unfold within in *.
  induction H as [|[k' vs] d Hv Hd IH]; simpl.
  - repeat constructor. simpl. intros x [<-|[]]. exact Hr.
  - destruct (String.eqb k' k); constructor; simpl in *; try assumption.
    intros x Hx. apply in_app_or in Hx as [Hx|[<-|[]]];
      [now apply Hv | exact Hr].
Qed.

Lemma file_groups_of_within h refs :
  within (fun rs => rs) refs (LinkStore.file_groups_of h refs).
Proof.
  unfold LinkStore.file_groups_of.
  assert (G : forall some d, incl some refs ->
            within (fun rs => rs) refs d ->
            within (fun rs => rs) refs
              (fold_left (fun d r => dd_append (LinkStore.target_of h r) r d)
                 some d)).
  { induction some as [|r some IH]; intros d Hi Hd; simpl; [assumption|].
    apply IH; [intros x Hx; apply Hi; now right|].
    apply dd_append_within; [apply Hi; now left | assumption]. }
  apply G; [apply incl_refl | constructor].
Qed.

Lemma dict_set_within refs k g d :
  incl (LinkStore.rg_links g) refs ->
  within LinkStore.rg_links refs d ->
  within LinkStore.rg_links refs (dict_set k g d).
Proof.
  intros Hg H. unfold within in *.
  induction H as [|[k' g'] d Hv Hd IH]; simpl.
  - now repeat constructor.
  - destruct (String.eqb k' k); constructor; simpl in *; assumption.
Qed.

Lemma build_groups_within refs fg : forall start,
  within (fun rs => rs) refs fg ->
  within LinkStore.rg_links refs start ->
  within LinkStore.rg_links refs (LinkStore.build_groups start fg).
Proof.
  unfold LinkStore.build_groups.
  induction fg as [|[k rs] fg IH]; intros start Hfg Hs; simpl; [assumption|].
  inversion Hfg as [|? ? Hrs Hrest]; subst.
  apply IH; [assumption|]. now apply dict_set_within.
Qed.

Lemma dict_set_abs h k g d :
  abs_groups h (dict_set k g d) = dict_set k (abs_group h g) (abs_groups h d).
Proof.
  induction d as [|[k' g'] d IH]; simpl; [reflexivity|].
  destruct (String.eqb k' k); simpl; [reflexivity | now rewrite IH].
Qed.

Lemma build_groups_abs h fg : forall start,
  Forall (fun e => Forall (fun r => r < List.length h) (snd e)) fg ->
  abs_groups h (LinkStore.build_groups start fg)
  = build_groups (abs_groups h start) (abs_file_groups h fg).
Proof.
  unfold LinkStore.build_groups, build_groups.
  induction fg as [|[k rs] fg IH]; intros start Hv; simpl; [reflexivity|].
  inversion Hv as [|? ? Hrs Hrest]; subst. simpl in Hrs.
  rewrite (IH _ Hrest), dict_set_abs. unfold abs_group at 1. simpl.
  now rewrite (links_of_length h rs Hrs).
Qed.

(** Grouping references and then reading the records gives what grouping
    the records gives. *)
Lemma group_refs_abs h refs links old :
  points h refs links ->
  abs_manager h
    (LinkStore._group_links_by_external_file h
       (LinkStore.mk_ref_manager refs old))
  = _group_links_by_external_file (mk_manager links []).
Proof.
  intros H. unfold abs_manager, LinkStore._group_links_by_external_file,
    _group_links_by_external_file. simpl.
  rewrite (points_links_of h refs links H). f_equal.
  rewrite build_groups_abs.
  - now rewrite (file_groups_of_abs h refs links H).
  - pose proof (file_groups_of_within h refs) as Hw.
    pose proof (points_valid h refs links H) as Hval.
    eapply Forall_impl; [|exact Hw]. simpl. intros e He.
    apply Forall_forall. intros r Hr.
    rewrite Forall_forall in Hval. apply Hval. now apply He.
Qed.

(** The groups hold references of the stored list, not new records. *)
Lemma group_refs_within h m :
  within LinkStore.rg_links (LinkStore.ref_links m)
    (LinkStore.ref_groups (LinkStore._group_links_by_external_file h m)).
Proof.
  unfold LinkStore._group_links_by_external_file. simpl.
  apply build_groups_within; [apply file_groups_of_within | constructor].
Qed.


(** *** The scan through references *)

(** The scan on references creates records after those of the store, leaves
    the others as they are, stores and returns references to records it
    created, and stands for the scan on values. *)
Lemma scan_open_workbooks_store findall list_of_set h rm m xl :
  let s := LinkStore.scan_open_workbooks findall list_of_set h rm xl in
  let v := scan_open_workbooks findall list_of_set m xl in
  extends h (fst (fst s)) /\
  fst (snd s) = LinkStore.ref_links (snd (fst s)) /\
  Forall (fun r => List.length h <= r) (fst (snd s)) /\
  points (fst (fst s)) (fst (snd s)) (fst (snd v)) /\
  snd (snd s) = snd (snd v) /\
  abs_manager (fst (fst s)) (snd (fst s)) = fst v /\
  within LinkStore.rg_links (fst (snd s))
    (LinkStore.ref_groups (snd (fst s))).
Proof.
  intros s v. subst s v.
  rewrite (scan_open_workbooks_fresh findall list_of_set m xl).
  unfold LinkStore.scan_open_workbooks, scan_open_workbooks, init.
  cbn [external_links grouped_links].
  assert (H0 : st_inv (List.length h) (LinkStore.mk_scan h [] 0 [] [])
                 (mk_scan [] 0 [] [])).
  { constructor; simpl; try reflexivity; try constructor. }
  assert (G : forall st vst,
            st_inv (List.length h) st vst ->
            let rm2 := LinkStore._group_links_by_external_file
                         (LinkStore.st_store st)
                         (LinkStore.mk_ref_manager (LinkStore.st_links st)
                            (LinkStore.ref_groups rm)) in
            let m2 := _group_links_by_external_file
                        (mk_manager (st_links vst) []) in
            Forall (fun r => List.length h <= r) (LinkStore.ref_links rm2) /\
            points (LinkStore.st_store st) (LinkStore.ref_links rm2)
              (external_links m2) /\
            abs_manager (LinkStore.st_store st) rm2 = m2 /\
            within LinkStore.rg_links (LinkStore.ref_links rm2)
              (LinkStore.ref_groups rm2)).
  { intros st vst [Hp Ht Hw Hf Hn Hb] rm2 m2.
    split; [exact Hn|]. split; [exact Hp|].
    split; [now apply group_refs_abs|].
    apply (group_refs_within (LinkStore.st_store st)
             (LinkStore.mk_ref_manager (LinkStore.st_links st)
                (LinkStore.ref_groups rm))). }
  destruct xl as [app|].
  - destruct (scan_workbooks_inv findall list_of_set (List.length h)
                (enumeration_raises app) (Workbooks app) _ _ H0)
      as (H1 & Hc & E1).
    destruct (LinkStore.scan_workbooks findall list_of_set (Workbooks app)
                (enumeration_raises app) (LinkStore.mk_scan h [] 0 [] []))
      as [st completed].
    destruct (scan_workbooks findall list_of_set (Workbooks app)
                (enumeration_raises app) (mk_scan [] 0 [] []))
      as [vst completed'].
    simpl in H1, Hc, E1. subst completed'.
    destruct (G st vst H1) as (G3 & G4 & G6 & G7).
    cbn [fst snd]. split; [exact E1|].
    split; [reflexivity|]. split; [exact G3|]. split; [exact G4|].
    split; [|split; [exact G6 | exact G7]].
    destruct H1 as [Hp Ht Hw Hf Hn Hb].
    rewrite Ht, Hw, Hf, (points_length _ _ _ Hp). reflexivity.
  - destruct (G _ _ H0) as (G3 & G4 & G6 & G7).
    cbn [fst snd]. split; [apply extends_refl|]. split; [reflexivity|].
    split; [exact G3|]. split; [exact G4|]. split; [reflexivity|].
    split; [exact G6 | exact G7].
Qed.

(** No call of the manager changes or removes a record of the store. *)
Lemma step_extends findall list_of_set s c :
  extends (fst s) (fst (LinkStore.step findall list_of_set s c)).
Proof.
  destruct c as [xl| | |]; simpl; try apply extends_refl.
  now destruct (scan_open_workbooks_store findall list_of_set (fst s)
                  (snd s) init xl) as [H _].
Qed.

Lemma run_extends findall list_of_set calls : forall s,
  extends (fst s) (fst (LinkStore.run findall list_of_set calls s)).
Proof.
  unfold LinkStore.run.
  induction calls as [|c calls IH]; intros s; simpl; [apply extends_refl|].
  exact (extends_trans _ _ _ (step_extends findall list_of_set s c)
           (IH _)).
Qed.


End LinkStoreFacts.

(** ** core/external_links_manager.py: the stated properties *)

Module ExternalLinksSpec.
Import PyStr ExternalLinks ExternalLinksFacts ScanFacts LinkStoreFacts.

(** Two workbooks to run the scan on. [Budget.xlsx] names [Rates.xlsx] in its
    link sources and in three formulas, one of them twice; [Plan.xlsx] has a
    cell that cannot be read and a formula naming two files. *)
Definition sample_workbooks : list workbook :=
  [ mk_workbook (Some "Budget.xlsx") (Some ["C:\data\Rates.xlsx"])
      [ Sheet "Sheet1" (Some
          [ Cell true "=[Rates.xlsx]Q1!A1+[Rates.xlsx]Q1!A2" "$A$1";
            Cell true "='C:\data\[Rates.xlsx]Q1'!B7" "$A$2";
            Cell false "42" "$A$3";
            Cell true "=[RATES.XLSX]Q1!A1" "$A$4" ]) ];
    mk_workbook (Some "Plan.xlsx") None
      [ Sheet "Data" (Some
          [ CellError;
            Cell true "=[Rates.xlsx]Q1!A1*[Costs.xlsm]Y!C3" "$B$2" ]);
        Sheet "Empty" None ] ].

Definition sample_excel : application :=
  mk_application sample_workbooks false.

Definition sample_scan :=
  scan_open_workbooks findall_ascii first_occurrences init
    (Some sample_excel).

Example sample_scan_links :
  map (fun l => (source_workbook l, source_cell l, target_file l))
      (fst (snd sample_scan)) =
  [ ("Budget.xlsx", "", "Rates.xlsx");
    ("Budget.xlsx", "$A$1", "Rates.xlsx");
    ("Budget.xlsx", "$A$2", "Rates.xlsx");
    ("Budget.xlsx", "$A$4", "RATES.XLSX");
    ("Plan.xlsx", "$B$2", "Rates.xlsx");
    ("Plan.xlsx", "$B$2", "Costs.xlsm") ].
Proof. vm_compute. reflexivity. Qed.

Example sample_scan_statistics :
  snd (snd sample_scan) = mk_statistics 2 2 6 3.
Proof. vm_compute. reflexivity. Qed.

Example sample_scan_groups :
  map (fun e => (fst e, reference_count (snd e)))
      (grouped_links (fst sample_scan)) =
  [ ("Rates.xlsx", 4); ("RATES.XLSX", 1); ("Costs.xlsm", 1) ].
Proof. vm_compute. reflexivity. Qed.

Lemma first_occurrences_In xs x :
  In x (first_occurrences xs) <-> In x xs.
Proof.
  induction xs as [|y xs IH]; simpl; [tauto|].
  rewrite filter_In, IH.
  destruct (String.eqb_spec y x) as [->|Hne]; simpl; [tauto|].
  split; [tauto|]. intros [H|H]; [tauto | right; split; [exact H | reflexivity]].
Qed.

Lemma NoDup_filter_keep {A} (p : A -> bool) (l : list A) :
  NoDup l -> NoDup (filter p l).
Proof.
  induction 1 as [|x l Hx _ IH]; simpl; [constructor|].
  destruct (p x); [|assumption].
  constructor; [|assumption]. intros Hin. apply filter_In in Hin. tauto.
Qed.

Lemma first_occurrences_NoDup xs : NoDup (first_occurrences xs).
Proof.
  induction xs as [|x xs IH]; simpl; constructor.
  - intros Hin. apply filter_In in Hin as [_ H].
    now rewrite String.eqb_refl in H.
  - now apply NoDup_filter_keep.
Qed.

Lemma sample_names_NoDup : NoDup (names (Workbooks sample_excel)).
Proof.
  simpl. repeat constructor; simpl; intuition discriminate.
Qed.

(** C2: the scan records no link twice. For every workbook name, the formula
    links of that workbook in the returned list have pairwise different
    (source_sheet, source_cell, target_file) triples, and the file names
    [_extract_external_files_from_formula] returns for one formula are
    pairwise different. The enumeration of a set is duplicate-free, and
    Excel gives open workbooks different names. This holds also of a scan
    that an exception cuts short. *)
Theorem scan_records_no_duplicate
    (findall : string -> list string)
    (list_of_set : list string -> list string)
    (m : manager) (app : application)
    (Hset : forall xs, NoDup (list_of_set xs))
    (Hnames : NoDup (names (Workbooks app))) :
  (forall name,
     NoDup (map triple
              (filter (formula_of name)
                 (fst (snd (scan_open_workbooks findall list_of_set m
                              (Some app))))))) /\
  (forall formula,
     NoDup (_extract_external_files_from_formula findall list_of_set formula)).
Proof.
  split.
  - intros name.
    now destruct (scan_open_workbooks_ok findall list_of_set m app Hnames).
  - intros formula. unfold _extract_external_files_from_formula. apply Hset.
Qed.

Lemma scan_records_no_duplicate_witness :
  (forall name,
     NoDup (map triple
              (filter (formula_of name)
                 (fst (snd (scan_open_workbooks findall_ascii
                              first_occurrences init
                              (Some sample_excel))))))) /\
  (forall formula,
     NoDup (_extract_external_files_from_formula findall_ascii
              first_occurrences formula)).
Proof.
  exact (scan_records_no_duplicate findall_ascii first_occurrences init
           sample_excel first_occurrences_NoDup sample_names_NoDup).
Defined.

(** C3: grouping partitions the links by target file. In
    [_group_links_by_external_file] and in [get_grouped_search_results]
    every group stored under [f] holds links whose target is [f] (all of
    them, in input order), [reference_count] is the length of the group's
    list, the groups together are a permutation of the input, and the result
    is computed from the link list alone, whatever groups were stored
    before; the same holds of the groups a scan leaves behind. *)
Theorem grouping_is_a_faithful_partition :
  forall (m : manager) (keyword search_field : string)
         (old_groups : dict ExternalFileGroup),
    faithful_partition (external_links m)
      (grouped_links (_group_links_by_external_file m)) /\
    faithful_partition (search_links m keyword search_field)
      (get_grouped_search_results m keyword search_field) /\
    grouped_links
      (_group_links_by_external_file (mk_manager (external_links m) old_groups))
    = grouped_links (_group_links_by_external_file m) /\
    get_grouped_search_results (mk_manager (external_links m) old_groups)
      keyword search_field
    = get_grouped_search_results m keyword search_field /\
    (forall findall list_of_set xl,
       let m' := fst (scan_open_workbooks findall list_of_set m xl) in
       faithful_partition (external_links m') (grouped_links m') /\
       grouped_links m' =
       grouped_links
         (fst (scan_open_workbooks findall list_of_set
                 (mk_manager (external_links m) old_groups) xl))).
Proof.
  intros m keyword search_field old_groups.
  split; [apply grouping_faithful|].
  split; [apply grouping_faithful|].
  split; [reflexivity|].
  split; [reflexivity|].
  intros findall list_of_set xl m'. subst m'.
  unfold scan_open_workbooks. destruct xl as [app|]; cbn [external_links].
  - destruct (scan_workbooks findall list_of_set (Workbooks app)
                (enumeration_raises app) (mk_scan [] 0 [] []))
      as [st completed].
    split; [apply grouping_faithful | reflexivity].
  - split; [apply grouping_faithful | reflexivity].
Qed.

Lemma scan_sources findall list_of_set e workbooks : forall st done,
  Forall (fun l => In (source_workbook l) done) (st_links st) ->
  Forall (fun l => In (source_workbook l) (done ++ names workbooks))
    (st_links (scan_all findall list_of_set workbooks e st)).
Proof.
  intros st done H.
  assert (Hok : forall ls d, links_ok d ls ->
                  Forall (fun l => In (source_workbook l) d) ls)
    by (now intros ls d [Hs _]).
  unfold scan_all.
  revert st done H.
  induction workbooks as [|wb rest IH]; intros st done H.
  - simpl. now rewrite app_nil_r.
  - cbn [scan_workbooks]. unfold names. cbn [flat_map].
    fold (names rest).
    destruct (wb_name wb) as [name|].
    + cbn [app].
      replace (done ++ name :: names rest)
        with ((done ++ [name]) ++ names rest)
        by (now rewrite <- app_assoc).
      apply IH. rewrite scan_workbook_links. cbn [st_links st_files].
      apply Forall_app. split.
      * eapply Forall_impl; [|exact H]. intros l Hl.
        apply in_or_app. now left.
      * destruct (workbook_block_ok findall list_of_set name wb (st_files st))
          as [_ Hn].
        eapply Forall_impl; [|exact Hn]. intros l Hl.
        apply in_or_app. right. now left.
    + cbn [fst st_links app]. eapply Forall_impl; [|exact H].
      intros l Hl. apply in_or_app. now left.
Qed.

(** A scan cut short: the name of the second workbook cannot be read. The
    links of the first are returned, both workbooks are counted, and the
    other counts stay at zero. *)
Example scan_cut_short :
  let r := scan_open_workbooks findall_ascii first_occurrences init
             (Some (mk_application
                      [ mk_workbook (Some "Budget.xlsx")
                          (Some ["C:\data\Rates.xlsx"]) [];
                        mk_workbook None (Some ["C:\data\Costs.xlsx"]) [];
                        mk_workbook (Some "Plan.xlsx")
                          (Some ["C:\data\Rates.xlsx"]) [] ]
                      false)) in
  map (fun l => (source_workbook l, target_file l)) (fst (snd r))
  = [("Budget.xlsx", "Rates.xlsx")] /\
  snd (snd r) = mk_statistics 2 0 0 0.
Proof. split; reflexivity. Qed.

(** A second scan in the same store: the records of the first scan are
    still there, unchanged, and the manager refers to new ones only. *)
Example rescan_in_the_store :
  let s1 := LinkStore.scan_open_workbooks findall_ascii first_occurrences []
              (LinkStore.mk_ref_manager [] []) (Some sample_excel) in
  let s2 := LinkStore.scan_open_workbooks findall_ascii first_occurrences
              (fst (fst s1)) (snd (fst s1)) (Some sample_excel) in
  LinkStore.ref_links (snd (fst s1)) = [0; 1; 2; 3; 4; 5] /\
  LinkStore.ref_links (snd (fst s2)) = [6; 7; 8; 9; 10; 11] /\
  firstn 6 (fst (fst s2)) = fst (fst s1).
Proof. repeat split; reflexivity. Qed.

(** C7: a scan starts from an empty link list, and the records it creates
    are never changed.
    On values: the whole result of a scan (the manager state it leaves, the
    returned list, the statistics) is the same whatever links and groups
    the manager held before; the returned list is the stored list; every
    link in it names a workbook open during this scan; [total_links] is
    its length when the walk over the workbooks ends without an
    exception, and the three counts after [total_workbooks] are zero when
    an exception cuts the walk short.
    In the store of records: a scan leaves every record that existed
    before as it was and creates its records after them; the list it
    stores and returns, and the groups it builds, refer only to records
    created during this scan, so to none of an earlier scan; these
    records are the links of the scan on values. And after any sequence
    of scans, groupings and searches every record still has the field
    values it was created with. *)
Theorem scan_discards_previous_links :
  forall (findall : string -> list string)
         (list_of_set : list string -> list string)
         (m previous : manager) (xl : excel)
         (h : LinkStore.store) (rm : LinkStore.ref_manager),
    let r := scan_open_workbooks findall list_of_set m xl in
    let s := LinkStore.scan_open_workbooks findall list_of_set h rm xl in
    r = scan_open_workbooks findall list_of_set previous xl /\
    fst (snd r) = external_links (fst r) /\
    (forall app, xl = Some app ->
       Forall (fun l => exists wb, In wb (Workbooks app) /\
                                   wb_name wb = Some (source_workbook l))
              (fst (snd r)) /\
       (completes app = true ->
        total_links (snd (snd r)) = List.length (fst (snd r))) /\
       (completes app = false ->
        workbooks_with_links (snd (snd r)) = 0 /\
        total_links (snd (snd r)) = 0 /\
        unique_external_files (snd (snd r)) = 0)) /\
    (xl = None -> r = (mk_manager [] [], ([], mk_statistics 0 0 0 0))) /\
    (forall x link, LinkStore.deref h x = Some link ->
                    LinkStore.deref (fst (fst s)) x = Some link) /\
    fst (snd s) = LinkStore.ref_links (snd (fst s)) /\
    (forall x, In x (LinkStore.ref_links (snd (fst s))) ->
       List.length h <= x /\
       exists link, LinkStore.deref (fst (fst s)) x = Some link /\
                    In link (fst (snd r))) /\
    (forall f g x, In (f, g) (LinkStore.ref_groups (snd (fst s))) ->
       In x (LinkStore.rg_links g) ->
       In x (LinkStore.ref_links (snd (fst s)))) /\
    LinkStore.links_of (fst (fst s)) (fst (snd s)) = fst (snd r) /\
    snd (snd s) = snd (snd r) /\
    abs_manager (fst (fst s)) (snd (fst s)) = fst r /\
    (forall calls x link,
       LinkStore.deref h x = Some link ->
       LinkStore.deref
         (fst (LinkStore.run findall list_of_set calls (h, rm))) x
       = Some link).
Proof.
  intros findall list_of_set m previous xl h rm r s.
  destruct (scan_open_workbooks_store findall list_of_set h rm m xl)
    as (S1 & S2 & S3 & S4 & S5 & S6 & S7).
  fold r in S4, S5, S6. fold s in S1, S2, S3, S4, S5, S6, S7.
  split; [|split; [|split; [|split]]].
  - unfold r. now rewrite !(scan_open_workbooks_fresh _ _ _ xl),
      <- (scan_open_workbooks_fresh findall list_of_set previous xl).
  - unfold r, scan_open_workbooks. destruct xl as [app|]; [|reflexivity].
    now destruct (scan_workbooks findall list_of_set (Workbooks app)
                    (enumeration_raises app)
                    (mk_scan (external_links
                                (mk_manager [] (grouped_links m))) 0 [] [])).
  - intros app ->. split; [|split].
    + unfold r. rewrite scan_returns.
      pose proof (scan_sources findall list_of_set (enumeration_raises app)
                    (Workbooks app) (mk_scan [] 0 [] []) [] (Forall_nil _))
        as H.
      eapply Forall_impl; [|exact H]. simpl. intros l Hl.
      unfold names in Hl. apply in_flat_map in Hl as [wb [Hwb Hin]].
      exists wb. split; [assumption|].
      destruct (wb_name wb) as [n|]; [|destruct Hin].
      destruct Hin as [->|[]]. reflexivity.
    + intros Hc. unfold r, scan_open_workbooks. cbn [external_links].
      pose proof (scan_workbooks_completed findall list_of_set
                    (enumeration_raises app) (Workbooks app)
                    (mk_scan [] 0 [] [])) as Hs.
      fold (completes app) in Hs. rewrite Hc in Hs.
      destruct (scan_workbooks findall list_of_set (Workbooks app)
                  (enumeration_raises app) (mk_scan [] 0 [] []))
        as [st completed].
      simpl in Hs. subst completed. reflexivity.
    + intros Hc. unfold r, scan_open_workbooks. cbn [external_links].
      pose proof (scan_workbooks_completed findall list_of_set
                    (enumeration_raises app) (Workbooks app)
                    (mk_scan [] 0 [] [])) as Hs.
      fold (completes app) in Hs. rewrite Hc in Hs.
      destruct (scan_workbooks findall list_of_set (Workbooks app)
                  (enumeration_raises app) (mk_scan [] 0 [] []))
        as [st completed].
      simpl in Hs. subst completed. repeat split; reflexivity.
  - intros ->. reflexivity.
  - split; [|split; [|split; [|split; [|split; [|split; [|split]]]]]].
    + intros x link. now apply extends_deref.
    + exact S2.
    + intros x Hx. rewrite <- S2 in Hx. split.
      * rewrite Forall_forall in S3. now apply S3.
      * exact (points_In _ _ _ x S4 Hx).
    + intros f g x Hg Hx. rewrite <- S2.
      unfold within in S7. rewrite Forall_forall in S7.
      exact (S7 (f, g) Hg x Hx).
    + now apply points_links_of.
    + exact S5.
    + exact S6.
    + intros calls x link.
      apply extends_deref.
      exact (run_extends findall list_of_set calls (h, rm)).
Qed.

(** C10: the edge cases of [search_links]. An empty keyword returns the whole
    stored list whatever the field; a non-empty keyword with a field other
    than 'external_file', 'formula', 'source_workbook' and 'all' returns the
    empty list. *)
Theorem search_links_edge_cases :
  forall (m : manager) (keyword search_field : string),
    search_links m "" search_field = external_links m /\
    (keyword <> "" ->
     search_field <> "external_file" -> search_field <> "formula" ->
     search_field <> "source_workbook" -> search_field <> "all" ->
     search_links m keyword search_field = []).
Proof.
  intros m keyword search_field. split; [reflexivity|].
  intros Hk H1 H2 H3 H4. unfold search_links.
  rewrite (nonempty_true keyword Hk). simpl.
  apply filter_none. intros link.
  now apply link_matches_unknown_field.
Qed.

Lemma search_links_edge_cases_witness :
  search_links (fst sample_scan) "" "target" =
    external_links (fst sample_scan) /\
  search_links (fst sample_scan) "rates" "target" = [].
Proof.
  destruct (search_links_edge_cases (fst sample_scan) "rates" "target")
    as [H1 H2].
  split; [exact H1 | apply H2; discriminate].
Defined.

Example search_links_by_file :
  map source_cell (search_links (fst sample_scan) "COSTS" "external_file")
  = ["$B$2"].
Proof. vm_compute. reflexivity. Qed.

End ExternalLinksSpec.

(** ** core/session_manager.py *)

Module SessionSpec.
Import PyStr Session.

Lemma filter_map_swap {A B} (f : B -> bool) (g : A -> B) (l : list A) :
  filter f (map g l) = map g (filter (fun x => f (g x)) l).
Proof.
  induction l as [|x l IH]; simpl; [reflexivity|].
  destruct (f (g x)); simpl; now rewrite IH.
Qed.

Lemma filter_filter {A} (p q : A -> bool) (l : list A) :
  filter p (filter q l) = filter (fun x => q x && p x) l.
Proof.
  induction l as [|x l IH]; simpl; [reflexivity|].
  destruct (q x); simpl; [destruct (p x)|]; now rewrite IH.
Qed.

(** The validation as the claim words it: the first cell of the row is not
    empty and [os.path.exists] holds of it. *)
Definition passes (env : load_env) (v : cell_value) : bool :=
  match os_path_exists env v with
  | Some true => true
  | _ => false
  end.

Definition kept (env : load_env) (r : session_row_read) : bool :=
  has_first r && passes env (first_cell r).

(** The text of a text cell. *)
Definition path_text (v : cell_value) : string :=
  match v with
  | CText s => s
  | _ => EmptyString
  end.

Definition is_CText (v : cell_value) : bool :=
  match v with
  | CText _ => true
  | _ => false
  end.

Lemma valid_file_paths_ok exists_ paths :
  (forall v, In v paths -> exists_ v <> None) ->
  valid_file_paths exists_ paths
  = inr (filter (fun v => match exists_ v with
                          | Some true => true
                          | _ => false
                          end) paths).
Proof.
  induction paths as [|v paths IH]; intros H; simpl; [reflexivity|].
  destruct (exists_ v) as [b|] eqn:E;
    [|exfalso; apply (H v); [now left | exact E]].
  rewrite IH by (intros x Hx; apply H; now right).
  now destruct b.
Qed.

Lemma valid_file_paths_raises exists_ paths :
  (exists v, In v paths /\ exists_ v = None) ->
  exists v, valid_file_paths exists_ paths = inl v /\
            In v paths /\ exists_ v = None.
Proof.
  induction paths as [|x paths IH]; intros (v & Hin & Hv); [destruct Hin|].
  simpl. destruct (exists_ x) as [b|] eqn:E.
  - destruct Hin as [->|Hin]; [congruence|].
    destruct IH as (u & Hu & Hin' & Hnone); [now exists v|].
    exists u. rewrite Hu. split; [reflexivity|]. split; [now right | exact Hnone].
  - exists x. split; [reflexivity|]. split; [now left | exact E].
Qed.

Lemma dialog_rows_texts l :
  forallb is_CText l = true -> dialog_rows l = inr (map path_text l).
Proof.
  induction l as [|v l IH]; simpl; [reflexivity|].
  destruct v; simpl; try discriminate. intros H. now rewrite (IH H).
Qed.

Lemma dialog_rows_raises l :
  forallb is_CText l = false ->
  exists v, dialog_rows l = inl v /\ In v l /\ is_CText v = false.
Proof.
  induction l as [|v l IH]; simpl; [discriminate|].
  destruct v; simpl;
    try (intros _; eexists; split; [reflexivity|];
         split; [now left | reflexivity]).
  intros H. destruct (IH H) as (u & Hu & Hin & Ht).
  exists u. rewrite Hu. split; [reflexivity|]. split; [now right | exact Ht].
Qed.

(** The paths that pass are the first cells of the kept rows, in order. *)
Lemma passing_paths_kept env rows :
  filter (passes env) (all_file_paths rows)
  = map first_cell (filter (kept env) rows).
Proof.
  unfold all_file_paths, kept.
  now rewrite filter_map_swap, filter_filter.
Qed.

(** A save dialog answered with a path, three selected workbooks. *)
Definition sample_splitext (p : string) : string * string :=
  if String.eqb p "C:\s\monday.xlsx" then ("C:\s\monday", ".xlsx")
  else (p, "").

Definition sample_save_env : save_env :=
  mk_save_env "C:\s\monday.xlsx" "2024-01-15_09-30-00" None.

Definition sample_selected : list selected_workbook :=
  [ ("b.xlsx", "C:\w\b.xlsx", "Sheet2", "$C$4");
    ("a.xlsx", "C:\w\a.xlsx", "Sheet1", "$A$1");
    ("c.xlsx", "C:\w\c.xlsx", "Totals", "$B$9") ].

Example save_session_sample :
  let r := save_session sample_splitext sample_save_env sample_selected in
  returned r = Some "C:\s\monday_2024-01-15_09-30-00.xlsx" /\
  saved_file r =
    Some ("C:\s\monday_2024-01-15_09-30-00.xlsx",
          [ ["File Path"; "Sheet Name"; "Cell Address"];
            ["C:\w\b.xlsx"; "Sheet2"; "$C$4"];
            ["C:\w\a.xlsx"; "Sheet1"; "$A$1"];
            ["C:\w\c.xlsx"; "Totals"; "$B$9"] ]).
Proof. split; reflexivity. Qed.

(** C4: [save_session] writes one header row ("File Path", "Sheet Name",
    "Cell Address") and then one row (file path, sheet name, cell address)
    per selected workbook, in the order given; it returns the path the file
    was saved at, and [None], writing nothing, when the list is empty or the
    dialog is cancelled. *)
Theorem save_session_writes_one_row_per_workbook :
  forall (splitext : string -> string * string) (env : save_env)
         (selected_workbooks : list selected_workbook),
    let r := save_session splitext env selected_workbooks in
    (selected_workbooks = [] -> returned r = None /\ saved_file r = None) /\
    (asksaveasfilename env = "" -> returned r = None /\ saved_file r = None) /\
    (selected_workbooks <> [] -> asksaveasfilename env <> "" ->
     save_raises env = None ->
     exists path ws,
       returned r = Some path /\ saved_file r = Some (path, ws) /\
       path = (fst (splitext (asksaveasfilename env)) ++ "_" ++ timestamp env
               ++ snd (splitext (asksaveasfilename env)))%string /\
       List.length ws = S (List.length selected_workbooks) /\
       nth_error ws 0 = Some ["File Path"; "Sheet Name"; "Cell Address"] /\
       forall i name path_i sheet cell,
         nth_error selected_workbooks i = Some (name, path_i, sheet, cell) ->
         nth_error ws (S i) = Some [path_i; sheet; cell]).
Proof.
  intros splitext env sel r. subst r. split; [|split].
  - intros ->. split; reflexivity.
  - intros H. unfold save_session, _save_session_impl. rewrite H.
    destruct sel; split; reflexivity.
  - intros Hsel Hpath Hsave.
    unfold save_session, _save_session_impl.
    destruct sel as [|w sel']; [congruence|].
    set (sel := w :: sel') in *.
    destruct (asksaveasfilename env) as [|c p] eqn:Ep; [congruence|].
    simpl nonempty. simpl negb. cbv iota.
    destruct (splitext (String c p)) as [base ext] eqn:Es.
    rewrite Hsave. simpl.
    eexists _, _. split; [reflexivity|]. split; [reflexivity|].
    split; [reflexivity|]. split; [simpl; now rewrite length_map|].
    split; [reflexivity|].
    intros i name path_i sheet cell Hi.
    change (nth_error (map session_row sel) i = Some [path_i; sheet; cell]).
    rewrite nth_error_map, Hi. reflexivity.
Qed.

Lemma save_session_writes_one_row_per_workbook_witness :
  exists path ws,
    returned (save_session sample_splitext sample_save_env sample_selected)
      = Some path /\
    saved_file (save_session sample_splitext sample_save_env sample_selected)
      = Some (path, ws) /\
    nth_error ws 2 = Some ["C:\w\a.xlsx"; "Sheet1"; "$A$1"].
Proof.
  destruct (save_session_writes_one_row_per_workbook sample_splitext
              sample_save_env sample_selected) as [_ [_ H]].
  destruct H as [path [ws [H1 [H2 [_ [_ [_ H3]]]]]]];
    [discriminate | discriminate | reflexivity |].
  exists path, ws. split; [exact H1|]. split; [exact H2|].
  apply (H3 1 "a.xlsx"). reflexivity.
Defined.

(** A session file with a header, a missing file, a blank row and two rows
    of the same existing file. *)
Definition sample_sheet : list session_row_read :=
  [ [CText "File Path"; CText "Sheet Name"; CText "Cell Address"];
    [CText "C:\w\gone.xlsx"; CText "Sheet1"; CText "$A$1"];
    [CNone; CNone; CNone];
    [CText "C:\w\a.xlsx"; CText "Sheet1"; CText "$A$1"];
    [CText ""; CText "Sheet9"; CNone];
    [CText "C:\w\a.xlsx"; CText "Sheet2"; CText "$B$2"] ].

Definition sample_exists (p : string) : bool :=
  String.eqb p "C:\w\a.xlsx" || String.eqb p "C:\s\monday.xlsx".

(** The session file is [monday.xlsx]; no file descriptor above 2 is open;
    the user accepts every file the dialog lists. *)
Definition sample_load_env (sheet : list session_row_read) : load_env :=
  mk_load_env [] "C:\s\monday.xlsx" sample_exists
    (fun n => Some ((0 <=? n) && (n <=? 2))%Z) (inr sheet)
    (fun offered => ("ok", offered)).

Example load_session_sample :
  load_session (sample_load_env sample_sheet) =
  Loading ["C:\w\a.xlsx"; "C:\w\a.xlsx"]
          [ [CText "C:\w\a.xlsx"; CText "Sheet1"; CText "$A$1"];
            [CText "C:\w\a.xlsx"; CText "Sheet2"; CText "$B$2"] ].
Proof. reflexivity. Qed.

(** A session file edited by hand: the second data row holds the number
    1.5 in its first column. *)
Definition edited_sheet : list session_row_read :=
  [ [CText "File Path"; CText "Sheet Name"; CText "Cell Address"];
    [CText "C:\w\a.xlsx"; CText "Sheet1"; CText "$A$1"];
    [CFloat 3 (-1); CText "Sheet1"; CText "$A$1"] ].

Example load_session_edited :
  load_session (sample_load_env edited_sheet)
  = ReadFailed (exists_raised (CFloat 3 (-1))).
Proof. reflexivity. Qed.

(** A first column holding the number 1 names the file descriptor 1, which
    exists; the selection dialog then fails on it. The number 7 names no
    open descriptor and is dropped like a missing file. *)
Example load_session_descriptor :
  load_session (sample_load_env
     [ [CText "File Path"]; [CText "C:\w\a.xlsx"]; [CInt 1] ])
  = ReadFailed (basename_raised (CInt 1)) /\
  load_session (sample_load_env
     [ [CText "File Path"]; [CText "C:\w\a.xlsx"]; [CInt 7] ])
  = Loading ["C:\w\a.xlsx"] [[CText "C:\w\a.xlsx"]].
Proof. split; reflexivity. Qed.

(** The claim as the specification words it: of the rows of the session
    file, those handed to the loader are exactly those whose first column
    is not empty and for whose path [os.path.exists] holds (the user
    accepting every file that is listed). *)
Definition keeps_exactly_existing_paths (env : load_env)
    (rows : list session_row_read) : Prop :=
  forall r, In r rows ->
    (In r (rows_to_open (load_session env)) <-> kept env r = true).

(** C5, as stated, fails: the row of [a.xlsx] has a non-empty first column
    and its path exists, but it is not handed to the loader, because
    [os.path.exists] raises on the number in the next row and the whole
    load ends in the error dialog. *)
Lemma existing_path_is_dropped_after_TypeError :
  ~ keeps_exactly_existing_paths (sample_load_env edited_sheet)
      (data_rows edited_sheet).
Proof.
  intros H.
  specialize (H [CText "C:\w\a.xlsx"; CText "Sheet1"; CText "$A$1"]).
  destruct H as [_ H]; [now left|].
  exact (H eq_refl).
Qed.

Lemma has_first_truthy r : has_first r = truthy (first_cell r).
Proof. now destruct r. Qed.

(** [load_session] once the session file has been read. *)
Definition after_read (env : load_env) (rows : list session_row_read)
    : load_outcome :=
  match valid_file_paths (os_path_exists env) (all_file_paths rows) with
  | inl v => ReadFailed (exists_raised v)
  | inr [] => NoValidPaths (showwarning "Warning"
                              "No valid file paths found in session.")
  | inr valid =>
      match dialog_rows valid with
      | inl v => ReadFailed (basename_raised v)
      | inr offered =>
          if negb (String.eqb (fst (file_selection env offered)) "ok")
             || match snd (file_selection env offered) with
                | [] => true
                | _ => false
                end
          then SelectionDismissed offered
          else Loading offered
                 (filter (fun r => has_first r
                            && existsb (is_text (first_cell r))
                                 (snd (file_selection env offered))) rows)
      end
  end.

Lemma load_session_after_read env header rows :
  current_files env = [] ->
  askopenfilename env <> "" ->
  path_exists env (askopenfilename env) = true ->
  load_workbook env = inr (header :: rows) ->
  load_session env = after_read env rows.
Proof.
  intros Hcur Hpath Hex Hload. unfold load_session, after_read.
  rewrite Hcur, Hload, Hex.
  destruct (askopenfilename env) as [|c p]; [congruence|]. simpl.
  change (data_rows (header :: rows)) with rows.
  destruct (valid_file_paths (os_path_exists env) (all_file_paths rows))
    as [v|[|x valid]]; try reflexivity.
  destruct (dialog_rows (x :: valid)) as [v|offered]; [reflexivity|].
  now destruct (file_selection env offered) as [result selected].
Qed.

Lemma raising_first_cell env rows :
  (exists r, In r rows /\ has_first r = true /\
             os_path_exists env (first_cell r) = None) ->
  exists v, after_read env rows = ReadFailed (exists_raised v).
Proof.
  intros (r & Hin & Hf & Hnone).
  destruct (valid_file_paths_raises (os_path_exists env)
              (all_file_paths rows)) as (v & Hv & _).
  { exists (first_cell r). split; [|exact Hnone].
    unfold all_file_paths. apply in_map. apply filter_In. now split. }
  exists v. unfold after_read. now rewrite Hv.
Qed.

Lemma no_raising_first_cell env rows :
  (forall r, In r rows -> has_first r = true ->
             os_path_exists env (first_cell r) <> None) ->
  valid_file_paths (os_path_exists env) (all_file_paths rows)
  = inr (map first_cell (filter (kept env) rows)).
Proof.
  intros H. rewrite valid_file_paths_ok.
  - f_equal. apply passing_paths_kept.
  - intros v Hv. unfold all_file_paths in Hv.
    apply in_map_iff in Hv as (r & <- & Hr).
    apply filter_In in Hr as [Hr Hf]. now apply H.
Qed.

Lemma forallb_map_kept env rows :
  (forall r, In r rows -> kept env r = true ->
             is_CText (first_cell r) = true) ->
  forallb is_CText (map first_cell (filter (kept env) rows)) = true.
Proof.
  intros H. apply forallb_forall. intros v Hv.
  apply in_map_iff in Hv as (r & <- & Hr).
  apply filter_In in Hr as [Hr Hk]. now apply H.
Qed.

(** C5, amended: the rows of a session file are validated by path
    existence only, as long as no test and no dialog row raises. With no
    workbook open, a session file chosen and read as [header :: rows]:
    - when [os.path.exists] raises on the first cell of some row whose
      first cell is not empty, the load ends in the error dialog and
      hands no row to the loader;
    - otherwise, when a path that passes is not a text (an integer that
      is an open file descriptor), the dialog raises and the load ends
      the same way;
    - otherwise the selection dialog lists exactly the first cells of the
      rows whose first cell is not empty and for which [os.path.exists]
      holds, in order; when there is none the load stops with the
      warning and hands no row to the loader; when the user confirms a
      non-empty selection the loader gets the rows with a non-empty
      first cell that is among the selected paths, so every kept row
      when all listed paths are selected, and only kept rows when only
      listed paths are selected; when the dialog is dismissed nothing is
      loaded.
    The header row and the columns after the first are never looked
    at. *)
Theorem load_session_validates_by_existence_only :
  forall (env : load_env) (header : session_row_read)
         (rows : list session_row_read),
    current_files env = [] ->
    askopenfilename env <> "" ->
    path_exists env (askopenfilename env) = true ->
    load_workbook env = inr (header :: rows) ->
    let o := load_session env in
    let offered := map path_text (map first_cell (filter (kept env) rows)) in
    let selection := file_selection env offered in
    ((exists r, In r rows /\ has_first r = true /\
                os_path_exists env (first_cell r) = None) ->
     (exists v, o = ReadFailed (exists_raised v)) /\ rows_to_open o = []) /\
    ((forall r, In r rows -> has_first r = true ->
                os_path_exists env (first_cell r) <> None) ->
     ((exists r, In r rows /\ kept env r = true /\
                 is_CText (first_cell r) = false) ->
      (exists v, o = ReadFailed (basename_raised v)) /\
      rows_to_open o = []) /\
     ((forall r, In r rows -> kept env r = true ->
                 is_CText (first_cell r) = true) ->
      (filter (kept env) rows = [] ->
       o = NoValidPaths (showwarning "Warning"
                           "No valid file paths found in session.") /\
       rows_to_open o = []) /\
      (filter (kept env) rows <> [] ->
       offered_paths o = Some offered /\
       (forall p, In p offered <->
                  exists r, In r rows /\ has_first r = true /\
                            first_cell r = CText p /\
                            path_exists env p = true) /\
       (fst selection = "ok" -> snd selection <> [] ->
        o = Loading offered
              (filter (fun r => has_first r
                                && existsb (is_text (first_cell r))
                                     (snd selection)) rows)) /\
       (fst selection = "ok" -> snd selection = offered ->
        rows_to_open o = filter (kept env) rows) /\
       (fst selection = "ok" -> incl (snd selection) offered ->
        forall r, In r (rows_to_open o) -> kept env r = true) /\
       (fst selection <> "ok" \/ snd selection = [] ->
        o = SelectionDismissed offered /\ rows_to_open o = [])))) /\
    (forall header' rows',
       map first_cell rows' = map first_cell rows ->
       let env' := mk_load_env (current_files env) (askopenfilename env)
                     (path_exists env) (fd_exists env)
                     (inr (header' :: rows')) (file_selection env) in
       offered_paths (load_session env') = offered_paths o /\
       (offered_paths o = None -> load_session env' = o)).
Proof.
  intros env header rows Hcur Hpath Hex Hload o offered selection.
  assert (Ho : o = after_read env rows)
    by (now apply (load_session_after_read env header)).
  split; [|split].
  - intros Hraise.
    destruct (raising_first_cell env rows Hraise) as (v & Hv).
    rewrite Ho, Hv. split; [now exists v | reflexivity].
  - intros Hno.
    pose proof (no_raising_first_cell env rows Hno) as Hvalid.
    split.
    + intros (r & Hin & Hk & Hnt).
      assert (Hfalse : forallb is_CText
                         (map first_cell (filter (kept env) rows)) = false).
      { apply Bool.not_true_is_false. intros Hall.
        rewrite forallb_forall in Hall.
        rewrite (Hall (first_cell r)) in Hnt; [discriminate|].
        apply in_map. apply filter_In. now split. }
      destruct (dialog_rows_raises _ Hfalse) as (v & Hv & Hvin & _).
      rewrite Ho. unfold after_read. rewrite Hvalid.
      destruct (map first_cell (filter (kept env) rows)) as [|x valid];
        [destruct Hvin|].
      rewrite Hv. split; [now exists v | reflexivity].
    + intros Htext.
      pose proof (dialog_rows_texts _ (forallb_map_kept env rows Htext))
        as Hrows.
      fold offered in Hrows.
      split.
      * intros Hnone. rewrite Ho. unfold after_read.
        rewrite Hvalid, Hnone. split; reflexivity.
      * intros Hsome.
        assert (Hstep : o =
                  if negb (String.eqb (fst selection) "ok")
                     || match snd selection with [] => true | _ => false end
                  then SelectionDismissed offered
                  else Loading offered
                         (filter (fun r => has_first r
                                    && existsb (is_text (first_cell r))
                                         (snd selection)) rows)).
        { rewrite Ho. unfold after_read. rewrite Hvalid.
          destruct (map first_cell (filter (kept env) rows))
            as [|x valid] eqn:Ev.
          - destruct (filter (kept env) rows); [congruence | discriminate].
          - now rewrite Hrows. }
        assert (Hoff : forall p, In p offered <->
                  exists r, In r rows /\ has_first r = true /\
                            first_cell r = CText p /\
                            path_exists env p = true).
        { intros p. unfold offered. rewrite map_map, in_map_iff. split.
          - intros (r & Hp & Hr). apply filter_In in Hr as [Hr Hk].
            pose proof (Htext r Hr Hk) as Ht.
            unfold kept in Hk. apply andb_prop in Hk as [Hf Hpass].
            destruct (first_cell r) as [|t| | | | |] eqn:Ec;
              try discriminate Ht.
            simpl in Hp. subst t. exists r. repeat split; try assumption.
            unfold passes in Hpass. simpl in Hpass.
            now destruct (path_exists env p).
          - intros (r & Hr & Hf & Hc & Hp). exists r.
            split; [now rewrite Hc|]. apply filter_In. split; [assumption|].
            unfold kept, passes. rewrite Hf, Hc. simpl. now rewrite Hp. }
        split; [|split; [exact Hoff|split; [|split; [|split]]]].
        -- rewrite Hstep.
           now destruct (negb (String.eqb (fst selection) "ok")
                         || match snd selection with
                            | [] => true
                            | _ => false
                            end).
        -- intros Hok Hsel. rewrite Hstep, Hok. simpl.
           now destruct (snd selection).
        -- intros Hok Hsel. rewrite Hstep, Hok, Hsel. simpl.
           assert (Hne : offered <> []).
           { unfold offered. destruct (filter (kept env) rows);
               [congruence | discriminate]. }
           destruct offered as [|p0 ps] eqn:Eo; [congruence|].
           cbn [rows_to_open]. rewrite <- Eo in *. clear Hne.
           apply filter_ext_in. intros r Hr. unfold kept.
           destruct (has_first r) eqn:Hf; [|reflexivity]. simpl.
           destruct (existsb (is_text (first_cell r)) offered) eqn:Ee.
           ++ apply existsb_exists in Ee as (p & Hp & Heq).
              destruct (first_cell r) as [|t| | | | |] eqn:Ec;
                try discriminate Heq.
              simpl in Heq. apply String.eqb_eq in Heq. subst t.
              apply Hoff in Hp as (r' & _ & _ & _ & Hp').
              unfold passes. simpl. now rewrite Hp'.
           ++ destruct (passes env (first_cell r)) eqn:Epass;
                [|reflexivity].
              assert (Hk : kept env r = true)
                by (unfold kept; now rewrite Hf, Epass).
              pose proof (Htext r Hr Hk) as Ht.
              destruct (first_cell r) as [|t| | | | |] eqn:Ec;
                try discriminate Ht.
              assert (Hin : In t offered).
              { apply Hoff. exists r. repeat split; try assumption.
                unfold passes in Epass. simpl in Epass.
                now destruct (path_exists env t). }
              assert (Htrue : existsb (is_text (CText t)) offered = true).
              { apply existsb_exists. exists t. split; [assumption|].
                simpl. apply String.eqb_refl. }
              congruence.
        -- intros Hok Hsel r. rewrite Hstep, Hok. simpl.
           destruct (snd selection) as [|q qs] eqn:Es; [intros []|].
           cbn [rows_to_open]. intros Hr.
           apply filter_In in Hr as [Hr Hcond].
           apply andb_prop in Hcond as [Hf He].
           apply existsb_exists in He as (p & Hp & Heq).
           destruct (first_cell r) as [|t| | | | |] eqn:Ec;
             try discriminate Heq.
           simpl in Heq. apply String.eqb_eq in Heq. subst t.
           apply Hsel, Hoff in Hp as (r' & _ & _ & _ & Hp').
           unfold kept, passes. rewrite Hf, Ec. simpl. now rewrite Hp'.
        -- intros Hdis. rewrite Hstep.
           destruct Hdis as [Hne|Hnil].
           ++ apply String.eqb_neq in Hne. rewrite Hne. split; reflexivity.
           ++ rewrite Hnil, orb_true_r. split; reflexivity.
  - intros header' rows' Hcells env'.
    assert (Ho' : load_session env' = after_read env' rows').
    { apply (load_session_after_read env' header'); try assumption.
      reflexivity. }
    assert (Hall : all_file_paths rows' = all_file_paths rows).
    { assert (Hafp : forall l, all_file_paths l
                                 = filter truthy (map first_cell l)).
      { intros l. unfold all_file_paths. rewrite filter_map_swap. f_equal.
        apply filter_ext. intros r. apply has_first_truthy. }
      now rewrite !Hafp, Hcells. }
    rewrite Ho', Ho. unfold after_read. rewrite Hall.
    change (os_path_exists env') with (os_path_exists env).
    destruct (valid_file_paths (os_path_exists env) (all_file_paths rows))
      as [v|[|x valid]]; [split; reflexivity | split; reflexivity |].
    destruct (dialog_rows (x :: valid)) as [v|off];
      [split; reflexivity|].
    change (file_selection env') with (file_selection env).
    destruct (negb (String.eqb (fst (file_selection env off)) "ok")
              || match snd (file_selection env off) with
                 | [] => true
                 | _ => false
                 end); split; try reflexivity; discriminate.
Qed.

Lemma load_session_validates_by_existence_only_witness :
  load_session (sample_load_env sample_sheet)
  = Loading ["C:\w\a.xlsx"; "C:\w\a.xlsx"]
      (filter (kept (sample_load_env sample_sheet)) (tl sample_sheet)) /\
  rows_to_open (load_session (sample_load_env sample_sheet))
  = [ [CText "C:\w\a.xlsx"; CText "Sheet1"; CText "$A$1"];
      [CText "C:\w\a.xlsx"; CText "Sheet2"; CText "$B$2"] ].
Proof.
  destruct (load_session_validates_by_existence_only
              (sample_load_env sample_sheet)
              [CText "File Path"; CText "Sheet Name"; CText "Cell Address"]
              (tl sample_sheet))
    as (_ & H & _); [reflexivity | discriminate | reflexivity | reflexivity |].
  destruct H as [_ H].
  - intros r Hr Hf.
    simpl in Hr. decompose [or] Hr; subst; try discriminate; tauto.
  - destruct H as [_ H].
    + intros r Hr Hk.
      simpl in Hr. decompose [or] Hr; subst; try reflexivity;
        try discriminate Hk; tauto.
    + destruct H as (_ & _ & _ & H & _); [discriminate|].
      split; [reflexivity|]. rewrite H; reflexivity.
Defined.

End SessionSpec.

(** ** core/excel_manager.py: the retry loop *)

Module ExcelSaveSpec.
Import PyStr ExcelSave.

(** The outcome of the [i]-th coming call of [Save()] on a workbook. *)
Definition outcome (wb : xl_workbook) (i : nat) : option string :=
  nth i (save_script wb) None.

Definition events_of (r : list event * option string * xl_workbook) :=
  fst (fst r).
Definition raised_by (r : list event * option string * xl_workbook) :=
  snd (fst r).

Definition Save_calls (evs : list event) : nat :=
  List.length (filter is_Save evs).

Definition sleeps (evs : list event) : list event := filter is_sleep evs.

(** The search by name. *)
Lemma find_workbook_found name wbs before wb after :
  find_workbook name wbs = Some (before, wb, after) ->
  wbs = before ++ wb :: after /\ Name wb = name /\
  Forall (fun w => Name w <> name) before.
Proof.
  revert before. induction wbs as [|w rest IH]; simpl; intros before H;
    [discriminate|].
  destruct (String.eqb_spec (Name w) name) as [Heq|Hne].
  - inversion H; subst. repeat split. constructor.
  - destruct (find_workbook name rest) as [[[b f] a]|]; [|discriminate].
    inversion H; subst. destruct (IH b eq_refl) as [-> [Hn Hb]].
    repeat split; [assumption|]. now constructor.
Qed.

Lemma find_workbook_missing name wbs :
  find_workbook name wbs = None -> Forall (fun w => Name w <> name) wbs.
Proof.
  induction wbs as [|w rest IH]; simpl; intros H; [constructor|].
  destruct (String.eqb_spec (Name w) name) as [Heq|Hne]; [discriminate|].
  destruct (find_workbook name rest) as [[[b f] a]|]; [discriminate|].
  constructor; [assumption | now apply IH].
Qed.

(** The four ways the loop can run, by the outcomes of the first calls. *)
Lemma save_with_retry_cases wb :
  let r := save_with_retry wb in
  let n := Name wb in
  (outcome wb 0 = None ->
   events_of r = [call_Save n] /\ raised_by r = None) /\
  (forall e1, outcome wb 0 = Some e1 -> outcome wb 1 = None ->
   events_of r = [call_Save n; print_msg (line_retrying 1); sleep 100;
                  call_Save n] /\ raised_by r = None) /\
  (forall e1 e2, outcome wb 0 = Some e1 -> outcome wb 1 = Some e2 ->
   outcome wb 2 = None ->
   events_of r = [call_Save n; print_msg (line_retrying 1); sleep 100;
                  call_Save n; print_msg (line_retrying 2); sleep 100;
                  call_Save n] /\ raised_by r = None) /\
  (forall e1 e2 e3, outcome wb 0 = Some e1 -> outcome wb 1 = Some e2 ->
   outcome wb 2 = Some e3 ->
   events_of r = [call_Save n; print_msg (line_retrying 1); sleep 100;
                  call_Save n; print_msg (line_retrying 2); sleep 100;
                  call_Save n] /\ raised_by r = Some e3).
Proof.
  destruct wb as [n script c]. unfold outcome. simpl.
  destruct script as [|[e1|] [|[e2|] [|[e3|] rest]]]; simpl;
    (split; [|split; [|split]]); intros;
    repeat match goal with
           | H : Some _ = Some _ |- _ => inversion H; clear H; subst
           | H : None = Some _ |- _ => discriminate H
           | H : Some _ = None |- _ => discriminate H
           end;
    split; reflexivity.
Qed.

(** At most three calls of [Save()], one sleep of a tenth of a second after
    each call but the last, and nothing after the first call that returns. *)
Lemma save_with_retry_bounds wb :
  let evs := events_of (save_with_retry wb) in
  1 <= Save_calls evs <= 3 /\
  List.length (sleeps evs) = Save_calls evs - 1 /\
  Forall (fun e => e = sleep 100) (sleeps evs) /\
  (forall k, k < Save_calls evs - 1 -> outcome wb k <> None) /\
  (raised_by (save_with_retry wb) = None ->
   outcome wb (Save_calls evs - 1) = None) /\
  (forall e, raised_by (save_with_retry wb) = Some e ->
   Save_calls evs = 3 /\ outcome wb 2 = Some e).
Proof.
  destruct wb as [n script c]. unfold outcome, Save_calls, sleeps. simpl.
  destruct script as [|[e1|] [|[e2|] [|[e3|] rest]]]; simpl;
    (split; [lia|]); (split; [reflexivity|]);
    (split; [repeat constructor|]);
    (split; [intros k Hk;
             repeat (destruct k as [|k]; [simpl; discriminate|]); lia|]);
    (split; [intros H; first [reflexivity | discriminate H]|]);
    intros e He; first [discriminate He | inversion He; split; reflexivity].
Qed.

Definition sample_open : workbooks :=
  [ mk_xl "a.xlsx" [Some "busy"; None] None;
    mk_xl "b.xlsx" [Some "busy"; Some "busy"; Some "read-only"] None;
    mk_xl "c.xlsx" [] (Some "close refused") ].

Example _save_workbooks_impl_sample :
  fst (_save_workbooks_impl ["b.xlsx"; "zzz.xlsx"; "a.xlsx"] sample_open) =
  [ call_Save "b.xlsx"; print_msg (line_retrying 1); sleep 100;
    call_Save "b.xlsx"; print_msg (line_retrying 2); sleep 100;
    call_Save "b.xlsx"; print_msg (line_failed 1 3 "b.xlsx" "read-only");
    print_msg (line_not_found "zzz.xlsx");
    call_Save "a.xlsx"; print_msg (line_retrying 1); sleep 100;
    call_Save "a.xlsx"; print_msg (line_saved 3 3 "a.xlsx") ].
Proof. reflexivity. Qed.

Example _save_and_close_impl_sample :
  _save_and_close_impl ["a.xlsx"; "c.xlsx"] sample_open =
  ([ call_Save "a.xlsx"; print_msg (line_retrying 1); sleep 100;
     call_Save "a.xlsx"; call_Close "a.xlsx";
     print_msg (line_saved_and_closed 1 2 "a.xlsx");
     call_Save "c.xlsx"; call_Close "c.xlsx";
     print_msg (line_failed 2 2 "c.xlsx" "close refused") ],
   [ mk_xl "b.xlsx" [Some "busy"; Some "busy"; Some "read-only"] None;
     mk_xl "c.xlsx" [] (Some "close refused") ]).
Proof. reflexivity. Qed.

(** C6: saving retries a fixed number of times with a sleep in between. For
    each selected workbook the first open workbook with exactly that name is
    taken (none: a line is printed and nothing is saved); [Save()] is called
    at most three times, a call that returns ends the loop, a call that
    raises is followed by a 0.1 s sleep and another call unless it was the
    third, whose exception leaves the loop and is reported in the "failed"
    line of that workbook, after which the next workbook is handled;
    [_save_and_close_impl] runs the same loop before it closes. *)
Theorem save_retries_three_times_then_reports :
  forall (idx total : nat) (name : string) (wbs : workbooks),
    (forall before wb after,
       find_workbook name wbs = Some (before, wb, after) ->
       let r := save_with_retry wb in
       let evs := events_of r in
       (wbs = before ++ wb :: after /\ Name wb = name /\
        Forall (fun w => Name w <> name) before) /\
       (1 <= Save_calls evs <= 3 /\
        List.length (sleeps evs) = Save_calls evs - 1 /\
        Forall (fun e => e = sleep 100) (sleeps evs) /\
        (forall k, k < Save_calls evs - 1 -> outcome wb k <> None) /\
        (raised_by r = None -> outcome wb (Save_calls evs - 1) = None) /\
        (forall e, raised_by r = Some e ->
           Save_calls evs = 3 /\ outcome wb 2 = Some e)) /\
       fst (save_one idx total name wbs) =
         evs ++ [print_msg (match raised_by r with
                            | None => line_saved idx total name
                            | Some e => line_failed idx total name e
                            end)] /\
       (exists tail,
          fst (save_and_close_one idx total name wbs) = evs ++ tail /\
          Save_calls tail = 0 /\ sleeps tail = [] /\
          forall e, raised_by r = Some e ->
            tail = [print_msg (line_failed idx total name e)])) /\
    (find_workbook name wbs = None ->
     Forall (fun w => Name w <> name) wbs /\
     save_one idx total name wbs = ([print_msg (line_not_found name)], wbs) /\
     save_and_close_one idx total name wbs
       = ([print_msg (line_not_found name)], wbs)) /\
    (forall rest,
       fst (for_each_selected save_one idx total (name :: rest) wbs) =
       fst (save_one idx total name wbs) ++
       fst (for_each_selected save_one (S idx) total rest
              (snd (save_one idx total name wbs))) /\
       fst (for_each_selected save_and_close_one idx total (name :: rest) wbs) =
       fst (save_and_close_one idx total name wbs) ++
       fst (for_each_selected save_and_close_one (S idx) total rest
              (snd (save_and_close_one idx total name wbs)))).
Proof.
  intros idx total name wbs. split; [|split].
  - intros before wb after Hfind r evs. subst r evs.
    split; [now apply find_workbook_found|].
    split; [apply save_with_retry_bounds|].
    unfold save_one, save_and_close_one. rewrite Hfind.
    unfold events_of, raised_by.
    destruct (save_with_retry wb) as [[evs res] wb']. simpl.
    split; [reflexivity|].
    destruct res as [e|].
    + eexists. split; [reflexivity|]. repeat split.
      intros e' He. now inversion He.
    + destruct (close_raises wb') as [e|]; simpl;
        (eexists; split; [reflexivity|]; repeat split; intros e' He;
         discriminate He).
  - intros Hfind. split; [now apply find_workbook_missing|].
    unfold save_one, save_and_close_one. rewrite Hfind. split; reflexivity.
  - intros rest. simpl.
    destruct (save_one idx total name wbs) as [e1 w1]. simpl.
    destruct (for_each_selected save_one (S idx) total rest w1) as [e2 w2].
    destruct (save_and_close_one idx total name wbs) as [e3 w3]. simpl.
    destruct (for_each_selected save_and_close_one (S idx) total rest w3)
      as [e4 w4].
    split; reflexivity.
Qed.

Lemma save_retries_three_times_then_reports_witness :
  fst (save_one 1 3 "b.xlsx" sample_open) =
  events_of (save_with_retry
               (mk_xl "b.xlsx" [Some "busy"; Some "busy"; Some "read-only"]
                  None))
  ++ [print_msg (line_failed 1 3 "b.xlsx" "read-only")].
Proof.
  destruct (save_retries_three_times_then_reports 1 3 "b.xlsx" sample_open)
    as [H _].
  destruct (H [mk_xl "a.xlsx" [Some "busy"; None] None]
              (mk_xl "b.xlsx" [Some "busy"; Some "busy"; Some "read-only"] None)
              [mk_xl "c.xlsx" [] (Some "close refused")] eq_refl)
    as [_ [_ [H1 _]]].
  exact H1.
Defined.

End ExcelSaveSpec.

(** ** core/performance_monitor.py: the bounded buffers *)

Module PerfMonitorSpec.
Import PyStr PerfMonitor.

Lemma deque_append_length {A} n (x : A) d :
  List.length d <= n -> List.length (deque_append n x d) <= n.
Proof.
  intros H. unfold deque_append. destruct n as [|n]; [simpl; lia|].
  destruct (Nat.leb_spec (S n) (List.length d)).
  - destruct d as [|y d]; simpl in *; [lia|].
    rewrite length_app. simpl. lia.
  - rewrite length_app. simpl. lia.
Qed.

Lemma deque_append_full {A} n (x : A) d :
  0 < n -> List.length d = n -> deque_append n x d = tl d ++ [x].
Proof.
  intros Hn Hd. unfold deque_append. destruct n as [|n]; [lia|].
  destruct (Nat.leb_spec (S n) (List.length d)); [reflexivity | lia].
Qed.

Lemma deque_append_room {A} n (x : A) d :
  List.length d < n -> deque_append n x d = d ++ [x].
Proof.
  intros Hd. unfold deque_append. destruct n as [|n]; [lia|].
  destruct (Nat.leb_spec (S n) (List.length d)); [lia | reflexivity].
Qed.

Section Facts.
Variable float : Type.
Variable fsub : float -> float -> float.
Variable fge : float -> float -> bool.
Variable millis : float -> nat.
Variable float_of_nat : nat -> float.

Local Abbreviation monitor := (PerfMonitor.monitor float).
Local Abbreviation step := (PerfMonitor.step float fsub fge millis float_of_nat).
Local Abbreviation run := (PerfMonitor.run float fsub fge millis float_of_nat).
Local Abbreviation bounded := (PerfMonitor.bounded float).

Lemma record_metric_max m name v u cat ts now :
  max_history float (record_metric float m name v u cat ts now)
  = max_history float m.
Proof. reflexivity. Qed.

Lemma record_metric_bounded (m : monitor) name v u cat ts now :
  bounded m -> bounded (record_metric float m name v u cat ts now).
Proof.
  intros (H1 & H2 & H3 & H4 & H5). unfold PerfMonitor.bounded. simpl.
  repeat split; try assumption. now apply deque_append_length.
Qed.

Lemma step_max (m : monitor) c :
  max_history float (step m c) = max_history float m.
Proof.
  destruct c; simpl; try reflexivity.
  unfold end_operation.
  destruct (dict_pop operation_id (active_operations float m))
    as [[timing rest]|]; reflexivity.
Qed.

Lemma step_bounded (m : monitor) c : bounded m -> bounded (step m c).
Proof.
  intros H. destruct c; unfold PerfMonitor.step.
  - now apply record_metric_bounded.
  - exact H.
  - unfold end_operation.
    destruct (dict_pop operation_id (active_operations float m))
      as [[timing rest]|]; simpl; [|exact H].
    apply record_metric_bounded.
    destruct H as (H1 & H2 & H3 & H4 & H5).
    unfold PerfMonitor.bounded. simpl.
    repeat split; try assumption. now apply deque_append_length.
  - unfold monitor_round. cbn [fst].
    do 3 apply record_metric_bounded.
    destruct H as (H1 & H2 & H3 & H4 & H5).
    unfold PerfMonitor.bounded.
    cbn [metrics_history operation_timings cpu_percent memory_percent
         disk_usage max_history].
    repeat split; try assumption; now apply deque_append_length.
Qed.

Lemma run_bounded calls : forall m : monitor,
  bounded m ->
  bounded (run calls m) /\
  max_history float (run calls m) = max_history float m.
Proof.
  unfold PerfMonitor.run.
  induction calls as [|c calls IH]; intros m H; cbn [fold_left]; [now split|].
  destruct (IH (step m c) (step_bounded m c H)) as [Hb Hm].
  split; [exact Hb|]. rewrite Hm. apply step_max.
Qed.

Lemma init_bounded n : bounded (init float n).
Proof. unfold PerfMonitor.bounded. simpl. repeat split; lia. Qed.

End Facts.

(** A run on integer readings: a monitor keeping three metrics. *)
Definition sample_calls : list (call nat) :=
  [ do_record_metric nat "m1" 1 "s" "general" None 10;
    do_start_operation nat "save" [("workbook_count", 2)] 20 20;
    do_record_metric nat "m2" 2 "s" "general" None 30;
    do_end_operation nat "save_20" true 27 40;
    do_record_metric nat "m3" 3 "s" "general" None 50 ].

Example sample_run_metrics :
  map (metric_name nat)
    (metrics_history nat
       (run nat Nat.sub Nat.leb (fun t => t) (fun n => n)
          sample_calls (init nat 3)))
  = ["m2"; "operation_save"; "m3"].
Proof. reflexivity. Qed.

Example sample_run_timings :
  map (fun t => (operation nat t, duration nat t))
    (operation_timings nat
       (run nat Nat.sub Nat.leb (fun t => t) (fun n => n)
          sample_calls (init nat 3)))
  = [("save", Some 7)].
Proof. reflexivity. Qed.

(** Two operations on a monitor that keeps one entry: the timing of the
    first is dropped when the second ends. *)
Example sample_run_evicts_oldest_timing :
  map (operation nat)
    (operation_timings nat
       (run nat Nat.sub Nat.leb (fun t => t) (fun n => n)
          [ do_start_operation nat "save" [] 20 20;
            do_end_operation nat "save_20" true 27 40;
            do_start_operation nat "load" [] 50 50;
            do_end_operation nat "load_50" true 51 60 ]
          (init nat 1)))
  = ["load"].
Proof. reflexivity. Qed.

(** What [append] does to a deque declared with [maxlen=len]: a full deque
    loses its oldest entry, the new entry always comes last, and a deque of
    length 0 keeps nothing. *)
Definition appended {A : Type} (len : nat) (x : A) (before after : list A)
    : Prop :=
  (0 < len -> List.length before = len -> after = tl before ++ [x]) /\
  (List.length before < len -> after = before ++ [x]) /\
  (len = 0 -> after = []).

Lemma deque_append_appended {A} len (x : A) d :
  appended len x d (deque_append len x d).
Proof.
  split; [apply deque_append_full|]. split; [apply deque_append_room|].
  now intros ->.
Qed.

(** C8: the monitor's buffers are bounded. After any sequence of calls of
    [record_metric], [start_operation], [end_operation] and rounds of the
    background monitor on a new monitor, [metrics_history] and
    [operation_timings] hold at most [max_history] entries (1000 when the
    constructor is given none) and each system metric buffer at most 100.
    Every append to one of the five buffers drops the oldest entry when the
    buffer is full and puts the new one last, and only adds it when there
    is room: the metric of [record_metric]; the finished timing and the
    'operation_' metric of [end_operation] for an active id (an id that is
    not active changes nothing); the three readings and the three metrics
    of a background round. [start_operation] leaves the buffers as they
    are. *)
Theorem buffers_are_bounded :
  forall (float : Type) (fsub : float -> float -> float)
         (fge : float -> float -> bool) (millis : float -> nat)
         (float_of_nat : nat -> float)
         (max_history_arg : option nat) (calls : list (call float)),
    let m := run float fsub fge millis float_of_nat calls
               (PerformanceMonitor float max_history_arg) in
    let n := match max_history_arg with Some k => k | None => 1000 end in
    max_history float m = n /\
    List.length (metrics_history float m) <= n /\
    List.length (operation_timings float m) <= n /\
    List.length (cpu_percent float m) <= 100 /\
    List.length (memory_percent float m) <= 100 /\
    List.length (disk_usage float m) <= 100 /\
    (forall name v u cat ts now,
       let metric := mk_metric float name v u
                       (match ts with Some t => t | None => now end) cat in
       let after := metrics_history float
                      (record_metric float m name v u cat ts now) in
       (0 < n -> List.length (metrics_history float m) = n ->
        after = tl (metrics_history float m) ++ [metric]) /\
       (List.length (metrics_history float m) < n ->
        after = metrics_history float m ++ [metric])) /\
    (forall (A : Type) (len : nat) (x : A) (d : list A),
       (List.length d <= len -> List.length (deque_append len x d) <= len) /\
       (0 < len -> List.length d = len ->
        deque_append len x d = tl d ++ [x]) /\
       (List.length d < len -> deque_append len x d = d ++ [x])) /\
    (forall id ok t_end now,
       let r := fst (end_operation float fsub fge float_of_nat m id ok
                       t_end now) in
       (forall timing rest,
          dict_pop id (active_operations float m) = Some (timing, rest) ->
          let d := fsub t_end (start_time float timing) in
          appended n
            (mk_timing float (operation float timing)
               (start_time float timing) (Some t_end) (Some d) ok
               (context float timing))
            (operation_timings float m) (operation_timings float r) /\
          appended n
            (mk_metric float ("operation_" ++ operation float timing)%string
               d "seconds" now "operations")
            (metrics_history float m) (metrics_history float r)) /\
       (dict_pop id (active_operations float m) = None -> r = m)) /\
    (forall cpu mem disk now,
       let r := fst (monitor_round float fge float_of_nat m cpu mem disk
                       now) in
       appended 100 cpu (cpu_percent float m) (cpu_percent float r) /\
       appended 100 mem (memory_percent float m) (memory_percent float r) /\
       appended 100 disk (disk_usage float m) (disk_usage float r) /\
       operation_timings float r = operation_timings float m /\
       exists h1 h2,
         appended n (mk_metric float "cpu_usage" cpu "percent" now "system")
           (metrics_history float m) h1 /\
         appended n (mk_metric float "memory_usage" mem "percent" now "system")
           h1 h2 /\
         appended n (mk_metric float "disk_usage" disk "percent" now "system")
           h2 (metrics_history float r)) /\
    (forall op ctx t_id t_start,
       let r := fst (start_operation float millis m op ctx t_id t_start) in
       metrics_history float r = metrics_history float m /\
       operation_timings float r = operation_timings float m /\
       cpu_percent float r = cpu_percent float m /\
       memory_percent float r = memory_percent float m /\
       disk_usage float r = disk_usage float m).
Proof.
  intros float fsub fge millis float_of_nat arg calls m n.
  destruct (run_bounded float fsub fge millis float_of_nat calls
              (PerformanceMonitor float arg))
    as [(H1 & H2 & H3 & H4 & H5) Hm].
  { unfold PerformanceMonitor. apply init_bounded. }
  fold m in H1, H2, H3, H4, H5, Hm.
  assert (Hn : max_history float m = n).
  { rewrite Hm. unfold PerformanceMonitor, n. now destruct arg. }
  rewrite Hn in H1, H2. unfold system_maxlen in *.
  repeat (split; [assumption|]).
  split; [|split; [|split; [|split]]].
  - intros name v u cat ts now. cbn [record_metric metrics_history].
    rewrite Hn. split.
    + intros Hpos Hlen. now apply deque_append_full.
    + intros Hlen. now apply deque_append_room.
  - intros A len x d. split; [apply deque_append_length|].
    split; [apply deque_append_full | apply deque_append_room].
  - intros id ok t_end now. unfold end_operation. split.
    + intros timing rest Hpop. rewrite Hpop.
      cbn [fst record_metric metrics_history operation_timings max_history].
      rewrite Hn. split; apply deque_append_appended.
    + intros Hpop. now rewrite Hpop.
  - intros cpu mem disk now. unfold monitor_round.
    cbn [fst record_metric metrics_history operation_timings max_history
         cpu_percent memory_percent disk_usage].
    rewrite Hn. unfold system_maxlen.
    split; [apply deque_append_appended|].
    split; [apply deque_append_appended|].
    split; [apply deque_append_appended|].
    split; [reflexivity|].
    eexists. eexists.
    split; [apply deque_append_appended|].
    split; apply deque_append_appended.
  - intros op ctx t_id t_start. unfold start_operation.
    cbn. repeat split.
Qed.

End PerfMonitorSpec.

(** ** excel_session_manager_link_updater.py: which links are updated *)

Module LinkUpdaterSpec.
Import PyStr LinkUpdater.

Local Open Scope Z_scope.

(** [is_workbook_open] answers [True] exactly when a workbook compares equal
    to the file and every read and comparison before it went through and
    answered [False]. *)
Lemma is_workbook_open_true w wbs p :
  is_workbook_open w wbs p = true <->
  exists before wb after n,
    wbs = before ++ wb :: after /\
    FullName wb = Some n /\ samefile w n p = Some true /\
    Forall (fun b => exists m, FullName b = Some m /\
                               samefile w m p = Some false) before.
Proof.
  induction wbs as [|wb rest IH]; simpl.
  - split; [discriminate|]. intros (b & x & a & n & H & _).
    destruct b; discriminate H.
  - destruct (FullName wb) as [name|] eqn:En.
    + destruct (samefile w name p) as [[|]|] eqn:E.
      * split; [|reflexivity]. intros _. exists [], wb, rest, name.
        repeat split; [assumption | assumption | constructor].
      * rewrite IH. split.
        -- intros (b & x & a & n & -> & Hn & Hx & Hb).
           exists (wb :: b), x, a, n.
           repeat split; try assumption. constructor; [|assumption].
           now exists name.
        -- intros (b & x & a & n & H & Hn & Hx & Hb). destruct b as [|b0 b].
           ++ inversion H; subst. congruence.
           ++ inversion H; subst. inversion Hb; subst. now exists b, x, a, n.
      * split; [discriminate|]. intros (b & x & a & n & H & Hn & Hx & Hb).
        destruct b as [|b0 b]; inversion H; subst; [congruence|].
        inversion Hb as [|? ? (m & Hm & Hs) ?]; subst. congruence.
    + split; [discriminate|]. intros (b & x & a & n & H & Hn & Hx & Hb).
      destruct b as [|b0 b]; inversion H; subst; [congruence|].
      inversion Hb as [|? ? (m & Hm & Hs) ?]; subst. congruence.
Qed.

Lemma is_workbook_open_sound w wbs p :
  is_workbook_open w wbs p = true -> target_is_open w wbs p.
Proof.
  intros H.
  apply is_workbook_open_true in H as (b & x & a & n & -> & Hn & Hx & _).
  exists x, n. split; [|now split]. apply in_or_app. right. now left.
Qed.

(** When no read and no comparison raises, the answer is the plain
    membership test. *)
Lemma is_workbook_open_complete w wbs p :
  (forall wb, In wb wbs ->
     exists n, FullName wb = Some n /\ samefile w n p <> None) ->
  target_is_open w wbs p -> is_workbook_open w wbs p = true.
Proof.
  induction wbs as [|wb rest IH]; simpl; intros Hno (x & n & Hin & Hn & Hx).
  - destruct Hin.
  - destruct (Hno wb (or_introl eq_refl)) as (m & Hm & Hs). rewrite Hm.
    destruct (samefile w m p) as [[|]|] eqn:E; [reflexivity | | congruence].
    apply IH; [intros y Hy; apply Hno; now right|].
    destruct Hin as [->|Hin]; [congruence|]. now exists x, n.
Qed.

Lemma needs_update_true w wbs threshold link :
  needs_update w wbs threshold link = true <->
  exists t, getmtime w link = Some t /\ threshold <= t /\
            is_workbook_open w wbs link = false.
Proof.
  unfold needs_update, get_last_modified_date.
  destruct (getmtime w link) as [t|].
  - destruct (Z.leb_spec threshold t).
    + rewrite negb_true_iff. split.
      * intros Hop. now exists t.
      * now intros (t' & _ & _ & Hop).
    + split; [discriminate|]. intros (t' & Ht & Hle & _).
      inversion Ht; subst. lia.
  - split; [discriminate|]. now intros (t & Ht & _).
Qed.

(** A workbook the loop gets to is an open workbook whose name was read. *)
Lemma reached_In wbs n wb :
  In (n, wb) (reached wbs) -> In wb wbs /\ FullName wb = Some n.
Proof.
  induction wbs as [|x rest IH]; simpl; [tauto|].
  destruct (FullName x) as [m|] eqn:E; [|intros []].
  intros [H|H].
  - inversion H; subst. split; [now left | assumption].
  - destruct (IH H). split; [now right | assumption].
Qed.

(** When every name can be read the loop gets to every open workbook. *)
Lemma reached_all wbs n wb :
  (forall x, In x wbs -> FullName x <> None) ->
  In wb wbs -> FullName wb = Some n -> In (n, wb) (reached wbs).
Proof.
  induction wbs as [|x rest IH]; simpl; intros Hall Hin Hn; [destruct Hin|].
  destruct (FullName x) as [m|] eqn:E;
    [|exfalso; apply (Hall x); [now left | assumption]].
  destruct Hin as [->|Hin].
  - left. congruence.
  - right. apply IH; try assumption. intros y Hy. apply Hall. now right.
Qed.

Lemma reached_length wbs :
  (List.length (reached wbs) <= List.length wbs)%nat.
Proof.
  induction wbs as [|x rest IH]; simpl; [lia|].
  destruct (FullName x); simpl; lia.
Qed.

Lemma In_calls w wbs threshold c :
  In c (calls (check_and_update_links w wbs threshold)) <->
  exists wb links,
    In (on_workbook c, wb) (reached wbs) /\
    LinkSources wb = Some links /\ In (link_name c) links /\
    needs_update w wbs threshold (link_name c) = true.
Proof.
  unfold check_and_update_links. simpl. rewrite in_flat_map. split.
  - intros ([n wb] & Hwb & Hc). unfold update_workbook in Hc. simpl in Hc.
    destruct (LinkSources wb) as [links|] eqn:E; [|destruct Hc].
    apply in_map_iff in Hc as (link & <- & Hl).
    apply filter_In in Hl as [Hl Hn]. exists wb, links. simpl. tauto.
  - intros (wb & links & Hwb & E & Hl & Hn). exists (on_workbook c, wb).
    split; [assumption|]. unfold update_workbook. simpl. rewrite E.
    apply in_map_iff. exists (link_name c). split.
    + now destruct c.
    + apply filter_In. tauto.
Qed.

(** The claim as the specification words it: a link is passed to
    [UpdateLink] exactly when its time is readable, on or after the cutoff,
    and its target is not one of the open workbooks. *)
Definition updates_exactly_recent_closed_targets (o : options) (now : Z)
    (w : world) (wbs : list workbook) : Prop :=
  forall r days, run_excel_link_update o now w wbs = Some r ->
    CHECK_DAYS o = Some days ->
    forall wb n links link,
      In wb wbs -> FullName wb = Some n ->
      LinkSources wb = Some links -> In link links ->
      (In (mk_call n link) (calls r) <->
       exists t, getmtime w link = Some t /\
                 now - days * us_per_day <= t /\
                 ~ target_is_open w wbs link).

(** Three open workbooks: a new, never saved [Book1], whose name is not a
    file, then [B.xlsx], then [A.xlsx], which links to [B.xlsx]. Comparing
    a path with [Book1] raises. [B.xlsx] was changed one day before the
    run. *)
Definition sample_now : Z := 738000 * us_per_day.

Definition sample_world : world :=
  mk_world
    (fun p => if String.eqb p "C:\w\B.xlsx"
              then Some (sample_now - us_per_day) else None)
    (fun a b => if String.eqb a "Book1" then None
                else Some (String.eqb a b))
    (fun _ _ => false).

Definition sample_open : list workbook :=
  [ mk_workbook (Some "Book1") (Some []);
    mk_workbook (Some "C:\w\B.xlsx") (Some []);
    mk_workbook (Some "C:\w\A.xlsx")
      (Some ["C:\w\B.xlsx"; "C:\w\old.xlsx"]) ].

Example sample_run :
  run_excel_link_update [] sample_now sample_world sample_open =
  Some (mk_result [mk_call "C:\w\A.xlsx" "C:\w\B.xlsx"] 3 1).
Proof. reflexivity. Qed.

(** With [Book1] closed the same link is skipped. *)
Example sample_run_without_Book1 :
  run_excel_link_update [] sample_now sample_world (tl sample_open) =
  Some (mk_result [] 2 0).
Proof. reflexivity. Qed.

(** A workbook whose [FullName] cannot be read ends the loop: the link of
    [A.xlsx], which comes after it, is not updated although [B.xlsx] is
    recent and closed. All three workbooks are still counted. *)
Example sample_run_after_unreadable_name :
  run_excel_link_update [] sample_now sample_world
    [ mk_workbook None (Some []);
      mk_workbook (Some "C:\w\A.xlsx") (Some ["C:\w\B.xlsx"]);
      mk_workbook (Some "C:\w\C.xlsx") (Some []) ] =
  Some (mk_result [] 3 0).
Proof. reflexivity. Qed.

Example CHECK_DAYS_text :
  CHECK_DAYS [("SAVE_LOG", OBool false); ("CHECK_DAYS", OStr " 30 ")]
  = Some 30.
Proof. reflexivity. Qed.

(** C1 fails on this input. [B.xlsx] is one of the open workbooks and was
    changed within the last 14 days; [is_workbook_open] is asked about it
    and answers [False], because the comparison with [Book1], which comes
    first, raises and the blanket [except] returns [False]; so the link of
    [A.xlsx] to [B.xlsx] is passed to [UpdateLink]. With [Book1] closed
    the answer is [True] and the link is skipped. The claim as stated does
    not hold of this run. *)
Theorem open_target_is_updated_after_failed_comparison :
  run_excel_link_update [] sample_now sample_world sample_open
  = Some (mk_result [mk_call "C:\w\A.xlsx" "C:\w\B.xlsx"] 3 1) /\
  target_is_open sample_world sample_open "C:\w\B.xlsx" /\
  is_workbook_open sample_world sample_open "C:\w\B.xlsx" = false /\
  is_workbook_open sample_world (tl sample_open) "C:\w\B.xlsx" = true /\
  ~ updates_exactly_recent_closed_targets [] sample_now sample_world
      sample_open.
Proof.
  assert (Hopen : target_is_open sample_world sample_open "C:\w\B.xlsx").
  { exists (mk_workbook (Some "C:\w\B.xlsx") (Some [])), "C:\w\B.xlsx".
    split; [right; now left | split; reflexivity]. }
  split; [reflexivity|]. split; [exact Hopen|].
  split; [reflexivity|]. split; [reflexivity|].
  intros H.
  specialize (H _ 14 sample_run eq_refl
                (mk_workbook (Some "C:\w\A.xlsx")
                   (Some ["C:\w\B.xlsx"; "C:\w\old.xlsx"]))
                "C:\w\A.xlsx"
                ["C:\w\B.xlsx"; "C:\w\old.xlsx"] "C:\w\B.xlsx").
  destruct H as [H _]; simpl; auto.
  destruct H as (t & _ & _ & Hclosed); [now left|].
  now apply Hclosed.
Qed.

(** X26: which links [check_and_update_links] passes to [UpdateLink]. In a
    run that gets as far as the scan, the cutoff is the start time minus
    [CHECK_DAYS] days (14 when the option is absent). For a workbook the
    loop gets to, [UpdateLink] is called for one of its links exactly when
    [get_last_modified_date] gives a time on or after the cutoff and
    [is_workbook_open] answers [False]; no other call is made, and none
    for a workbook at or after the first whose [FullName] cannot be read.
    [is_workbook_open] answers [True] only for a target that is an open
    workbook, and for every such target when every [FullName] can be read
    and no comparison raises. *)
Theorem UpdateLink_called_iff_recent_and_not_found_open :
  forall (o : options) (now : Z) (w : world) (wbs : list workbook)
         (r : run_result),
    run_excel_link_update o now w wbs = Some r ->
    exists days,
      CHECK_DAYS o = Some days /\
      (get "CHECK_DAYS" o = None -> days = 14) /\
      (forall n wb links link,
         In (n, wb) (reached wbs) ->
         LinkSources wb = Some links -> In link links ->
         (In (mk_call n link) (calls r) <->
          exists t, getmtime w link = Some t /\
                    now - days * us_per_day <= t /\
                    is_workbook_open w wbs link = false)) /\
      (forall c, In c (calls r) ->
         exists wb links t,
           In (on_workbook c, wb) (reached wbs) /\
           In wb wbs /\ FullName wb = Some (on_workbook c) /\
           LinkSources wb = Some links /\ In (link_name c) links /\
           getmtime w (link_name c) = Some t /\
           now - days * us_per_day <= t /\
           is_workbook_open w wbs (link_name c) = false) /\
      ((forall wb, In wb wbs -> FullName wb <> None) ->
       forall n wb, In wb wbs -> FullName wb = Some n ->
                    In (n, wb) (reached wbs)) /\
      (forall before wb after,
         wbs = before ++ wb :: after -> FullName wb = None ->
         forall n x, In (n, x) (reached wbs) -> In x before) /\
      (forall link, is_workbook_open w wbs link = true ->
                    target_is_open w wbs link) /\
      (forall link,
         (forall wb, In wb wbs ->
            exists n, FullName wb = Some n /\ samefile w n link <> None) ->
         (is_workbook_open w wbs link = true <-> target_is_open w wbs link)).
Proof.
  intros o now w wbs r Hrun. unfold run_excel_link_update in Hrun.
  destruct (CHECK_DAYS o) as [days|] eqn:Ed; [|discriminate].
  destruct (threshold_date now days) as [th|] eqn:Et; [|discriminate].
  inversion Hrun; subst r; clear Hrun.
  assert (Hth : th = now - days * us_per_day).
  { unfold threshold_date in Et.
    destruct (Z.abs days <=? timedelta_max_days); [|discriminate].
    destruct ((0 <=? now - days * us_per_day)
              && (now - days * us_per_day <=? datetime_max));
      [now inversion Et | discriminate]. }
  exists days. split; [reflexivity|]. split.
  { intros Hget. unfold CHECK_DAYS in Ed. rewrite Hget in Ed.
    now inversion Ed. }
  split; [|split; [|split; [|split; [|split]]]].
  - intros n wb links link Hwb Hl Hin. rewrite In_calls. simpl.
    rewrite <- Hth. split.
    + intros (wb' & links' & _ & _ & _ & Hn).
      now apply needs_update_true.
    + intros H. exists wb, links. repeat split; try assumption.
      now apply needs_update_true.
  - intros c Hc. apply In_calls in Hc as (wb & links & H1 & H2 & H3 & H5).
    apply needs_update_true in H5 as (t & H5 & H6 & H7).
    destruct (reached_In _ _ _ H1) as [Hin Hname].
    exists wb, links, t. rewrite <- Hth. tauto.
  - intros Hall n wb. now apply reached_all.
  - intros before wb after -> Hnone.
    induction before as [|b before IH]; simpl; intros n x.
    + rewrite Hnone. intros [].
    + destruct (FullName b); [|intros []].
      intros [H|H]; [inversion H; now left | right; now apply (IH n)].
  - intros link. apply is_workbook_open_sound.
  - intros link Hno. split;
      [apply is_workbook_open_sound | now apply is_workbook_open_complete].
Qed.

Lemma UpdateLink_called_iff_recent_and_not_found_open_witness :
  exists days,
    CHECK_DAYS [] = Some days /\
    In (mk_call "C:\w\A.xlsx" "C:\w\B.xlsx")
       (calls (mk_result [mk_call "C:\w\A.xlsx" "C:\w\B.xlsx"] 3 1)) /\
    ~ In (mk_call "C:\w\A.xlsx" "C:\w\old.xlsx")
         (calls (mk_result [mk_call "C:\w\A.xlsx" "C:\w\B.xlsx"] 3 1)).
Proof.
  destruct (UpdateLink_called_iff_recent_and_not_found_open [] sample_now
              sample_world sample_open _ sample_run)
    as (days & Hd & _ & Hiff & _).
  assert (Hdays : days = 14) by (cbv in Hd; now inversion Hd).
  exists days. split; [exact Hd|]. split.
  - apply (Hiff "C:\w\A.xlsx"
                (mk_workbook (Some "C:\w\A.xlsx")
                   (Some ["C:\w\B.xlsx"; "C:\w\old.xlsx"]))
                ["C:\w\B.xlsx"; "C:\w\old.xlsx"]);
      [right; right; now left | reflexivity | now left |].
    exists (sample_now - us_per_day).
    split; [reflexivity|]. split; [|reflexivity].
    rewrite Hdays. vm_compute. discriminate.
  - intros Hin.
    apply (Hiff "C:\w\A.xlsx"
                (mk_workbook (Some "C:\w\A.xlsx")
                   (Some ["C:\w\B.xlsx"; "C:\w\old.xlsx"]))
                ["C:\w\B.xlsx"; "C:\w\old.xlsx"]) in Hin;
      [| right; right; now left | reflexivity | right; now left].
    destruct Hin as (t & Ht & _). discriminate Ht.
Defined.

End LinkUpdaterSpec.

(** ** core/external_links_manager.py: file names, statistics, search *)

Module ExternalLinksMore.
Import PyStr PyStrFacts ExternalLinks ExternalLinksFacts ScanFacts Reports.

(** *** [_extract_filename_from_path] *)

Definition is_char (c : ascii) (a : ascii) : bool := Ascii.eqb c a.

Lemma contains_char c s :
  contains (String c EmptyString) s
  = negb (all_chars (fun a => negb (is_char c a)) s).
Proof.
  induction s as [|a s IH]; simpl; [reflexivity|].
  unfold is_char at 1. destruct (Ascii.ascii_dec c a) as [->|Hne].
  - rewrite Ascii.eqb_refl. simpl. now destruct s.
  - apply Ascii.eqb_neq in Hne. rewrite Hne. simpl. exact IH.
Qed.

Lemma split_by_pieces_clean p s :
  Forall (fun t => all_chars (fun a => negb (p a)) t = true) (split_by p s).
Proof.
  induction s as [|c s IH]; simpl.
  - repeat constructor.
  - destruct (p c) eqn:E.
    + constructor; [reflexivity | exact IH].
    + destruct (split_by p s) as [|h t].
      * constructor; [simpl; now rewrite E | constructor].
      * inversion IH; subst. constructor; [simpl; now rewrite E | assumption].
Qed.

Lemma Forall_last {A} (P : A -> Prop) (l : list A) (d : A) :
  P d -> Forall P l -> P (last l d).
Proof.
  intros Hd H. induction H as [|x l Hx Hl IH]; simpl; [assumption|].
  destruct l; [assumption | exact IH].
Qed.

Lemma last_split_clean c s :
  all_chars (fun a => negb (is_char c a)) (last (split_on c s) "") = true.
Proof.
  apply Forall_last; [reflexivity|]. apply split_by_pieces_clean.
Qed.

Lemma last_split_keeps q c s :
  all_chars q s = true -> all_chars q (last (split_on c s) "") = true.
Proof.
  intros H. apply Forall_last; [reflexivity|].
  now apply split_by_all_chars.
Qed.

Lemma no_char_not_contains c s :
  all_chars (fun a => negb (is_char c a)) s = true ->
  contains (String c EmptyString) s = false.
Proof. intros H. now rewrite contains_char, H. Qed.

(** X1: the name [_extract_filename_from_path] returns holds no backslash
    and no slash; extracting again changes nothing, and a path without
    separators is returned as it is. *)
Theorem extracted_filename_has_no_separator :
  forall file_path : string,
    let name := _extract_filename_from_path file_path in
    contains "\" name = false /\
    contains "/" name = false /\
    _extract_filename_from_path name = name /\
    (contains "\" file_path = false -> contains "/" file_path = false ->
     name = file_path).
Proof.
  intros file_path name.
  assert (Hclean : contains "\" name = false /\ contains "/" name = false).
  { unfold name, _extract_filename_from_path.
    destruct (contains "\" file_path) eqn:Eb; simpl.
    - split; apply no_char_not_contains.
      + apply last_split_keeps, last_split_clean.
      + apply last_split_clean.
    - destruct (contains "/" file_path) eqn:Es.
      + split; apply no_char_not_contains.
        * apply last_split_keeps, last_split_clean.
        * apply last_split_clean.
      + now split. }
  destruct Hclean as [Hb Hs]. repeat split; try assumption.
  - unfold _extract_filename_from_path at 1. now rewrite Hb, Hs.
  - intros H1 H2. unfold name, _extract_filename_from_path. now rewrite H1, H2.
Qed.

Lemma extracted_filename_has_no_separator_witness :
  _extract_filename_from_path "C:\data/2024\Rates.xlsx" = "Rates.xlsx" /\
  _extract_filename_from_path "Rates.xlsx" = "Rates.xlsx".
Proof.
  split; [reflexivity|].
  destruct (extracted_filename_has_no_separator "Rates.xlsx")
    as (_ & _ & _ & H).
  apply H; reflexivity.
Defined.

(** *** The order of the groups *)

Definition absent_from (ks : list string) (k : string) : bool :=
  negb (existsb (String.eqb k) ks).

Lemma dd_append_keys {V} k (v : V) d :
  keys (dd_append k v d)
  = if existsb (String.eqb k) (keys d) then keys d else keys d ++ [k].
Proof.
  induction d as [|[k' vs] d IH]; simpl; [reflexivity|].
  rewrite (String.eqb_sym k k').
  destruct (String.eqb k' k); simpl; [reflexivity|].
  rewrite IH. now destruct (existsb (String.eqb k) (keys d)).
Qed.

Lemma filter_ext_all {A} (p q : A -> bool) (l : list A) :
  (forall x, p x = q x) -> filter p l = filter q l.
Proof.
  intros H. induction l as [|x l IH]; simpl; [reflexivity|].
  now rewrite H, IH.
Qed.

Lemma filter_twice {A} (p q : A -> bool) (l : list A) :
  filter p (filter q l) = filter (fun x => q x && p x) l.
Proof.
  induction l as [|x l IH]; simpl; [reflexivity|].
  destruct (q x); simpl; [destruct (p x)|]; now rewrite IH.
Qed.

Lemma fold_dd_append_keys ls : forall d,
  keys (fold_left (fun d link => dd_append (target_file link) link d) ls d)
  = keys d ++ filter (absent_from (keys d))
                (first_occurrences (map target_file ls)).
Proof.
  induction ls as [|link ls IH]; intros d; simpl.
  - now rewrite app_nil_r.
  - rewrite IH, dd_append_keys. unfold absent_from at 2.
    set (k := target_file link).
    set (X := first_occurrences (map target_file ls)).
    destruct (existsb (String.eqb k) (keys d)) eqn:E; simpl.
    + f_equal. rewrite filter_twice. apply filter_ext_all. intros y.
      unfold absent_from. destruct (String.eqb_spec k y) as [<-|Hne]; simpl.
      * now rewrite E.
      * reflexivity.
    + rewrite <- app_assoc. simpl. do 2 f_equal.
      rewrite filter_twice. apply filter_ext_all. intros y.
      unfold absent_from. rewrite existsb_app. simpl.
      rewrite orb_false_r, negb_orb, (String.eqb_sym y k).
      apply andb_comm.
Qed.

Lemma file_groups_of_keys ls :
  keys (file_groups_of ls) = first_occurrences (map target_file ls).
Proof.
  unfold file_groups_of. rewrite fold_dd_append_keys. simpl.
  induction (first_occurrences (map target_file ls)) as [|x l IH];
    simpl; [reflexivity | now rewrite IH].
Qed.

Lemma build_groups_keys ls :
  keys (build_groups [] (file_groups_of ls))
  = first_occurrences (map target_file ls).
Proof.
  destruct (file_groups_of_spec ls) as [Hk _ _].
  rewrite (build_groups_nil _ Hk). unfold keys. rewrite map_map. simpl.
  apply file_groups_of_keys.
Qed.

(** X2: the groups come in the order in which their target file first
    occurs in the grouped list, for the stored groups and for a grouped
    search alike. *)
Theorem groups_follow_first_occurrence :
  forall (m : manager) (keyword search_field : string),
    map fst (grouped_links (_group_links_by_external_file m))
    = first_occurrences (map target_file (external_links m)) /\
    map fst (get_grouped_search_results m keyword search_field)
    = first_occurrences
        (map target_file (search_links m keyword search_field)).
Proof.
  intros m keyword search_field. split; apply build_groups_keys.
Qed.

(** *** [get_statistics] *)

Lemma filter_split_length {A} (p : A -> bool) (l : list A) :
  List.length (filter p l) + List.length (filter (fun x => negb (p x)) l)
  = List.length l.
Proof.
  induction l as [|x l IH]; simpl; [reflexivity|].
  destruct (p x); simpl; lia.
Qed.

Lemma filter_length_le' {A} (p : A -> bool) (l : list A) :
  List.length (filter p l) <= List.length l.
Proof.
  induction l as [|x l IH]; simpl; [lia|]. destruct (p x); simpl; lia.
Qed.

Lemma first_occurrences_length xs :
  List.length (first_occurrences xs) <= List.length xs.
Proof.
  induction xs as [|x xs IH]; simpl; [lia|].
  pose proof (filter_length_le' (fun y => negb (String.eqb x y))
                (first_occurrences xs)). lia.
Qed.

(** X3: in [get_statistics] the links split into link sources and formula
    links, neither count of different names exceeds the number of links,
    and the number of different external files is the number of groups
    [_group_links_by_external_file] builds. *)
Theorem get_statistics_counts :
  forall m : manager,
    let s := get_statistics m in
    stat_total_links s = stat_link_sources s + stat_formula_links s /\
    stat_unique_external_files s <= stat_total_links s /\
    stat_unique_source_workbooks s <= stat_total_links s /\
    stat_unique_external_files s
    = List.length (grouped_links (_group_links_by_external_file m)) /\
    (stat_total_links s = 0 <-> external_links m = []).
Proof.
  intros m s. subst s. unfold get_statistics, distinct_count. simpl.
  split; [|split; [|split; [|split]]].
  - rewrite <- (filter_split_length is_link_source (external_links m)).
    f_equal. f_equal. apply filter_ext_all. intros x.
    unfold is_formula_link, is_link_source. now destruct (link_type x).
  - etransitivity; [apply first_occurrences_length | now rewrite length_map].
  - etransitivity; [apply first_occurrences_length | now rewrite length_map].
  - rewrite <- (build_groups_keys (external_links m)).
    unfold keys. now rewrite length_map.
  - destruct (external_links m); simpl; split; congruence.
Qed.

End ExternalLinksMore.

(** ** core/external_links_manager.py: what a scan counts *)

Module ScanStatistics.
Import PyStr ExternalLinks ExternalLinksFacts ScanFacts Reports
       ExternalLinksMore ExternalLinksSpec.

Lemma set_add_In x s y : In y (set_add x s) <-> y = x \/ In y s.
Proof.
  unfold set_add. destruct (existsb (String.eqb x) s) eqn:E.
  - split; [tauto|]. intros [->|H]; [|assumption].
    apply existsb_exists in E as [z [Hz Heq]].
    apply String.eqb_eq in Heq. now subst.
  - rewrite in_app_iff. simpl. intuition.
Qed.

Lemma set_add_NoDup x s : NoDup s -> NoDup (set_add x s).
Proof.
  intros H. unfold set_add. destruct (existsb (String.eqb x) s) eqn:E;
    [assumption|].
  apply NoDup_snoc; [assumption|]. intros Hin.
  assert (existsb (String.eqb x) s = true); [|congruence].
  apply existsb_exists. exists x. split; [assumption | apply String.eqb_refl].
Qed.

Lemma set_add_length x s : List.length (set_add x s) <= S (List.length s).
Proof.
  unfold set_add. destruct (existsb (String.eqb x) s); [lia|].
  rewrite length_app. simpl. lia.
Qed.

(** The set of file names covers the links gathered so far, and only
    grows. *)
Definition files_cover (files : list string) (ls : list ExternalLink) : Prop :=
  NoDup files /\ Forall (fun l => In (target_file l) files) ls.

Definition acc_ok (base : list string) (a : wb_acc) : Prop :=
  files_cover (external_files a) (workbook_links a) /\
  incl base (external_files a).

Lemma acc_ok_add base a link :
  acc_ok base a ->
  acc_ok base (mk_acc (workbook_links a ++ [link])
                      (set_add (target_file link) (external_files a))).
Proof.
  intros [[Hnd Hcov] Hinc]. split; [split|]; simpl.
  - now apply set_add_NoDup.
  - apply Forall_app. split.
    + eapply Forall_impl; [|exact Hcov]. intros l Hl.
      apply set_add_In. now right.
    + repeat constructor. apply set_add_In. now left.
  - intros x Hx. apply set_add_In. right. now apply Hinc.
Qed.

Section WithRuntime.
Variable findall : string -> list string.
Variable list_of_set : list string -> list string.

Lemma scan_link_sources_cover base name sources : forall a,
  acc_ok base a -> acc_ok base (scan_link_sources name sources a).
Proof.
  induction sources as [|src rest IH]; simpl; intros a H; [assumption|].
  apply IH.
  exact (acc_ok_add base a
           (mk_link name "" "" (_extract_filename_from_path src)
              ("LinkSource: " ++ src)%string LinkSource) H).
Qed.

Lemma scan_formula_files_cover base name sheet address formula files :
  forall a, acc_ok base a ->
  acc_ok base (scan_formula_files name sheet address formula files a).
Proof.
  induction files as [|f rest IH]; simpl; intros a H; [assumption|].
  apply IH.
  destruct (_is_duplicate_link (workbook_links a) sheet address f);
    simpl; [assumption|].
  exact (acc_ok_add base a (mk_link name sheet address f formula Formula) H).
Qed.

Lemma scan_cells_cover base name sheet cells : forall a,
  acc_ok base a ->
  acc_ok base (scan_cells findall list_of_set name sheet cells a).
Proof.
  unfold scan_cells.
  induction cells as [|c rest IH]; simpl; intros a H; [assumption|].
  apply IH. destruct c as [|hf formula address]; simpl; [assumption|].
  destruct (hf && _has_external_reference formula); [|assumption].
  now apply scan_formula_files_cover.
Qed.

Lemma scan_worksheets_cover base name sheets : forall a,
  acc_ok base a ->
  acc_ok base (fst (scan_worksheets findall list_of_set name sheets a)).
Proof.
  induction sheets as [|[|sheet used] rest IH]; simpl; intros a H;
    try assumption.
  apply IH. destruct used as [cells|]; [|assumption].
  now apply scan_cells_cover.
Qed.

Lemma workbook_block_cover name wb files :
  NoDup files ->
  let r := workbook_block findall list_of_set name wb files in
  files_cover (snd r) (fst r) /\ incl files (snd r).
Proof.
  intros Hnd. unfold workbook_block.
  set (a1 := match wb_link_sources wb with
             | Some ls => scan_link_sources name ls (mk_acc [] files)
             | None => mk_acc [] files
             end).
  assert (H0 : acc_ok files (mk_acc [] files)).
  { split; [split; [assumption | constructor] | apply incl_refl]. }
  assert (H1 : acc_ok files a1).
  { unfold a1. destruct (wb_link_sources wb);
      [now apply scan_link_sources_cover | assumption]. }
  pose proof (scan_worksheets_cover files name (wb_worksheets wb)
                a1 H1) as H2.
  destruct (scan_worksheets findall list_of_set name
              (wb_worksheets wb) a1) as [a2 completed].
  simpl in *. destruct H2 as [[Hn Hc] Hi].
  destruct completed; simpl; repeat split; try assumption. constructor.
Qed.

(** What the workbook loop keeps true of its four variables. *)
Definition state_ok (st : scan_state) : Prop :=
  files_cover (st_files st) (st_links st) /\
  List.length (st_with_links st) <= st_total st.

Lemma scan_workbook_ok name wb st :
  files_cover (st_files st) (st_links st) ->
  List.length (st_with_links st) < st_total st ->
  state_ok (scan_workbook findall list_of_set name wb st) /\
  st_total (scan_workbook findall list_of_set name wb st) = st_total st.
Proof.
  intros [Hnd Hcov] Hlen. unfold scan_workbook.
  pose proof (workbook_block_cover name wb (st_files st) Hnd)
    as [[Hn Hc] Hi].
  destruct (workbook_block findall list_of_set name wb (st_files st))
    as [block files]. simpl in *.
  split; [|reflexivity]. split; [split|]; simpl.
  - assumption.
  - apply Forall_app. split; [|assumption].
    eapply Forall_impl; [|exact Hcov]. intros l Hl. now apply Hi.
  - destruct block; [lia|].
    pose proof (set_add_length name (st_with_links st)). lia.
Qed.

(** The workbooks the loop counts: all of them, or those up to and
    including the first whose name cannot be read. *)
Fixpoint counted (workbooks : list workbook) : nat :=
  match workbooks with
  | [] => 0
  | wb :: rest =>
      S (match wb_name wb with
         | Some _ => counted rest
         | None => 0
         end)
  end.

Lemma counted_le workbooks : counted workbooks <= List.length workbooks.
Proof.
  induction workbooks as [|wb rest IH]; simpl; [lia|].
  destruct (wb_name wb); lia.
Qed.

Lemma counted_all workbooks :
  forallb (fun wb => match wb_name wb with
                     | Some _ => true
                     | None => false
                     end) workbooks = true ->
  counted workbooks = List.length workbooks.
Proof.
  induction workbooks as [|wb rest IH]; simpl; [reflexivity|].
  destruct (wb_name wb); [|discriminate]. intros H. now rewrite (IH H).
Qed.

Lemma scan_all_state e workbooks : forall st,
  state_ok st ->
  state_ok (scan_all findall list_of_set workbooks e st) /\
  st_total (scan_all findall list_of_set workbooks e st)
  = st_total st + counted workbooks.
Proof.
  unfold scan_all.
  induction workbooks as [|wb rest IH]; intros st H.
  - simpl. split; [assumption | lia].
  - cbn [scan_workbooks counted]. destruct H as [Hcov Hlen].
    destruct (wb_name wb) as [name|].
    + destruct (scan_workbook_ok name wb
                  (mk_scan (st_links st) (S (st_total st))
                     (st_with_links st) (st_files st)))
        as [H1 H2]; [assumption | simpl; lia |].
      destruct (IH _ H1) as [H3 H4]. split; [assumption|].
      rewrite H4, H2. simpl. lia.
    + cbn [fst]. split; [|simpl; lia].
      split; [assumption | simpl; lia].
Qed.

End WithRuntime.

Lemma distinct_count_le_cover files xs :
  NoDup files -> Forall (fun x => In x files) xs ->
  distinct_count xs <= List.length files.
Proof.
  intros Hnd Hcov. unfold distinct_count.
  apply NoDup_incl_length; [apply first_occurrences_NoDup|].
  intros x Hx. apply (proj1 (first_occurrences_In xs x)) in Hx.
  rewrite Forall_forall in Hcov. now apply Hcov.
Qed.

(** X4: the statistics a scan returns. [total_workbooks] is the number of
    workbooks the loop counted: all open workbooks, or those up to and
    including the first whose name cannot be read. When the loop ends
    without an exception, [workbooks_with_links] never exceeds
    [total_workbooks], [total_links] is the length of the returned list,
    and [unique_external_files] is at least the number of different
    target files among the returned links (files of a workbook whose
    worksheets could not be read are counted although its links are
    dropped). When an exception cuts the loop short, these three counts
    are zero although links may be returned. In both cases
    [get_statistics] afterwards reports the length of the returned list.
    When Excel cannot be reached every count is zero and no link is
    returned. *)
Theorem scan_statistics_counts :
  forall (findall : string -> list string)
         (list_of_set : list string -> list string)
         (m : manager) (app : application),
    let r := scan_open_workbooks findall list_of_set m (Some app) in
    let stats := snd (snd r) in
    total_workbooks stats = counted (Workbooks app) /\
    total_workbooks stats <= List.length (Workbooks app) /\
    (completes app = true ->
     total_workbooks stats = List.length (Workbooks app) /\
     workbooks_with_links stats <= total_workbooks stats /\
     total_links stats = List.length (fst (snd r)) /\
     stat_unique_external_files (get_statistics (fst r))
       <= unique_external_files stats) /\
    (completes app = false ->
     workbooks_with_links stats = 0 /\
     total_links stats = 0 /\
     unique_external_files stats = 0) /\
    stat_total_links (get_statistics (fst r)) = List.length (fst (snd r)) /\
    scan_open_workbooks findall list_of_set m None
    = (mk_manager [] [], ([], mk_statistics 0 0 0 0)).
Proof.
  intros findall list_of_set m app r stats. subst stats r.
  destruct (scan_all_state findall list_of_set (enumeration_raises app)
              (Workbooks app) (mk_scan [] 0 [] []))
    as [[[Hnd Hcov] Hlen] Htot].
  { split; [split; constructor | simpl; lia]. }
  pose proof (scan_workbooks_completed findall list_of_set
                (enumeration_raises app) (Workbooks app)
                (mk_scan [] 0 [] [])) as Hs.
  fold (completes app) in Hs.
  unfold scan_all in *. unfold scan_open_workbooks. cbn [external_links].
  destruct (scan_workbooks findall list_of_set (Workbooks app)
              (enumeration_raises app) (mk_scan [] 0 [] []))
    as [st completed].
  simpl in Hs, Htot, Hnd, Hcov, Hlen. subst completed.
  pose proof (counted_le (Workbooks app)) as Hle.
  assert (Ht : total_workbooks
                 (if completes app
                  then mk_statistics (st_total st)
                         (List.length (st_with_links st))
                         (List.length (st_links st))
                         (List.length (st_files st))
                  else mk_statistics (st_total st) 0 0 0)
               = counted (Workbooks app))
    by (now destruct (completes app)).
  cbn [fst snd].
  split; [exact Ht|]. split; [rewrite Ht; exact Hle|].
  split; [|split; [|split; [reflexivity | reflexivity]]].
  - intros Hc. rewrite Hc. simpl.
    unfold completes in Hc. apply andb_prop in Hc as [Hall _].
    split; [rewrite Htot; now apply counted_all|].
    split; [exact Hlen|]. split; [reflexivity|].
    apply distinct_count_le_cover; [assumption|].
    apply Forall_forall. intros x Hx. apply in_map_iff in Hx as [l [<- Hl]].
    rewrite Forall_forall in Hcov. now apply Hcov.
  - intros Hc. rewrite Hc. repeat split; reflexivity.
Qed.

(** A workbook whose second worksheet cannot be read: its file is counted,
    its links are not. *)
Example scan_statistics_after_sheet_error :
  let r := scan_open_workbooks findall_ascii first_occurrences init
             (Some (mk_application
                      [ mk_workbook (Some "Plan.xlsx")
                          (Some ["C:\d\Costs.xlsx"])
                          [ Sheet "Data" None; SheetError ] ] false)) in
  snd r = ([], mk_statistics 1 0 0 1) /\
  stat_unique_external_files (get_statistics (fst r)) = 0.
Proof. split; reflexivity. Qed.

(** Two workbooks, the name of the second cannot be read: the link of the
    first is returned, and [get_statistics] counts it, while the scan
    reports no link. *)
Example scan_statistics_after_name_error :
  let r := scan_open_workbooks findall_ascii first_occurrences init
             (Some (mk_application
                      [ mk_workbook (Some "Plan.xlsx")
                          (Some ["C:\d\Costs.xlsx"]) [];
                        mk_workbook None None [] ] false)) in
  List.length (fst (snd r)) = 1 /\
  snd (snd r) = mk_statistics 2 0 0 0 /\
  stat_total_links (get_statistics (fst r)) = 1.
Proof. repeat split; reflexivity. Qed.

End ScanStatistics.

(** ** core/external_links_manager.py: more on searching and exporting *)

Module SearchExport.
Import PyStr ExternalLinks ExternalLinksFacts ScanFacts Reports LinksUtils
       ExternalLinksMore ExternalLinksSpec.

Lemma lower_char_idempotent c : lower_char (lower_char c) = lower_char c.
Proof. destruct c as [[] [] [] [] [] [] [] []]; reflexivity. Qed.

Lemma lower_idempotent s : lower (lower s) = lower s.
Proof.
  induction s as [|c s IH]; simpl; [reflexivity|].
  now rewrite lower_char_idempotent, IH.
Qed.

Lemma nonempty_lower s : nonempty (lower s) = nonempty s.
Proof. now destruct s. Qed.

(** X5: a search in 'all' returns a link exactly when a search in
    'external_file', in 'formula' or in 'source_workbook' returns it, and
    every search returns stored links only, no more than are stored. *)
Theorem search_all_is_union_of_fields :
  forall (m : manager) (keyword : string) (link : ExternalLink),
    (In link (search_links m keyword "all") <->
     In link (search_links m keyword "external_file") \/
     In link (search_links m keyword "formula") \/
     In link (search_links m keyword "source_workbook")) /\
    (forall field,
       incl (search_links m keyword field) (external_links m) /\
       List.length (search_links m keyword field)
       <= List.length (external_links m)).
Proof.
  intros m keyword link. split.
  - unfold search_links. destruct (negb (nonempty keyword)); [tauto|].
    rewrite !filter_In. unfold link_matches. simpl.
    rewrite !orb_true_iff. tauto.
  - intros field. split.
    + intros l. apply search_links_subset.
    + unfold search_links. destruct (negb (nonempty keyword)); [lia|].
      apply filter_length_le'.
Qed.

(** X6: searching ignores the case of the keyword: two keywords that are
    equal once lowered give the same result in every field. *)
Theorem search_ignores_keyword_case :
  forall (m : manager) (keyword keyword' field : string),
    lower keyword = lower keyword' ->
    search_links m keyword field = search_links m keyword' field.
Proof.
  intros m k k' field H. unfold search_links.
  rewrite <- (nonempty_lower k), <- (nonempty_lower k'), H.
  reflexivity.
Qed.

Lemma search_ignores_keyword_case_witness :
  search_links (fst sample_scan) "CoStS" "external_file"
  = search_links (fst sample_scan) "costs" "external_file".
Proof.
  apply (search_ignores_keyword_case (fst sample_scan) "CoStS" "costs").
  reflexivity.
Defined.

Lemma link_type_str_injective t t' :
  link_type_str t = link_type_str t' -> t = t'.
Proof. destruct t, t'; simpl; intros H; congruence. Qed.

Lemma export_row_injective l l' : export_row l = export_row l' -> l = l'.
Proof.
  destruct l, l'. unfold export_row. simpl. intros H.
  inversion H; subst. f_equal. now apply link_type_str_injective.
Qed.

(** X7: [export_to_dict] writes one dictionary per stored link, in order,
    each with the six columns, and loses nothing: managers whose exports
    are equal store the same links. *)
Theorem export_to_dict_is_lossless :
  forall m m' : manager,
    List.length (export_to_dict m) = List.length (external_links m) /\
    Forall (fun row => map fst row =
              [ "Source Workbook"; "Source Sheet"; "Source Cell";
                "External File"; "Formula"; "Link Type" ])
           (export_to_dict m) /\
    (export_to_dict m = export_to_dict m' ->
     external_links m = external_links m').
Proof.
  intros m m'. unfold export_to_dict. split; [apply length_map|]. split.
  - apply Forall_forall. intros row Hrow.
    apply in_map_iff in Hrow as [l [<- _]]. reflexivity.
  - generalize (external_links m'). induction (external_links m) as [|l ls IH];
      intros [|l' ls'] H; cbn [map] in H; try discriminate; [reflexivity|].
    assert (H1 : export_row l = export_row l')
      by exact (f_equal (fun x => hd [] x) H).
    assert (H2 : map export_row ls = map export_row ls')
      by exact (f_equal (fun x => tl x) H).
    apply export_row_injective in H1. subst. f_equal. now apply IH.
Qed.

(** *** CSV files *)

Definition csv_fields (with_time : bool) (scan_time : string)
    (link : ExternalLink) : list string :=
  [ source_workbook link; source_sheet link; source_cell link;
    target_file link; formula link; link_type_str (link_type link) ]
  ++ (if with_time then [scan_time] else []).

Definition csv_header (with_time : bool) : list string :=
  [ "Source Workbook"; "Source Sheet"; "Source Cell";
    "External File"; "Formula"; "Link Type" ]
  ++ (if with_time then ["Scan Time"] else []).

Lemma write_rows_export with_time scan_time ls : forall written,
  write_rows (csv_header with_time) with_time scan_time
    (map export_row ls) written
  = (exported, Some (written ++ map (csv_fields with_time scan_time) ls)).
Proof.
  induction ls as [|l ls IH]; intros written; simpl.
  - now rewrite app_nil_r.
  - destruct with_time; simpl; rewrite IH, <- app_assoc; reflexivity.
Qed.

(** X8: exporting the stored links to CSV. With the file opened, a manager
    with links gets a header row and then one row per link, in order, with
    the scan time as last column when asked for; a manager without links
    gets the answer "No data to export" and is left with an empty file;
    when the file cannot be opened nothing is written. *)
Theorem export_to_csv_of_stored_links :
  forall (m : manager) (scan_time : string) (with_time : bool),
    let data := export_to_dict m in
    (external_links m <> [] ->
     export_to_csv true scan_time data with_time
     = (exported,
        Some (csv_header with_time ::
              map (csv_fields with_time scan_time) (external_links m)))) /\
    (external_links m = [] ->
     export_to_csv true scan_time data with_time = (no_data, Some [])) /\
    export_to_csv false scan_time data with_time = (export_failed, None).
Proof.
  intros m scan_time with_time data. subst data. unfold export_to_dict.
  split; [|split; [|reflexivity]].
  - destruct (external_links m) as [|l ls] eqn:E; [congruence|]. intros _.
    unfold export_to_csv. simpl negb. cbv iota.
    change (map export_row (l :: ls)) with (export_row l :: map export_row ls).
    cbv iota beta.
    change (map fst (export_row l) ++
            (if with_time then ["Scan Time"] else []))
      with (csv_header with_time).
    change (export_row l :: map export_row ls)
      with (map export_row (l :: ls)).
    now rewrite write_rows_export.
  - intros ->. reflexivity.
Qed.

Lemma export_to_csv_of_stored_links_witness :
  exists rows,
    export_to_csv true "2024-01-15 09:30:00"
      (export_to_dict (fst sample_scan)) true = (exported, Some rows) /\
    List.length rows = 7.
Proof.
  destruct (export_to_csv_of_stored_links (fst sample_scan)
              "2024-01-15 09:30:00" true) as [H _].
  eexists. split; [apply H; discriminate | reflexivity].
Defined.

Lemma enumerate_from_length {A} (xs : list A) : forall i,
  List.length (enumerate_from i xs) = List.length xs.
Proof. induction xs as [|x xs IH]; intros i; simpl; [|rewrite IH]; reflexivity. Qed.

Lemma group_rows_length sep item :
  List.length (group_rows sep item)
  = List.length (links (snd item)) + (if sep then 1 else 0).
Proof.
  unfold group_rows. rewrite length_app, length_map, enumerate_from_length.
  now destruct sep.
Qed.

Lemma flat_map_group_rows_length sep grouped :
  List.length (flat_map (group_rows sep) grouped)
  = List.length (List.concat (map (fun e => links (snd e)) grouped))
    + (if sep then List.length grouped else 0).
Proof.
  induction grouped as [|item rest IH]; simpl; [now destruct sep|].
  rewrite !length_app, group_rows_length, IH. destruct sep; lia.
Qed.

(** X9: the grouped CSV export of a grouped search has the header, one row
    per matching link and, when there is more than one group, one empty
    row after each group; the first row of a group names the file and its
    reference count, and the count is the number of rows of the group. *)
Theorem export_grouped_to_csv_rows :
  forall (m : manager) (keyword field : string),
    let grouped := get_grouped_search_results m keyword field in
    exists rows,
      export_grouped_to_csv true grouped
      = (exported, Some (grouped_fieldnames :: rows)) /\
      List.length rows
      = List.length (search_links m keyword field)
        + (if 1 <? List.length grouped then List.length grouped else 0) /\
      (forall f g, In (f, g) grouped ->
         exists first rest,
           links g = first :: rest /\
           group_rows (1 <? List.length grouped) (f, g)
           = [ f; dec (S (List.length rest)); source_workbook first;
               source_sheet first; source_cell first; formula first;
               link_type_str (link_type first) ]
             :: map (fun il => grouped_row f g (fst il) (snd il))
                    (enumerate_from 1 rest)
             ++ (if 1 <? List.length grouped then [blank_row] else [])).
Proof.
  intros m keyword field grouped.
  pose proof (grouping_faithful (search_links m keyword field))
    as [Hk Hn Ht Hl Hc Hp].
  fold (get_grouped_search_results m keyword field) in Hk, Hn, Ht, Hl, Hc, Hp.
  fold grouped in Hk, Hn, Ht, Hl, Hc, Hp.
  eexists. split; [reflexivity|]. split.
  - rewrite flat_map_group_rows_length, (Permutation_length Hp). reflexivity.
  - intros f g Hin.
    destruct (file_groups_of_spec (search_links m keyword field))
      as [Hfk Hfl _].
    assert (Hne : links g <> []).
    { unfold grouped, get_grouped_search_results in Hin.
      rewrite (build_groups_nil _ Hfk) in Hin.
      apply in_map_iff in Hin as [[k vs] [Heq Hd]].
      unfold group_of in Heq. simpl in Heq. inversion Heq; subst. simpl.
      now destruct (Hfl _ _ Hd). }
    destruct (links g) as [|first rest] eqn:E; [congruence|].
    exists first, rest. split; [reflexivity|].
    unfold group_rows. simpl. rewrite E. simpl.
    unfold grouped_row at 1. simpl.
    rewrite (Hc f g Hin), E. reflexivity.
Qed.

End SearchExport.

(** ** utils/external_links_utils.py: display formats *)

Module DisplayFacts.
Import PyStr PyStrFacts LinksUtils ExternalLinksMore.

Local Open Scope Z_scope.

Lemma substring_0_length (n : nat) : forall s,
  String.length (substring 0 n s) = Nat.min n (String.length s).
Proof.
  induction n as [|n IH]; intros [|c s]; simpl; try reflexivity.
  now rewrite IH.
Qed.

Lemma append_length (s t : string) :
  String.length (s ++ t)%string = (String.length s + String.length t)%nat.
Proof. induction s as [|c s IH]; simpl; [reflexivity | now rewrite IH]. Qed.

(** X10: [truncate_formula] with a limit of at least 3 never returns more
    than [max_length] characters: a formula within the limit is returned
    as it is, a longer one is cut to its first [max_length - 3] characters
    followed by "...", which makes exactly [max_length]. *)
Theorem truncate_formula_fits :
  forall (formula : string) (max_length : Z),
    3 <= max_length ->
    let shown := truncate_formula formula max_length in
    Z.of_nat (String.length shown) <= max_length /\
    (Z.of_nat (String.length formula) <= max_length -> shown = formula) /\
    (max_length < Z.of_nat (String.length formula) ->
     shown = (substring 0 (Z.to_nat (max_length - 3)) formula ++ "...")%string
     /\ Z.of_nat (String.length shown) = max_length).
Proof.
  intros formula max_length Hmax shown. subst shown.
  unfold truncate_formula, slice_to.
  destruct (Z.leb_spec (Z.of_nat (String.length formula)) max_length)
    as [Hle|Hgt].
  - split; [assumption|]. split; [reflexivity | lia].
  - destruct (Z.ltb_spec (max_length - 3) 0) as [Hneg|_]; [lia|].
    assert (Hlen : Z.of_nat (String.length
              (substring 0 (Z.to_nat (max_length - 3)) formula ++ "...")%string)
            = max_length).
    { rewrite append_length, substring_0_length. simpl String.length. lia. }
    split; [lia|]. split; [lia|]. intros _. split; [reflexivity | exact Hlen].
Qed.

Lemma truncate_formula_fits_witness :
  truncate_formula "=SUM([Rates.xlsx]Q1!A1:A9)" 10 = "=SUM([R...".
Proof.
  destruct (truncate_formula_fits "=SUM([Rates.xlsx]Q1!A1:A9)" 10)
    as (_ & _ & H); [lia|].
  destruct H as [H _]; [simpl; lia|]. exact H.
Defined.

(** Below the limit of 3 the cut counts from the end and the result grows. *)
Example truncate_formula_small_limit :
  truncate_formula "=A1+B1" 2 = "=A1+B...".
Proof. reflexivity. Qed.

Lemma remove_char_clean c s :
  all_chars (fun a => negb (is_char c a)) (remove_char c s) = true.
Proof.
  induction s as [|a s IH]; simpl; [reflexivity|].
  destruct (Ascii.eqb a c) eqn:E; [assumption|].
  simpl. unfold is_char at 1. now rewrite Ascii.eqb_sym, E.
Qed.

Lemma remove_char_fixed c s :
  all_chars (fun a => negb (is_char c a)) s = true -> remove_char c s = s.
Proof.
  induction s as [|a s IH]; simpl; [reflexivity|].
  intros H. apply andb_prop in H as [Ha Hs].
  unfold is_char in Ha. rewrite Ascii.eqb_sym in Ha.
  apply negb_true_iff in Ha. now rewrite Ha, IH.
Qed.

Lemma remove_char_length c s :
  (String.length (remove_char c s) <= String.length s)%nat.
Proof.
  induction s as [|a s IH]; simpl; [lia|].
  destruct (Ascii.eqb a c); simpl; lia.
Qed.

Lemma format_cell_address_remove address :
  format_cell_address address = remove_char "$" address.
Proof. now destruct address. Qed.

(** X11: [format_cell_address] returns the address without any dollar
    sign, never longer than the address; an address without dollar signs
    is returned as it is, so formatting twice is formatting once. *)
Theorem format_cell_address_drops_dollars :
  forall address : string,
    contains "$" (format_cell_address address) = false /\
    (String.length (format_cell_address address)
       <= String.length address)%nat /\
    (contains "$" address = false -> format_cell_address address = address) /\
    format_cell_address (format_cell_address address)
    = format_cell_address address.
Proof.
  intros address. rewrite !format_cell_address_remove.
  split; [apply no_char_not_contains, remove_char_clean|].
  split; [apply remove_char_length|]. split.
  - intros H. apply remove_char_fixed.
    rewrite contains_char in H. now apply negb_false_iff in H.
  - apply remove_char_fixed, remove_char_clean.
Qed.

Lemma format_cell_address_drops_dollars_witness :
  format_cell_address "$AB$12" = "AB12" /\
  format_cell_address "AB12" = "AB12".
Proof.
  split; [reflexivity|].
  destruct (format_cell_address_drops_dollars "AB12") as (_ & _ & H & _).
  apply H. reflexivity.
Defined.

End DisplayFacts.

(** ** utils/file_utils.py: the format [parse_mtime] reads *)

Module ParseFacts.
Import PyStr PyStrFacts FileUtils FileUtilsFacts.

Lemma digits_value_uint (u : Decimal.uint) : forall a : nat,
  digits_value (Z.of_nat a) false (NilEmpty.string_of_uint u)
  = Some (Z.of_nat (Nat.of_uint_acc u a)).
Proof.
  induction u; intros a; simpl; try reflexivity;
    rewrite <- IHu; f_equal; rewrite Nat.tail_mul_spec;
    unfold digit_val; simpl; lia.
Qed.

Lemma to_uint_not_Nil n : Nat.to_uint n <> Decimal.Nil.
Proof.
  intros H. pose proof (DecimalNat.Unsigned.of_to n) as Hn.
  rewrite H in Hn. simpl in Hn. subst n. discriminate H.
Qed.

Lemma dec_first_digit n :
  exists c r, dec n = String c r /\ is_digit c = true.
Proof.
  pose proof (dec_all_digits n) as H. unfold dec in *.
  pose proof (to_uint_not_Nil n) as Hn.
  destruct (Nat.to_uint n); try congruence; simpl in *;
    eexists _, _; (split; [reflexivity | reflexivity]).
Qed.

Lemma digits_value_dec n :
  digits_value 0 false (dec n) = Some (Z.of_nat n).
Proof.
  unfold dec. change 0%Z with (Z.of_nat 0).
  rewrite (digits_value_uint (Nat.to_uint n) 0).
  change (Nat.of_uint_acc (Nat.to_uint n) 0) with (Nat.of_uint (Nat.to_uint n)).
  now rewrite DecimalNat.Unsigned.of_to.
Qed.

Lemma digit_not_space c : is_digit c = true -> is_space c = false.
Proof. destruct c as [[] [] [] [] [] [] [] []]; vm_compute; congruence. Qed.

Lemma digit_not_int_space c : is_digit c = true -> is_int_space c = false.
Proof. destruct c as [[] [] [] [] [] [] [] []]; vm_compute; congruence. Qed.

Lemma rstrip_no_space s :
  all_chars (fun c => negb (is_int_space c)) s = true -> rstrip s = s.
Proof.
  induction s as [|c s IH]; simpl; [reflexivity|].
  intros H. apply andb_prop in H as [Hc Hs]. rewrite (IH Hs).
  apply negb_true_iff in Hc. now rewrite Hc, andb_false_r.
Qed.

Lemma strip_digits c r :
  is_digit c = true -> all_chars is_digit r = true ->
  strip (String c r) = String c r.
Proof.
  intros Hc Hr. unfold strip. simpl. rewrite (digit_not_int_space c Hc).
  apply rstrip_no_space. simpl. rewrite (digit_not_int_space c Hc). simpl.
  apply all_chars_weaken with (p := is_digit); [|assumption].
  intros a Ha. now rewrite (digit_not_int_space a Ha).
Qed.

(** [int()] reads back a run of digits that starts with a digit. *)
Lemma py_int_digits c r :
  is_digit c = true -> all_chars is_digit r = true ->
  py_int (String c r) = digits_value 0 false (String c r).
Proof.
  intros Hc Hr. unfold py_int. rewrite (strip_digits c r Hc Hr).
  destruct c as [[] [] [] [] [] [] [] []]; vm_compute in Hc;
    try discriminate Hc; reflexivity.
Qed.

Lemma py_int_dec n : py_int (dec n) = Some (Z.of_nat n).
Proof.
  destruct (dec_first_digit n) as (c & r & E & Hc).
  pose proof (dec_all_digits n) as H. rewrite E in H. simpl in H.
  rewrite Hc in H. simpl in H.
  rewrite <- (digits_value_dec n), E. now apply py_int_digits.
Qed.

Lemma py_int_dec02 n : py_int (dec02 n) = Some (Z.of_nat n).
Proof.
  unfold dec02. destruct (n <? 10); [|apply py_int_dec].
  change ("0" ++ dec n)%string with (String "0" (dec n)).
  rewrite py_int_digits; [|reflexivity | apply dec_all_digits].
  simpl. apply digits_value_dec.
Qed.

(** Cutting at a separator that follows a piece free of separators. *)
Lemma split_by_app p a c b :
  all_chars (fun x => negb (p x)) a = true -> p c = true ->
  split_by p (a ++ String c b)%string = a :: split_by p b.
Proof.
  intros Ha Hc. induction a as [|x a IH]; simpl.
  - now rewrite Hc.
  - simpl in Ha. apply andb_prop in Ha as [Hx Ha].
    apply negb_true_iff in Hx. rewrite Hx, (IH Ha). reflexivity.
Qed.

Definition not_char (c : ascii) (x : ascii) : bool := negb (Ascii.eqb c x).

Lemma digits_not_char c s :
  is_digit c = false -> all_chars is_digit s = true ->
  all_chars (not_char c) s = true.
Proof.
  intros Hc. apply all_chars_weaken. intros a Ha. unfold not_char.
  destruct (Ascii.eqb_spec c a) as [->|]; [congruence | reflexivity].
Qed.

Lemma digits_no_space s :
  all_chars is_digit s = true ->
  all_chars (fun c => negb (is_space c)) s = true.
Proof.
  apply all_chars_weaken. intros a Ha. now rewrite (digit_not_space a Ha).
Qed.

(** The text "dd/mm/yyyy hh:mm" for the given fields. *)
Definition mtime_text (d m y h mi : nat) : string :=
  (dec02 d ++ "/" ++ dec02 m ++ "/" ++ dec y ++ " "
   ++ dec02 h ++ ":" ++ dec02 mi)%string.

Lemma str_app_assoc (a b c : string) :
  ((a ++ b) ++ c)%string = (a ++ (b ++ c))%string.
Proof. induction a as [|x a IH]; simpl; [reflexivity | now rewrite IH]. Qed.

Lemma nonempty_app_char a c b : nonempty (a ++ String c b)%string = true.
Proof. now destruct a. Qed.

Lemma split_ws_mtime_text d m y h mi :
  split_ws (mtime_text d m y h mi)
  = [ (dec02 d ++ "/" ++ dec02 m ++ "/" ++ dec y)%string;
      (dec02 h ++ ":" ++ dec02 mi)%string ].
Proof.
  unfold split_ws, mtime_text.
  replace (dec02 d ++ "/" ++ dec02 m ++ "/" ++ dec y ++ " "
           ++ dec02 h ++ ":" ++ dec02 mi)%string
    with ((dec02 d ++ "/" ++ dec02 m ++ "/" ++ dec y)
          ++ String " " (dec02 h ++ ":" ++ dec02 mi))%string.
  2:{ rewrite !str_app_assoc. reflexivity. }
  rewrite split_by_app; [|
    rewrite !all_chars_app; simpl;
    rewrite !(digits_no_space _ (dec02_all_digits _)),
            (digits_no_space _ (dec_all_digits _)); reflexivity
    | reflexivity].
  rewrite split_by_none.
  2:{ rewrite !all_chars_app. simpl.
      rewrite !(digits_no_space _ (dec02_all_digits _)). reflexivity. }
  simpl. rewrite !nonempty_app_char. reflexivity.
Qed.

Lemma split_date d m y :
  split_on "/" (dec02 d ++ "/" ++ dec02 m ++ "/" ++ dec y)%string
  = [dec02 d; dec02 m; dec y].
Proof.
  unfold split_on.
  change (dec02 d ++ "/" ++ dec02 m ++ "/" ++ dec y)%string
    with (dec02 d ++ String "/" (dec02 m ++ String "/" (dec y)))%string.
  rewrite split_by_app;
    [| apply (digits_not_char "/"); [reflexivity | apply dec02_all_digits]
     | reflexivity].
  rewrite split_by_app;
    [| apply (digits_not_char "/"); [reflexivity | apply dec02_all_digits]
     | reflexivity].
  rewrite split_by_none;
    [reflexivity
    | apply (digits_not_char "/"); [reflexivity | apply dec_all_digits]].
Qed.

Lemma split_time h mi :
  split_on ":" (dec02 h ++ ":" ++ dec02 mi)%string = [dec02 h; dec02 mi].
Proof.
  unfold split_on.
  change (dec02 h ++ ":" ++ dec02 mi)%string
    with (dec02 h ++ String ":" (dec02 mi))%string.
  rewrite split_by_app;
    [| apply (digits_not_char ":"); [reflexivity | apply dec02_all_digits]
     | reflexivity].
  rewrite split_by_none;
    [reflexivity
    | apply (digits_not_char ":"); [reflexivity | apply dec02_all_digits]].
Qed.

(** X12: [parse_mtime] reads the format its docstring names. For day,
    month, year, hour and minute that make a date [datetime] accepts, the
    text "dd/mm/yyyy hh:mm" is parsed to exactly these fields, with second
    0; when [datetime] rejects them the result is [None]. *)
Theorem parse_mtime_reads_its_format :
  forall d m y h mi : nat,
    parse_mtime (mtime_text d m y h mi)
    = make_datetime (Z.of_nat y) (Z.of_nat m) (Z.of_nat d)
        (Z.of_nat h) (Z.of_nat mi) /\
    (forall dt, parse_mtime (mtime_text d m y h mi) = Some dt ->
                dt = mk_datetime y m d h mi 0).
Proof.
  intros d m y h mi.
  assert (H : parse_mtime (mtime_text d m y h mi)
              = make_datetime (Z.of_nat y) (Z.of_nat m) (Z.of_nat d)
                  (Z.of_nat h) (Z.of_nat mi)).
  { unfold parse_mtime. rewrite split_ws_mtime_text, split_date, split_time.
    simpl. now rewrite !py_int_dec02, !py_int_dec. }
  split; [exact H|]. intros dt Hdt. rewrite H in Hdt.
  unfold make_datetime in Hdt.
  match type of Hdt with (if ?c then _ else _) = _ => destruct c end;
    [|discriminate].
  inversion Hdt. now rewrite !Nat2Z.id.
Qed.

Example parse_mtime_reads_a_leap_day :
  parse_mtime (mtime_text 29 2 2024 7 5) = Some (mk_datetime 2024 2 29 7 5 0)
  /\ mtime_text 29 2 2024 7 5 = "29/02/2024 07:05"
  /\ parse_mtime (mtime_text 29 2 2023 7 5) = None.
Proof. repeat split; reflexivity. Qed.

End ParseFacts.

(** ** core/excel_manager.py and ui/main_window.py: the workbook list *)

Module WorkbookListFacts.
Import PyStr PyStrFacts FileUtils FileUtilsFacts ExcelInfo MainWindow.

(** A workbook all of whose properties can be read. *)
Definition readable (wb : workbook_read) : Prop :=
  read_Name wb <> None /\ read_FullName wb <> None /\
  read_ActiveSheet wb <> None.

Definition name_of (wb : workbook_read) : string :=
  text_or_empty (read_Name wb).
Definition full_name_of (wb : workbook_read) : string :=
  text_or_empty (read_FullName wb).
Definition sheet_of (wb : workbook_read) : string :=
  match read_ActiveSheet wb with Some s => text_or_empty s | None => "" end.
Definition cell_of (wb : workbook_read) : string :=
  match read_ActiveCell wb with Some c => text_or_empty c | None => "" end.

Definition lengths_ok (l : lists) : Prop :=
  List.length (cell_list l) = List.length (sheet_list l) /\
  List.length (sheet_list l) <= List.length (path_list l) /\
  List.length (path_list l) <= List.length (file_list l).

Lemma read_workbook_lengths wb l :
  lengths_ok l -> lengths_ok (fst (read_workbook wb l)) /\
  List.length (file_list (fst (read_workbook wb l)))
    <= 2 + List.length (file_list l).
Proof.
  intros (H1 & H2 & H3). unfold read_workbook, lengths_ok.
  destruct (read_Name wb); [|simpl; repeat split; try assumption; lia].
  destruct (read_FullName wb);
    [|simpl; rewrite !length_app; simpl; repeat split; lia].
  destruct (read_ActiveSheet wb);
    simpl; rewrite !length_app; simpl; repeat split; lia.
Qed.

Lemma read_workbooks_lengths wbs : forall l,
  lengths_ok l -> lengths_ok (read_workbooks wbs l) /\
  List.length (file_list (read_workbooks wbs l))
    <= 2 * List.length wbs + List.length (file_list l).
Proof.
  induction wbs as [|wb rest IH]; intros l H; simpl; [split; [assumption|lia]|].
  destruct (read_workbook_lengths wb l H) as [H1 H2].
  destruct (read_workbook wb l) as [l' continue]. simpl in *.
  destruct continue.
  - destruct (IH l' H1) as [H3 H4]. split; [assumption | lia].
  - split; [assumption | lia].
Qed.

Lemma read_workbooks_readable wbs : forall l,
  Forall readable wbs ->
  read_workbooks wbs l
  = mk_lists (file_list l ++ map name_of wbs)
             (sheet_list l ++ map sheet_of wbs)
             (cell_list l ++ map cell_of wbs)
             (path_list l ++ map full_name_of wbs).
Proof.
  induction wbs as [|wb rest IH]; intros l H; simpl.
  - rewrite !app_nil_r. now destruct l.
  - inversion H as [|? ? (Hn & Hf & Hs) Hrest]; subst.
    unfold read_workbook, name_of, full_name_of, sheet_of, cell_of.
    destruct (read_Name wb) as [name|]; [|congruence].
    destruct (read_FullName wb) as [full|]; [|congruence].
    destruct (read_ActiveSheet wb) as [sheet|]; [|congruence].
    rewrite (IH _ Hrest). simpl. now rewrite <- !app_assoc.
Qed.

(** X13: the four lists of [get_open_workbooks]. The sheet and cell lists
    always have the same length, the path list is at least as long and the
    name list at least as long as the path list, with at most two names
    per workbook (a workbook whose path or sheet cannot be read leaves its
    name and then "Error" in the name list). When every workbook can be
    read, each list has one entry per workbook, in order. *)
Theorem get_open_workbooks_lists :
  forall excel : option (list workbook_read),
    let l := get_open_workbooks excel in
    List.length (cell_list l) = List.length (sheet_list l) /\
    List.length (sheet_list l) <= List.length (path_list l) /\
    List.length (path_list l) <= List.length (file_list l) /\
    (forall wbs, excel = Some wbs ->
       List.length (file_list l) <= 2 * List.length wbs /\
       (Forall readable wbs ->
        l = mk_lists (map name_of wbs) (map sheet_of wbs)
                     (map cell_of wbs) (map full_name_of wbs))).
Proof.
  intros excel l. subst l. unfold get_open_workbooks.
  destruct excel as [wbs|].
  - destruct (read_workbooks_lengths wbs no_lists) as [(H1 & H2 & H3) H4].
    { unfold lengths_ok. simpl. lia. }
    repeat split; try assumption.
    + inversion H; subst. simpl in H4. lia.
    + intros Hr. inversion H; subst.
      now rewrite (read_workbooks_readable _ no_lists Hr).
  - simpl. repeat split; try lia; intros; discriminate.
Qed.

Definition sample_reads : list workbook_read :=
  [ mk_workbook_read (Some "a.xlsx") (Some "C:\w\a.xlsx")
      (Some (Some "Sheet1")) (Some (Some "$A$1"));
    mk_workbook_read (Some "b.xlsx") None
      (Some (Some "Sheet1")) (Some (Some "$B$2"));
    mk_workbook_read (Some "c.xlsx") (Some "C:\w\c.xlsx")
      (Some None) None ].

(** A path that cannot be read shifts the names against the other lists. *)
Example get_open_workbooks_after_an_error :
  get_open_workbooks (Some sample_reads)
  = mk_lists ["a.xlsx"; "b.xlsx"; "Error"; "c.xlsx"]
             ["Sheet1"; "Error"; ""]
             ["$A$1"; "Error"; ""]
             ["C:\w\a.xlsx"; "Error"; "C:\w\c.xlsx"].
Proof. reflexivity. Qed.

Lemma get_open_workbooks_lists_witness :
  get_open_workbooks
    (Some [ mk_workbook_read (Some "a.xlsx") (Some "C:\w\a.xlsx")
              (Some (Some "Sheet1")) None ])
  = mk_lists ["a.xlsx"] ["Sheet1"] [""] ["C:\w\a.xlsx"].
Proof.
  destruct (get_open_workbooks_lists
              (Some [ mk_workbook_read (Some "a.xlsx") (Some "C:\w\a.xlsx")
                        (Some (Some "Sheet1")) None ]))
    as (_ & _ & _ & H).
  destruct (H _ eq_refl) as [_ H'].
  apply H'. repeat constructor; simpl; discriminate.
Defined.

(** *** [get_workbook_details] *)

Definition detail_of (fs : filesystem) (wb : workbook_read) :=
  (name_of wb, full_name_of wb, sheet_of wb, cell_of wb,
   if nonempty (full_name_of wb)
   then get_file_mtime_str fs (full_name_of wb) else "").

Lemma details_of_maps {A} fs (f1 f2 f3 f4 : A -> string) (xs : list A) :
  get_workbook_details fs (map f1 xs) (map f2 xs) (map f3 xs) (map f4 xs)
  = map (fun x => (f1 x, f4 x, f2 x, f3 x,
                   if nonempty (f4 x) then get_file_mtime_str fs (f4 x)
                   else "")) xs.
Proof.
  unfold get_workbook_details. rewrite length_map.
  induction xs as [|x xs IH]; simpl; [reflexivity|].
  f_equal. rewrite <- seq_shift, map_map. exact IH.
Qed.

(** X14: [get_workbook_details] returns one tuple per entry of the name
    list, whatever the lengths of the other lists (a missing entry reads as
    the empty text), and asks for no modification time when the path is
    empty. Fed with the lists [get_open_workbooks] returns for readable
    workbooks, it gives one tuple (name, path, sheet, cell, modified) per
    workbook, in order. *)
Theorem get_workbook_details_rows :
  forall (fs : filesystem) (files sheets cells paths : list string),
    let details := get_workbook_details fs files sheets cells paths in
    List.length details = List.length files /\
    (forall i, i < List.length files ->
       nth_error details i
       = Some (nth i files "", nth i paths "", nth i sheets "",
               nth i cells "",
               if nonempty (nth i paths "")
               then get_file_mtime_str fs (nth i paths "") else "")) /\
    (forall i name sheet cell modified,
       nth_error details i = Some (name, "", sheet, cell, modified) ->
       modified = "") /\
    (forall wbs, Forall readable wbs ->
       details_of fs (get_open_workbooks (Some wbs))
       = map (detail_of fs) wbs).
Proof.
  intros fs files sheets cells paths details. subst details.
  unfold get_workbook_details.
  split; [now rewrite length_map, length_seq|]. split; [|split].
  - intros i Hi. rewrite nth_error_map, nth_error_seq.
    destruct (Nat.ltb_spec i (List.length files)); [reflexivity | lia].
  - intros i name sheet cell modified H.
    rewrite nth_error_map in H.
    destruct (nth_error (seq 0 (List.length files)) i) as [j|];
      [|discriminate]. simpl in H. injection H as H1 H2 H3 H4 H5.
    rewrite H2 in H5. now symmetry.
  - intros wbs Hr. unfold details_of, get_open_workbooks.
    rewrite (read_workbooks_readable _ no_lists Hr). simpl.
    apply details_of_maps.
Qed.

Lemma get_workbook_details_rows_witness :
  details_of (fun _ => Some (mk_datetime 2024 1 15 13 45 7))
    (get_open_workbooks
       (Some [ mk_workbook_read (Some "a.xlsx") (Some "C:\w\a.xlsx")
                 (Some (Some "Sheet1")) None ]))
  = [("a.xlsx", "C:\w\a.xlsx", "Sheet1", "", "2024-01-15 13:45:07")].
Proof.
  destruct (get_workbook_details_rows
              (fun _ => Some (mk_datetime 2024 1 15 13 45 7)) [] [] [] [])
    as (_ & _ & _ & H).
  rewrite H; [reflexivity|].
  repeat constructor; simpl; discriminate.
Defined.

(** *** Sorting the list *)

Section Sorted.
Variables (A K : Type) (ltb : K -> K -> bool) (key : A -> K).

Lemma stable_sort_equal_keys (l : list A) :
  (forall x y, In x l -> In y l -> ltb (key y) (key x) = false) ->
  stable_sort A K ltb key l = l.
Proof.
  induction l as [|x l IH]; intros H; simpl; [reflexivity|].
  rewrite IH by (intros a b Ha Hb; apply H; now right).
  destruct l as [|y l]; simpl; [reflexivity|].
  rewrite (H x y); [reflexivity | now left | right; now left].
Qed.

Lemma sorted_equal_keys reverse (l : list A) :
  (forall x y, In x l -> In y l -> ltb (key y) (key x) = false) ->
  sorted A K ltb key reverse l = l.
Proof.
  intros H. unfold sorted. destruct reverse.
  - rewrite stable_sort_equal_keys; [apply rev_involutive|].
    intros x y Hx Hy. apply H; now apply in_rev.
  - now apply stable_sort_equal_keys.
Qed.

End Sorted.

Lemma show_names_unparsed fs l x :
  In x (show_names fs l) -> parse_mtime (snd x) = None.
Proof.
  unfold show_names, details_of, get_workbook_details.
  rewrite map_map. intros H. apply in_map_iff in H as [i [<- _]]. simpl.
  destruct (nonempty (nth i (path_list l) "")); [|reflexivity].
  apply parse_mtime_needs_slash, get_file_mtime_str_no_slash.
Qed.

(** X15: what a click on the Modified column does to the rows that
    [show_names] builds. Their second column carries the text of
    [get_file_mtime_str], which [parse_mtime] cannot read, so every sort key
    is the smallest datetime: a click that sorts (state 'none' to 'asc', or
    'asc' to 'desc') leaves the rows in the order they had. Only the next
    click (state 'desc' to 'none') can change the order: it puts back
    [original_data] when that has as many rows as the list, whatever order
    it holds, and leaves the rows as they are otherwise. Every click resets
    the state of the other column. *)
Theorem sorting_by_modified_keeps_the_order :
  forall (fs : filesystem) (l : lists) (w : window),
    items w = show_names fs l ->
    (col2_state w <> desc ->
     items (sort_column col2 w) = items w /\
     col2_state (sort_column col2 w) = next_state (col2_state w) /\
     col2_state (sort_column col2 w) <> none) /\
    (col2_state w = desc ->
     col2_state (sort_column col2 w) = none /\
     (forall o, original_data w = Some o ->
        List.length o = List.length (items w) ->
        items (sort_column col2 w) = o) /\
     (forall o, original_data w = Some o ->
        List.length o <> List.length (items w) ->
        items (sort_column col2 w) = items w) /\
     (original_data w = None -> items (sort_column col2 w) = items w)) /\
    col1_state (sort_column col2 w) = none.
Proof.
  intros fs l w Hrows.
  assert (Hkeys : forall reverse,
            sorted row datetime datetime_ltb key2 reverse (items w) = items w).
  { intros reverse. apply sorted_equal_keys. intros x y Hx Hy. unfold key2.
    rewrite Hrows in Hx, Hy.
    now rewrite (show_names_unparsed fs l x Hx),
                (show_names_unparsed fs l y Hy). }
  split; [|split].
  - intros Hstate. unfold sort_column.
    destruct (col2_state w); try congruence; cbn -[sorted];
      (split; [apply Hkeys | split; [reflexivity | discriminate]]).
  - intros Hstate. unfold sort_column. rewrite Hstate. cbn.
    split; [reflexivity|]. split; [|split].
    + intros o Ho Hlen. rewrite Ho.
      now rewrite (proj2 (Nat.eqb_eq _ _) Hlen).
    + intros o Ho Hlen. rewrite Ho.
      now rewrite (proj2 (Nat.eqb_neq _ _) Hlen).
    + intros Ho. now rewrite Ho.
  - unfold sort_column. reflexivity.
Qed.

Definition sample_fs : filesystem :=
  fun p => if String.eqb p "C:\w\a.xlsx"
           then Some (mk_datetime 2024 1 15 13 45 7)
           else if String.eqb p "C:\w\b.xlsx"
           then Some (mk_datetime 2023 12 31 8 0 0) else None.

Definition sample_lists : lists :=
  mk_lists ["b.xlsx"; "a.xlsx"] ["Sheet1"; "Sheet1"] ["$A$1"; "$A$1"]
           ["C:\w\b.xlsx"; "C:\w\a.xlsx"].

Lemma sorting_by_modified_keeps_the_order_witness :
  items (sort_column col2
           (mk_window (show_names sample_fs sample_lists) None none asc))
  = [("b.xlsx", "2023-12-31 08:00:00"); ("a.xlsx", "2024-01-15 13:45:07")].
Proof.
  destruct (sorting_by_modified_keeps_the_order sample_fs sample_lists
              (mk_window (show_names sample_fs sample_lists) None none asc)
              eq_refl) as [H _].
  destruct H as [H _]; [discriminate|].
  rewrite H. reflexivity.
Defined.

(** The third click on Modified does reorder rows that were sorted by name
    before: it restores the order they had before the first sort. *)
Example third_click_on_modified_restores :
  let w0 := mk_window (show_names sample_fs sample_lists) None none none in
  let w1 := sort_column col1 w0 in
  let w3 := sort_column col2 (sort_column col2 w1) in
  let w4 := sort_column col2 w3 in
  map fst (items w1) = ["a.xlsx"; "b.xlsx"] /\
  map fst (items w3) = ["a.xlsx"; "b.xlsx"] /\
  map fst (items w4) = ["b.xlsx"; "a.xlsx"].
Proof. repeat split; reflexivity. Qed.

(** Sorting by name does reorder, and the third click restores the order
    the rows had before the first. *)
Example sort_by_name_and_back :
  let w0 := mk_window (show_names sample_fs sample_lists) None none none in
  let w1 := sort_column col1 w0 in
  let w3 := sort_column col1 (sort_column col1 w1) in
  map fst (items w1) = ["a.xlsx"; "b.xlsx"] /\
  map fst (items w3) = ["b.xlsx"; "a.xlsx"].
Proof. split; reflexivity. Qed.

End WorkbookListFacts.

(** ** core/performance_monitor.py: starting and ending operations *)

Module PerfOpsFacts.
Import PyStr PerfMonitor PerfOps PerfMonitorSpec.

(** [d] without its entry for [k]. *)
Fixpoint dict_remove {V : Type} (k : string) (d : list (string * V))
    : list (string * V) :=
  match d with
  | [] => []
  | (k', v') :: d' =>
      if String.eqb k' k then d' else (k', v') :: dict_remove k d'
  end.

Lemma dict_pop_set {V} k (v : V) d :
  dict_pop k (dict_set k v d) = Some (v, dict_remove k d).
Proof.
  induction d as [|[k' v'] d IH]; simpl.
  - now rewrite String.eqb_refl.
  - destruct (String.eqb k' k) eqn:E; simpl; rewrite E; [reflexivity|].
    now rewrite IH.
Qed.

Lemma dict_set_set {V} k (v v' : V) d :
  dict_set k v' (dict_set k v d) = dict_set k v' d.
Proof.
  induction d as [|[k0 v0] d IH]; simpl.
  - now rewrite String.eqb_refl.
  - destruct (String.eqb k0 k) eqn:E; simpl; rewrite E; [reflexivity|].
    now rewrite IH.
Qed.

Lemma dict_set_keys_In {V} k (v : V) d x :
  In x (map fst (dict_set k v d)) <-> x = k \/ In x (map fst d).
Proof.
  induction d as [|[k' v'] d IH]; simpl; [intuition|].
  destruct (String.eqb_spec k' k) as [->|Hne]; simpl; [intuition|].
  rewrite IH. intuition.
Qed.

Lemma dict_set_keys_NoDup {V} k (v : V) d :
  NoDup (map fst d) -> NoDup (map fst (dict_set k v d)).
Proof.
  induction d as [|[k' v'] d IH]; simpl; intros H.
  - repeat constructor. intros [].
  - inversion H as [|? ? Hnin Hd]; subst.
    destruct (String.eqb_spec k' k) as [->|Hne]; simpl; [now constructor|].
    constructor; [|now apply IH].
    intros Hin. apply dict_set_keys_In in Hin as [->|Hin]; tauto.
Qed.

Lemma dict_remove_keys_In {V} k (d : list (string * V)) x :
  In x (map fst (dict_remove k d)) -> In x (map fst d).
Proof.
  induction d as [|[k' v'] d IH]; simpl; [tauto|].
  destruct (String.eqb k' k); simpl; [tauto|]. intuition.
Qed.

Lemma dict_remove_keys_NoDup {V} k (d : list (string * V)) :
  NoDup (map fst d) ->
  NoDup (map fst (dict_remove k d)) /\ ~ In k (map fst (dict_remove k d)).
Proof.
  induction d as [|[k' v'] d IH]; simpl; intros H.
  - split; [constructor | tauto].
  - inversion H as [|? ? Hnin Hd]; subst.
    destruct (String.eqb_spec k' k) as [->|Hne]; simpl; [now split|].
    destruct (IH Hd) as [H1 H2]. split.
    + constructor; [|assumption]. intros Hin.
      now apply dict_remove_keys_In in Hin.
    + intros [Heq|Hin]; [congruence | tauto].
Qed.

Lemma dict_pop_absent {V} k (d : list (string * V)) :
  ~ In k (map fst d) -> dict_pop k d = None.
Proof.
  induction d as [|[k' v'] d IH]; simpl; intros H; [reflexivity|].
  destruct (String.eqb_spec k' k) as [->|Hne]; [tauto|].
  rewrite IH; tauto.
Qed.

Lemma dict_pop_rest {V} k (d : list (string * V)) v rest :
  dict_pop k d = Some (v, rest) -> rest = dict_remove k d.
Proof.
  revert rest. induction d as [|[k' v'] d IH]; simpl; intros rest H;
    [discriminate|].
  destruct (String.eqb k' k); [now inversion H|].
  destruct (dict_pop k d) as [[v0 r0]|]; [|discriminate].
  inversion H; subst. f_equal. now apply IH.
Qed.

Section Facts.
Variable float : Type.
Variable fsub : float -> float -> float.
Variable fge : float -> float -> bool.
Variable millis : float -> nat.
Variable float_of_nat : nat -> float.

Local Abbreviation monitor := (PerfMonitor.monitor float).
Local Abbreviation step := (PerfMonitor.step float fsub fge millis float_of_nat).
Local Abbreviation run := (PerfMonitor.run float fsub fge millis float_of_nat).
Local Abbreviation start_operation := (PerfMonitor.start_operation float millis).
Local Abbreviation end_operation :=
  (PerfMonitor.end_operation float fsub fge float_of_nat).

(** No operation id is active twice. *)
Definition ids_distinct (m : monitor) : Prop :=
  NoDup (map fst (active_operations float m)).

Lemma step_ids_distinct (m : monitor) c :
  ids_distinct m -> ids_distinct (step m c).
Proof.
  unfold ids_distinct. intros H. destruct c; unfold PerfMonitor.step.
  - exact H.
  - simpl. now apply dict_set_keys_NoDup.
  - unfold PerfMonitor.end_operation.
    destruct (dict_pop operation_id (active_operations float m))
      as [[timing rest]|] eqn:E; [|exact H].
    simpl. rewrite (dict_pop_rest _ _ _ _ E).
    now apply dict_remove_keys_NoDup.
  - exact H.
Qed.

Lemma run_ids_distinct calls : forall m : monitor,
  ids_distinct m -> ids_distinct (run calls m).
Proof.
  unfold PerfMonitor.run.
  induction calls as [|c calls IH]; intros m H; cbn [fold_left];
    [assumption|].
  apply IH. now apply step_ids_distinct.
Qed.

Lemma end_operation_unknown (m : monitor) id ok t now :
  ~ In id (map fst (active_operations float m)) ->
  end_operation m id ok t now = (m, []).
Proof.
  intros H. unfold PerfMonitor.end_operation.
  now rewrite (dict_pop_absent _ _ H).
Qed.

End Facts.

(** X16: an operation that is started and then ended with the id it was
    given. On any monitor reached by calls from a new one, the id is
    "<operation>_<milliseconds>", ending appends exactly one timing (the
    operation, its start and end, their difference as duration, the given
    success flag and context) and one "operation_<name>" metric with that
    duration to the bounded buffers, the id is no longer active, ending the
    same id again changes nothing, and so does ending an id that is not
    active. *)
Theorem start_then_end_records_one_timing :
  forall (float : Type) (fsub : float -> float -> float)
         (fge : float -> float -> bool) (millis : float -> nat)
         (float_of_nat : nat -> float)
         (max_history_arg : option nat) (calls : list (call float))
         (op : string) (ctx : list (string * nat)) (ok : bool)
         (t_id t_start t_end now : float),
    let m := run float fsub fge millis float_of_nat calls
               (PerformanceMonitor float max_history_arg) in
    let s := start_operation float millis m op ctx t_id t_start in
    let e := end_operation float fsub fge float_of_nat (fst s) (snd s)
               ok t_end now in
    snd s = (op ++ "_" ++ dec (millis t_id))%string /\
    operation_timings float (fst e)
    = deque_append (max_history float m)
        (mk_timing float op t_start (Some t_end)
           (Some (fsub t_end t_start)) ok ctx)
        (operation_timings float m) /\
    metrics_history float (fst e)
    = deque_append (max_history float m)
        (mk_metric float ("operation_" ++ op)%string (fsub t_end t_start)
           "seconds" now "operations")
        (metrics_history float m) /\
    active_operations float (fst e)
    = dict_remove (snd s) (active_operations float m) /\
    (forall ok' t' now',
       end_operation float fsub fge float_of_nat (fst e) (snd s) ok' t' now'
       = (fst e, [])) /\
    (forall id ok' t' now',
       ~ In id (map fst (active_operations float m)) ->
       end_operation float fsub fge float_of_nat m id ok' t' now' = (m, [])).
Proof.
  intros float fsub fge millis float_of_nat arg calls op ctx ok
         t_id t_start t_end now m s e.
  assert (Hd : ids_distinct float m).
  { apply run_ids_distinct. unfold ids_distinct, PerformanceMonitor.
    simpl. constructor. }
  assert (Hact : active_operations float (fst e)
                 = dict_remove (snd s) (active_operations float m)).
  { subst e s. unfold start_operation. cbn [fst snd].
    unfold end_operation. cbn [active_operations].
    rewrite dict_pop_set. reflexivity. }
  split; [reflexivity|]. split; [|split; [|split; [exact Hact|split]]].
  - subst e s. unfold start_operation. cbn [fst snd].
    unfold end_operation. cbn [active_operations].
    rewrite dict_pop_set. reflexivity.
  - subst e s. unfold start_operation. cbn [fst snd].
    unfold end_operation. cbn [active_operations].
    rewrite dict_pop_set. reflexivity.
  - intros ok' t' now'. apply end_operation_unknown.
    rewrite Hact. now apply dict_remove_keys_NoDup.
  - intros id ok' t' now' H. now apply end_operation_unknown.
Qed.

(** X17: two starts of the same operation within one millisecond get the
    same id, and the second replaces the first: the monitor is left as if
    only the second had been started, so the first can no longer be ended
    and is never recorded. *)
Theorem same_millisecond_start_replaces :
  forall (float : Type) (millis : float -> nat) (m : monitor float)
         (op : string) (ctx1 ctx2 : list (string * nat))
         (t1 start1 t2 start2 : float),
    millis t1 = millis t2 ->
    let s1 := start_operation float millis m op ctx1 t1 start1 in
    let s2 := start_operation float millis (fst s1) op ctx2 t2 start2 in
    snd s1 = snd s2 /\
    fst s2 = fst (start_operation float millis m op ctx2 t2 start2).
Proof.
  intros float millis m op ctx1 ctx2 t1 start1 t2 start2 H s1 s2.
  subst s2 s1. unfold start_operation. cbn [fst snd]. rewrite H.
  split; [reflexivity|]. cbn [active_operations max_history metrics_history
    operation_timings cpu_percent memory_percent disk_usage].
  now rewrite dict_set_set.
Qed.

Lemma same_millisecond_start_replaces_witness :
  let m := init nat 10 in
  let s1 := start_operation nat (fun t => t / 10) m "save" [("n", 1)]
              52 52 in
  let s2 := start_operation nat (fun t => t / 10) (fst s1) "save"
              [("n", 2)] 59 59 in
  snd s1 = snd s2 /\ List.length (active_operations nat (fst s2)) = 1.
Proof.
  destruct (same_millisecond_start_replaces nat (fun t => t / 10)
              (init nat 10) "save" [("n", 1)] [("n", 2)] 52 52 59 59
              eq_refl) as [H1 H2].
  split; [exact H1 | rewrite H2; reflexivity].
Defined.

(** X18: [_get_status] and [_check_performance_thresholds] agree. A
    threshold notification is sent exactly when the status of the CPU or of
    the memory reading is not 'normal'; there is at most one notification,
    with at most one issue for each of the two readings; and a metric type
    other than 'cpu' and 'memory' always has status 'normal'. *)
Theorem status_agrees_with_thresholds :
  forall (float : Type) (fge : float -> float -> bool)
         (float_of_nat : nat -> float) (cpu mem : float),
    (_check_performance_thresholds float fge float_of_nat cpu mem = [] <->
     _get_status float fge float_of_nat cpu "cpu" = "normal" /\
     _get_status float fge float_of_nat mem "memory" = "normal") /\
    (exists issues,
       List.length issues <= 2 /\
       (_check_performance_thresholds float fge float_of_nat cpu mem = []
        \/ _check_performance_thresholds float fge float_of_nat cpu mem
           = [threshold_exceeded issues])) /\
    (forall v metric_type,
       In (_get_status float fge float_of_nat v metric_type)
          ["normal"; "warning"; "critical"] /\
       (metric_type <> "cpu" -> metric_type <> "memory" ->
        _get_status float fge float_of_nat v metric_type = "normal")).
Proof.
  intros float fge float_of_nat cpu mem.
  unfold _check_performance_thresholds, _get_status. simpl.
  split; [|split].
  - destruct (fge cpu (float_of_nat 95)), (fge cpu (float_of_nat 80)),
             (fge mem (float_of_nat 95)), (fge mem (float_of_nat 80));
      simpl; split; intros H; try discriminate H; try (split; reflexivity);
      destruct H; discriminate.
  - exists ((if fge cpu (float_of_nat 95) then ["Critical CPU usage"]
             else if fge cpu (float_of_nat 80) then ["High CPU usage"]
             else [])
            ++ (if fge mem (float_of_nat 95) then ["Critical memory usage"]
                else if fge mem (float_of_nat 80) then ["High memory usage"]
                else [])).
    destruct (fge cpu (float_of_nat 95)), (fge cpu (float_of_nat 80)),
             (fge mem (float_of_nat 95)), (fge mem (float_of_nat 80));
      simpl; (split; [lia | first [left; reflexivity | right; reflexivity]]).
  - intros v t. split.
    + destruct (String.eqb t "cpu"), (String.eqb t "memory"),
               (fge v (float_of_nat 95)), (fge v (float_of_nat 80));
        simpl; tauto.
    + intros H1 H2. apply String.eqb_neq in H1, H2. now rewrite H1, H2.
Qed.

End PerfOpsFacts.

(** ** core/session_manager.py: a saved session read back, and loaded *)

Module SessionRoundTrip.
Import PyStr Session SessionSpec SessionLoad.

(** How a written text cell reads back: as its text, an empty text possibly
    as an empty cell. *)
Definition cell_reads (s : string) (v : cell_value) : Prop :=
  v = CText s \/ (s = "" /\ v = CNone).

(** The sheet [sheet] is what reading the written sheet [ws] gives. *)
Definition reads_as (ws : written_sheet) (sheet : list session_row_read)
    : Prop :=
  Forall2 (Forall2 cell_reads) ws sheet.

Definition path_of (w : selected_workbook) : string :=
  let '(_, path, _, _) := w in path.

Lemma session_row_reads w r :
  Forall2 cell_reads (session_row w) r ->
  has_first r = nonempty (path_of w) /\
  (has_first r = true -> first_cell r = CText (path_of w)).
Proof.
  destruct w as [[[name path] sheet] cell]. simpl. intros H.
  inversion H as [|? v1 ? r' Hc _]; subst.
  destruct Hc as [->|[-> ->]]; simpl; split; try reflexivity; discriminate.
Qed.

(** The first cells of the rows that read back with a non-empty path. *)
Lemma all_file_paths_of_saved_rows sel : forall rows,
  Forall2 (Forall2 cell_reads) (map session_row sel) rows ->
  all_file_paths rows = map CText (filter nonempty (map path_of sel)).
Proof.
  unfold all_file_paths.
  induction sel as [|w sel IH]; intros rows H; cbn [map] in H.
  - inversion H; subst. reflexivity.
  - inversion H as [|x r l rows' Hr Hrows]; subst.
    destruct (session_row_reads w r Hr) as [H1 H2].
    cbn [map filter]. rewrite H1.
    destruct (nonempty (path_of w)) eqn:E; cbn [map filter].
    + rewrite (H2 H1), (IH rows' Hrows). reflexivity.
    + now apply IH.
Qed.

Lemma valid_file_paths_texts env paths :
  valid_file_paths (os_path_exists env) (map CText paths)
  = inr (map CText (filter (path_exists env) paths)).
Proof.
  induction paths as [|q paths IH]; simpl; [reflexivity|].
  rewrite IH. now destruct (path_exists env q).
Qed.

Lemma dialog_rows_CText paths : dialog_rows (map CText paths) = inr paths.
Proof.
  induction paths as [|q paths IH]; simpl; [reflexivity|]. now rewrite IH.
Qed.

(** The rows picked when the paths [chosen] are selected. *)
Lemma selected_saved_rows chosen sel : forall rows,
  Forall2 (Forall2 cell_reads) (map session_row sel) rows ->
  map first_cell
    (filter (fun r => has_first r && existsb (is_text (first_cell r)) chosen)
       rows)
  = map CText (filter (fun q => existsb (String.eqb q) chosen)
                 (filter nonempty (map path_of sel))).
Proof.
  induction sel as [|w sel IH]; intros rows H; cbn [map] in H.
  - inversion H; subst. reflexivity.
  - inversion H as [|x r l rows' Hr Hrows]; subst.
    destruct (session_row_reads w r Hr) as [H1 H2].
    cbn [map filter]. rewrite H1.
    destruct (nonempty (path_of w)) eqn:E; cbn [map filter andb].
    + pose proof (H2 H1) as Hc. rewrite Hc.
      change (existsb (is_text (CText (path_of w))) chosen)
        with (existsb (String.eqb (path_of w)) chosen).
      destruct (existsb (String.eqb (path_of w)) chosen); cbn [map];
        rewrite ?Hc, (IH rows' Hrows); reflexivity.
    + now apply IH.
Qed.

Lemma after_read_texts env rows paths :
  paths <> [] ->
  valid_file_paths (os_path_exists env) (all_file_paths rows)
  = inr (map CText paths) ->
  after_read env rows
  = if negb (String.eqb (fst (file_selection env paths)) "ok")
       || match snd (file_selection env paths) with
          | [] => true
          | _ => false
          end
    then SelectionDismissed paths
    else Loading paths
           (filter (fun r => has_first r
                      && existsb (is_text (first_cell r))
                           (snd (file_selection env paths))) rows).
Proof.
  intros Hne Hvalid. unfold after_read. rewrite Hvalid.
  pose proof (dialog_rows_CText paths) as Hd.
  destruct paths as [|q qs]; [congruence|].
  cbn [map] in *. now rewrite Hd.
Qed.

Lemma nonempty_append_underscore base rest :
  (base ++ "_" ++ rest)%string <> "".
Proof. destruct base; discriminate. Qed.

(** X19: a session that was saved and is loaded again. When the file
    [save_session] wrote is the one chosen in [load_session], it still
    exists, no workbook is open, and every text cell reads back as it was
    written (an empty text possibly as an empty cell), the selection
    dialog lists exactly the saved paths that are not empty and still
    exist, in the order they were saved (a path saved twice is listed
    twice); with no such path the load stops with the warning; and when
    the user confirms the whole list, the loader gets one row for each
    listed path, in order. *)
Theorem saved_session_offers_existing_paths :
  forall (splitext : string -> string * string) (env : save_env)
         (selected_workbooks : list selected_workbook)
         (path : string) (ws : written_sheet)
         (lenv : load_env) (sheet : list session_row_read),
    saved_file (save_session splitext env selected_workbooks)
      = Some (path, ws) ->
    current_files lenv = [] ->
    askopenfilename lenv = path ->
    path_exists lenv path = true ->
    load_workbook lenv = inr sheet ->
    reads_as ws sheet ->
    let saved := filter (path_exists lenv)
                   (filter nonempty (map path_of selected_workbooks)) in
    (saved = [] ->
     load_session lenv
     = NoValidPaths (showwarning "Warning"
                       "No valid file paths found in session.")) /\
    (saved <> [] ->
     offered_paths (load_session lenv) = Some saved /\
     (file_selection lenv saved = ("ok", saved) ->
      map first_cell (rows_to_open (load_session lenv))
      = map CText saved)).
Proof.
  intros splitext env sel path ws lenv sheet Hsaved Hcur Hask Hex Hload Hread.
  cbv zeta.
  remember (filter (path_exists lenv) (filter nonempty (map path_of sel)))
    as saved eqn:Esaved.
  assert (Hws : ws = header_row :: map session_row sel /\ path <> "").
  { unfold save_session, _save_session_impl in Hsaved.
    destruct sel as [|w sel']; [discriminate|].
    destruct (negb (nonempty (asksaveasfilename env))); [discriminate|].
    destruct (splitext (asksaveasfilename env)) as [base ext].
    destruct (save_raises env); [discriminate|]. simpl in Hsaved.
    inversion Hsaved; subst. split; [reflexivity|].
    apply nonempty_append_underscore. }
  destruct Hws as [-> Hne]. unfold reads_as in Hread.
  inversion Hread as [|? h ? rows _ Hrows]; subst sheet.
  assert (Ho : load_session lenv = after_read lenv rows).
  { apply (load_session_after_read lenv h); try assumption;
      now rewrite Hask. }
  assert (Hvalid : valid_file_paths (os_path_exists lenv)
                     (all_file_paths rows) = inr (map CText saved)).
  { rewrite (all_file_paths_of_saved_rows sel rows Hrows), Esaved.
    apply valid_file_paths_texts. }
  rewrite Ho. split.
  - intros Hnil. unfold after_read. rewrite Hvalid, Hnil. reflexivity.
  - intros Hsome. rewrite (after_read_texts lenv rows saved Hsome Hvalid).
    split.
    + now destruct (negb (String.eqb (fst (file_selection lenv saved)) "ok")
                    || match snd (file_selection lenv saved) with
                       | [] => true
                       | _ => false
                       end).
    + intros Hsel. rewrite Hsel. cbn [fst snd].
      change (negb ("ok" =? "ok")%string) with false. cbn [orb].
      assert (Hm : match saved with [] => true | _ :: _ => false end = false)
        by (destruct saved; [congruence | reflexivity]).
      rewrite Hm. cbn [rows_to_open].
      rewrite (selected_saved_rows saved sel rows Hrows). f_equal.
      etransitivity; [|symmetry; exact Esaved].
      apply filter_ext_in. intros x0 Hx.
      apply filter_In in Hx as [Hx En].
      destruct (path_exists lenv x0) eqn:Ee.
      * apply existsb_exists. exists x0. split; [|apply String.eqb_refl].
        rewrite Esaved.
        apply filter_In. split; [|exact Ee]. apply filter_In. now split.
      * apply Bool.not_true_is_false. intros Hin.
        apply existsb_exists in Hin as (y & Hy & Heq).
        apply String.eqb_eq in Heq. subst y. rewrite Esaved in Hy.
        apply filter_In in Hy as [_ Hy]. congruence.
Qed.

Definition saved_sample_sheet : list session_row_read :=
  [ [CText "File Path"; CText "Sheet Name"; CText "Cell Address"];
    [CText "C:\w\b.xlsx"; CText "Sheet2"; CText "$C$4"];
    [CText "C:\w\a.xlsx"; CText "Sheet1"; CText "$A$1"];
    [CText "C:\w\c.xlsx"; CText "Totals"; CText "$B$9"] ].

Definition saved_sample_env : load_env :=
  mk_load_env [] "C:\s\monday_2024-01-15_09-30-00.xlsx"
    (fun q => String.eqb q "C:\w\a.xlsx"
              || String.eqb q "C:\s\monday_2024-01-15_09-30-00.xlsx")
    (fun _ => Some false) (inr saved_sample_sheet)
    (fun offered => ("ok", offered)).

Lemma saved_session_offers_existing_paths_witness :
  offered_paths (load_session saved_sample_env) = Some ["C:\w\a.xlsx"] /\
  map first_cell (rows_to_open (load_session saved_sample_env))
  = [CText "C:\w\a.xlsx"].
Proof.
  destruct (saved_session_offers_existing_paths sample_splitext
              sample_save_env sample_selected
              "C:\s\monday_2024-01-15_09-30-00.xlsx"
              [ ["File Path"; "Sheet Name"; "Cell Address"];
                ["C:\w\b.xlsx"; "Sheet2"; "$C$4"];
                ["C:\w\a.xlsx"; "Sheet1"; "$A$1"];
                ["C:\w\c.xlsx"; "Totals"; "$B$9"] ]
              saved_sample_env saved_sample_sheet)
    as [_ H];
    [reflexivity | reflexivity | reflexivity | reflexivity | reflexivity
    | repeat constructor |].
  destruct H as [H1 H2]; [discriminate|].
  split; [exact H1 | apply H2; reflexivity].
Defined.

(** *** Opening the files *)








Definition sample_excel : excel :=
  mk_excel None
    (fun p => if is_text p "C:\w\a.xlsx"
              then Some (mk_opened false (fun _ => true) (fun _ _ => false))
              else None).


Example _load_files_thread_sample :
  _load_files_thread sample_excel
    [ [CText "C:\w\gone.xlsx"];
      [CText "C:\w\a.xlsx"; CText "Sheet1"; CText "$A$1"] ]
  = [ print_func (line_loading 2); set_Visible; set_AskToUpdateLinks false;
      print_func (line_opening 1 2 (CText "C:\w\gone.xlsx"));
      call_Open (CText "C:\w\gone.xlsx");
      print_func (line_failed 1 2 (CText "C:\w\gone.xlsx"));
      print_func (line_opening 2 2 (CText "C:\w\a.xlsx"));
      call_Open (CText "C:\w\a.xlsx"); set_Visible;
      call_Activate (CText "Sheet1"); call_Select (CText "$A$1");
      print_func line_select_error;
      print_func (line_opened 2 2 (CText "C:\w\a.xlsx"));
      set_AskToUpdateLinks true; print_func (line_all_loaded 2);
      show (showinfo "Complete" "2 file(s) opened.") ].
Proof. reflexivity. Qed.

End SessionRoundTrip.

(** ** excel_session_manager_link_updater.py: days ago, counts, summary *)

Module LinkReportFacts.
Import PyStr LinkUpdater LinkUpdaterSpec LinkReport.

Local Open Scope Z_scope.

Lemma us_per_day_pos : 0 < us_per_day.
Proof. reflexivity. Qed.

Lemma threshold_date_value now days threshold :
  threshold_date now days = Some threshold ->
  threshold = now - days * us_per_day.
Proof.
  unfold threshold_date.
  destruct (Z.abs days <=? timedelta_max_days); [|discriminate].
  destruct ((0 <=? now - days * us_per_day)
            && (now - days * us_per_day <=? datetime_max));
    [now inversion 1 | discriminate].
Qed.

(** X21: the age shown for a link agrees with the decision taken for it.
    With the cutoff [CHECK_DAYS] days before the start of the run and the
    clock not running backwards, a link modified before the cutoff is
    shown as at least [CHECK_DAYS] days old, a link the run updates was at
    most [CHECK_DAYS] days old when the run started, and a link whose time
    cannot be read is shown without an age. *)
Theorem days_ago_agrees_with_cutoff :
  forall (now later days threshold last_modified : Z),
    threshold_date now days = Some threshold ->
    now <= later ->
    (last_modified < threshold -> days <= days_since later last_modified) /\
    (threshold <= last_modified -> days_since now last_modified <= days) /\
    (forall w wbs link,
       needs_update w wbs threshold link = true ->
       exists t, getmtime w link = Some t /\ days_since now t <= days) /\
    get_days_ago later None = "".
Proof.
  intros now later days threshold lm Hth Hclock.
  apply threshold_date_value in Hth. subst threshold.
  pose proof us_per_day_pos as Hpos. unfold days_since.
  assert (Hupper : forall t, now - days * us_per_day <= t ->
                             (now - t) / us_per_day <= days).
  { intros t Ht. apply Z.div_le_upper_bound; [assumption | lia]. }
  split; [|split; [|split]].
  - intros H. apply Z.div_le_lower_bound; [assumption | lia].
  - apply Hupper.
  - intros w wbs link H. apply needs_update_true in H as (t & Ht & Hle & _).
    exists t. split; [assumption | now apply Hupper].
  - reflexivity.
Qed.

Lemma days_ago_agrees_with_cutoff_witness :
  days_since sample_now (sample_now - us_per_day) <= 14.
Proof.
  destruct (days_ago_agrees_with_cutoff sample_now sample_now 14
              (sample_now - 14 * us_per_day) (sample_now - us_per_day))
    as (_ & H & _); [reflexivity | lia |].
  apply H. unfold us_per_day. lia.
Defined.

Example get_days_ago_sample :
  get_days_ago sample_now (Some (sample_now - 3 * us_per_day - 5))
  = "(3 days ago)" /\
  get_days_ago sample_now (Some (sample_now + 5)) = "(-1 days ago)".
Proof. split; reflexivity. Qed.

Lemma filter_length_le {A} (p : A -> bool) (l : list A) :
  (List.length (filter p l) <= List.length l)%nat.
Proof.
  induction l as [|x l IH]; simpl; [lia|]. destruct (p x); simpl; lia.
Qed.

Lemma filter_all {A} (p : A -> bool) (l : list A) :
  (forall x, p x = true) -> filter p l = l.
Proof.
  intros H. induction l as [|x l IH]; simpl; [reflexivity|].
  now rewrite H, IH.
Qed.

Section Summary.
Variables dirname basename : string -> string.

Lemma update_workbook_le_records w wbs threshold n wb :
  (List.length (update_workbook w wbs threshold n wb)
   <= List.length (workbook_records dirname basename n wb))%nat.
Proof.
  unfold update_workbook, workbook_records.
  destruct (LinkSources wb) as [[|l links]|]; simpl; try lia.
  rewrite !length_map.
  pose proof (filter_length_le (needs_update w wbs threshold) (l :: links)).
  simpl in H. destruct (needs_update w wbs threshold l); simpl in *; lia.
Qed.

Lemma calls_le_records w wbs threshold (some : list (string * workbook)) :
  (List.length (flat_map (fun nw => update_workbook w wbs threshold
                                      (fst nw) (snd nw)) some)
   <= List.length (flat_map (fun nw => workbook_records dirname basename
                                         (fst nw) (snd nw)) some))%nat.
Proof.
  induction some as [|[n wb] rest IH]; simpl; [lia|].
  rewrite !length_app.
  pose proof (update_workbook_le_records w wbs threshold n wb). lia.
Qed.

End Summary.

(** X22: what the run counts and lists. [total_workbooks] is the number of
    open workbooks; the links reported as updated never outnumber the
    calls of [UpdateLink] and equal them when no call raises; every call
    has its line in the scan summary (folder, file name of the workbook,
    link), so the calls never outnumber the summary records; and a
    workbook without links has exactly the one record "No external links
    found". *)
Theorem run_counts_and_summary :
  forall (dirname basename : string -> string) (w : world)
         (wbs : list workbook) (threshold : Z),
    let r := check_and_update_links w wbs threshold in
    total_workbooks r = List.length wbs /\
    (total_updated r <= List.length (calls r))%nat /\
    ((forall a b, UpdateLink_raises w a b = false) ->
     total_updated r = List.length (calls r)) /\
    (forall c, In c (calls r) ->
       In (dirname (on_workbook c), basename (on_workbook c), link_name c)
          (summary_records dirname basename wbs)) /\
    (List.length (calls r)
     <= List.length (summary_records dirname basename wbs))%nat /\
    (forall n wb, LinkSources wb = Some [] ->
       workbook_records dirname basename n wb
       = [(dirname n, basename n, "No external links found")]).
Proof.
  intros dirname basename w wbs threshold r. subst r.
  unfold check_and_update_links. simpl.
  split; [reflexivity|]. split; [apply filter_length_le|]. split; [|split; [|split]].
  - intros Hno. f_equal. apply filter_all. intros c. now rewrite Hno.
  - intros c Hc.
    apply (In_calls w wbs threshold) in Hc
      as (wb & links & Hwb & Hl & Hin & _).
    unfold summary_records. apply in_flat_map. exists (on_workbook c, wb).
    split; [assumption|]. unfold workbook_records. simpl. rewrite Hl.
    destruct links as [|l links]; [destruct Hin|].
    apply in_map_iff. now exists (link_name c).
  - apply calls_le_records.
  - intros n wb H. unfold workbook_records. now rewrite H.
Qed.

Lemma run_counts_and_summary_witness :
  In ("C:\w", "A.xlsx", "C:\w\B.xlsx")
     (summary_records
        (fun p => if String.eqb p "C:\w\A.xlsx" then "C:\w" else "")
        (fun p => if String.eqb p "C:\w\A.xlsx" then "A.xlsx" else p)
        sample_open).
Proof.
  destruct (run_counts_and_summary
              (fun p => if String.eqb p "C:\w\A.xlsx" then "C:\w" else "")
              (fun p => if String.eqb p "C:\w\A.xlsx" then "A.xlsx" else p)
              sample_world sample_open (sample_now - 14 * us_per_day))
    as (_ & _ & _ & H & _).
  apply (H (mk_call "C:\w\A.xlsx" "C:\w\B.xlsx")). now left.
Defined.

End LinkReportFacts.

(** ** core/excel_manager.py: what the save loops do to the open workbooks *)

Module ExcelSaveMore.
Import PyStr ExcelSave ExcelSaveSpec.

Definition is_Close (e : event) : bool :=
  match e with call_Close _ => true | _ => false end.

Definition is_closed_line (e : event) : bool :=
  match e with print_msg (line_saved_and_closed _ _ _) => true | _ => false end.

(** The workbook an event of [Save()] or [Close()] is called on. *)
Definition target (e : event) : option string :=
  match e with
  | call_Save n => Some n
  | call_Close n => Some n
  | _ => None
  end.

Definition only_on (names : list string) (evs : list event) : Prop :=
  Forall (fun e => forall n, target e = Some n -> In n names) evs.

Ltac forall_target :=
  repeat (apply Forall_cons;
          [ let x := fresh "x" in let Hx := fresh "Hx" in
            intros x Hx; simpl in Hx;
            first [discriminate Hx
                  | inversion Hx; subst; simpl; first [now left | left; congruence]]
          | ]);
  first [apply Forall_nil | assumption].

Lemma retry_loop_facts left : forall attempt wb,
  let r := retry_loop left attempt wb in
  Name (snd r) = Name wb /\
  close_raises (snd r) = close_raises wb /\
  Save_calls (events_of r) <= left /\
  filter is_Close (events_of r) = [] /\
  filter is_closed_line (events_of r) = [] /\
  only_on [Name wb] (events_of r).
Proof.
  unfold events_of, Save_calls, only_on.
  induction left as [|left IH]; intros attempt wb; simpl.
  - repeat split; try reflexivity; try lia. constructor.
  - unfold do_Save.
    destruct (save_script wb) as [|[e|] rest]; simpl.
    + repeat split; try reflexivity; try lia.
      forall_target.
    + destruct (attempt <? 2).
      * specialize (IH (S attempt) (mk_xl (Name wb) rest (close_raises wb))).
        destruct (retry_loop left (S attempt)
                    (mk_xl (Name wb) rest (close_raises wb)))
          as [[evs res] wb2]. simpl in *.
        destruct IH as (H1 & H2 & H3 & H4 & H5 & H6).
        repeat split; try assumption; try lia.
        forall_target.
      * simpl. repeat split; try reflexivity; try lia.
        forall_target.
    + repeat split; try reflexivity; try lia.
      forall_target.
Qed.

Lemma only_on_app names a b :
  only_on names a -> only_on names b -> only_on names (a ++ b).
Proof. intros Ha Hb. apply Forall_app. now split. Qed.

Lemma only_on_weaken names names' evs :
  incl names names' -> only_on names evs -> only_on names' evs.
Proof.
  intros Hi H. eapply Forall_impl; [|exact H].
  intros e He n Hn. apply Hi. now apply He.
Qed.

Lemma Save_calls_app a b : Save_calls (a ++ b) = Save_calls a + Save_calls b.
Proof. unfold Save_calls. now rewrite filter_app, length_app. Qed.

Lemma save_one_facts idx total name wbs :
  let r := save_one idx total name wbs in
  map Name (snd r) = map Name wbs /\
  Save_calls (fst r) <= 3 /\
  filter is_Close (fst r) = [] /\
  only_on [name] (fst r).
Proof.
  unfold save_one.
  destruct (find_workbook name wbs) as [[[before wb] after]|] eqn:E.
  - destruct (find_workbook_found _ _ _ _ _ E) as (-> & Hn & _).
    pose proof (retry_loop_facts max_retries 0 wb) as H.
    unfold save_with_retry, events_of in *.
    destruct (retry_loop max_retries 0 wb) as [[evs res] wb']. simpl in *.
    destruct H as (H1 & _ & H3 & H4 & _ & H6).
    split; [now rewrite !map_app; simpl; rewrite H1|].
    split; [rewrite Save_calls_app; unfold Save_calls at 2; simpl;
            unfold max_retries in H3; lia|].
    split; [rewrite filter_app, H4; reflexivity|].
    apply only_on_app; [now rewrite <- Hn|].
    forall_target.
  - simpl. repeat split; try reflexivity; try (unfold Save_calls; simpl; lia).
    forall_target.
Qed.

Lemma save_loop_facts names : forall idx total wbs,
  let r := for_each_selected save_one idx total names wbs in
  map Name (snd r) = map Name wbs /\
  Save_calls (fst r) <= 3 * List.length names /\
  filter is_Close (fst r) = [] /\
  only_on names (fst r).
Proof.
  induction names as [|name rest IH]; intros idx total wbs; simpl.
  - repeat split; try reflexivity; try (unfold Save_calls; simpl; lia).
    constructor.
  - pose proof (save_one_facts idx total name wbs) as H.
    destruct (save_one idx total name wbs) as [e1 w1]. simpl in H.
    destruct H as (H1 & H2 & H3 & H4).
    specialize (IH (S idx) total w1).
    destruct (for_each_selected save_one (S idx) total rest w1) as [e2 w2].
    simpl in *. destruct IH as (I1 & I2 & I3 & I4).
    split; [congruence|]. split; [rewrite Save_calls_app; lia|].
    split; [rewrite filter_app, H3, I3; reflexivity|].
    apply only_on_app.
    + eapply only_on_weaken; [|exact H4]. intros x [<-|[]]. now left.
    + eapply only_on_weaken; [|exact I4]. intros x Hx. now right.
Qed.

(** X23: [_save_workbooks_impl] saves and does nothing else. The open
    workbooks are the same, in the same order, after the loop; [Save()] is
    called at most three times per selected name and only on workbooks
    whose name was selected; [Close()] is never called. *)
Theorem save_loop_keeps_the_workbooks_open :
  forall (names : list string) (wbs : workbooks),
    let r := _save_workbooks_impl names wbs in
    map Name (snd r) = map Name wbs /\
    Save_calls (fst r) <= 3 * List.length names /\
    filter is_Close (fst r) = [] /\
    only_on names (fst r).
Proof.
  intros names wbs r. subst r. unfold _save_workbooks_impl.
  apply save_loop_facts.
Qed.

Lemma save_and_close_one_facts idx total name wbs :
  let r := save_and_close_one idx total name wbs in
  List.length (snd r) + List.length (filter is_closed_line (fst r))
  = List.length wbs /\
  List.length (filter is_Close (fst r)) <= 1 /\
  only_on [name] (fst r) /\
  (forall before wb after,
     find_workbook name wbs = Some (before, wb, after) ->
     raised_by (save_with_retry wb) <> None ->
     filter is_Close (fst r) = [] /\
     map Name (snd r) = map Name wbs).
Proof.
  unfold save_and_close_one.
  destruct (find_workbook name wbs) as [[[before wb] after]|] eqn:E.
  - destruct (find_workbook_found _ _ _ _ _ E) as (-> & Hn & _).
    pose proof (retry_loop_facts max_retries 0 wb) as H.
    unfold save_with_retry, events_of, raised_by in *.
    destruct (retry_loop max_retries 0 wb) as [[evs res] wb'] eqn:Er. simpl in H.
    destruct H as (H1 & H2 & H3 & H4 & H5 & H6).
    assert (Hon : only_on [name] evs) by (now rewrite <- Hn).
    destruct res as [e|]; simpl.
    + rewrite !filter_app, H4, H5, !length_app. simpl.
      split; [lia|]. split; [lia|]. split.
      * apply only_on_app; [assumption|]. forall_target.
      * intros b w0 a Heq _. inversion Heq; subst.
        split; [reflexivity|]. rewrite !map_app. simpl. now rewrite H1.
    + destruct (close_raises wb') as [e|]; simpl;
        rewrite !filter_app, H4, H5, !length_app; simpl;
        (split; [lia|]); (split; [lia|]); (split;
          [apply only_on_app; [assumption|];
           forall_target
          | intros b w0 a Heq Hr; inversion Heq; subst; exfalso; apply Hr;
            change (snd (fst (retry_loop max_retries 0 w0)) = None);
            now rewrite Er]).
  - simpl. split; [lia|]. split; [lia|]. split.
    + forall_target.
    + intros b w0 a Heq. discriminate Heq.
Qed.

Lemma save_and_close_loop_facts names : forall idx total wbs,
  let r := for_each_selected save_and_close_one idx total names wbs in
  List.length (snd r) + List.length (filter is_closed_line (fst r))
  = List.length wbs /\
  List.length (filter is_Close (fst r)) <= List.length names /\
  only_on names (fst r).
Proof.
  induction names as [|name rest IH]; intros idx total wbs; simpl.
  - repeat split; try lia. constructor.
  - pose proof (save_and_close_one_facts idx total name wbs) as H.
    destruct (save_and_close_one idx total name wbs) as [e1 w1]. simpl in H.
    destruct H as (H1 & H2 & H3 & _).
    specialize (IH (S idx) total w1).
    destruct (for_each_selected save_and_close_one (S idx) total rest w1)
      as [e2 w2].
    simpl in *. destruct IH as (I1 & I2 & I3).
    rewrite !filter_app, !length_app.
    split; [lia|]. split; [lia|].
    apply only_on_app.
    + eapply only_on_weaken; [|exact H3]. intros x [<-|[]]. now left.
    + eapply only_on_weaken; [|exact I3]. intros x Hx. now right.
Qed.

(** X24: [_save_and_close_impl] closes only what it saved. The number of
    workbooks still open plus the number of "Saved and closed" lines is
    the number that were open; [Close()] is called at most once per
    selected name and only on selected workbooks; and a workbook whose
    save raised after the retries is not closed and stays in the list. *)
Theorem save_and_close_closes_only_saved :
  forall (names : list string) (wbs : workbooks),
    let r := _save_and_close_impl names wbs in
    List.length (snd r) + List.length (filter is_closed_line (fst r))
    = List.length wbs /\
    List.length (filter is_Close (fst r)) <= List.length names /\
    only_on names (fst r) /\
    (forall idx total name before wb after,
       find_workbook name wbs = Some (before, wb, after) ->
       raised_by (save_with_retry wb) <> None ->
       filter is_Close (fst (save_and_close_one idx total name wbs)) = [] /\
       map Name (snd (save_and_close_one idx total name wbs))
       = map Name wbs).
Proof.
  intros names wbs r. subst r. unfold _save_and_close_impl.
  destruct (save_and_close_loop_facts names 1 (List.length names) wbs)
    as (H1 & H2 & H3).
  repeat split; try assumption;
    destruct (save_and_close_one_facts idx total name wbs) as (_ & _ & _ & H4);
    now destruct (H4 before wb after H H0).
Qed.

Lemma save_and_close_closes_only_saved_witness :
  filter is_Close (fst (save_and_close_one 1 1 "b.xlsx" sample_open)) = [] /\
  map Name (snd (save_and_close_one 1 1 "b.xlsx" sample_open))
  = ["a.xlsx"; "b.xlsx"; "c.xlsx"].
Proof.
  destruct (save_and_close_closes_only_saved ["b.xlsx"] sample_open)
    as (_ & _ & _ & H).
  apply (H 1 1 "b.xlsx" [mk_xl "a.xlsx" [Some "busy"; None] None]
           (mk_xl "b.xlsx" [Some "busy"; Some "busy"; Some "read-only"] None)
           [mk_xl "c.xlsx" [] (Some "close refused")]);
    [reflexivity | discriminate].
Defined.

End ExcelSaveMore.

(** ** excel_session_manager_link_updater.py: a longer look-back *)

Module LinkUpdaterMore.
Import PyStr LinkUpdater LinkUpdaterSpec.

Local Open Scope Z_scope.

Lemma needs_update_earlier w wbs threshold threshold' link :
  threshold' <= threshold ->
  needs_update w wbs threshold link = true ->
  needs_update w wbs threshold' link = true.
Proof.
  intros Hle H. apply needs_update_true in H as (t & Ht & Hth & Hop).
  apply needs_update_true. exists t. repeat split; [assumption | lia | assumption].
Qed.

(** X25: looking back further never drops an update. Between two runs at
    the same time on the same workbooks and files, every call of
    [UpdateLink] made with the smaller [CHECK_DAYS] is also made with the
    larger one; and a link whose modification time cannot be read is
    updated with no value of [CHECK_DAYS]. *)
Theorem longer_look_back_updates_more :
  forall (now days days' : Z) (w : world) (wbs : list workbook)
         (r r' : run_result),
    days <= days' ->
    run_excel_link_update [("CHECK_DAYS", OInt days)] now w wbs = Some r ->
    run_excel_link_update [("CHECK_DAYS", OInt days')] now w wbs = Some r' ->
    incl (calls r) (calls r') /\
    (forall c, In c (calls r) -> getmtime w (link_name c) <> None).
Proof.
  intros now days days' w wbs r r' Hle Hr Hr'.
  unfold run_excel_link_update in Hr, Hr'. simpl in Hr, Hr'.
  destruct (threshold_date now days) as [th|] eqn:E; [|discriminate].
  destruct (threshold_date now days') as [th'|] eqn:E'; [|discriminate].
  inversion Hr; inversion Hr'; subst; clear Hr Hr'.
  assert (Hth : th' <= th).
  { unfold threshold_date in E, E'.
    destruct (Z.abs days <=? timedelta_max_days); [|discriminate].
    destruct (Z.abs days' <=? timedelta_max_days); [|discriminate].
    destruct ((0 <=? now - days * us_per_day)
              && (now - days * us_per_day <=? datetime_max)); [|discriminate].
    destruct ((0 <=? now - days' * us_per_day)
              && (now - days' * us_per_day <=? datetime_max));
      [|discriminate].
    inversion E; inversion E'; subst. unfold us_per_day. lia. }
  split.
  - intros c Hc. apply In_calls in Hc as (wb & links & H1 & H2 & H3 & H5).
    apply In_calls. exists wb, links. repeat split; try assumption.
    now apply (needs_update_earlier w wbs th th').
  - intros c Hc. apply In_calls in Hc as (wb & links & _ & _ & _ & H5).
    apply needs_update_true in H5 as (t & Ht & _). congruence.
Qed.

Lemma longer_look_back_updates_more_witness :
  In (mk_call "C:\w\A.xlsx" "C:\w\B.xlsx")
     (calls (mk_result [mk_call "C:\w\A.xlsx" "C:\w\B.xlsx"] 3 1)) /\
  getmtime sample_world "C:\w\B.xlsx" <> None.
Proof.
  destruct (longer_look_back_updates_more sample_now 1 14 sample_world
              sample_open
              (mk_result [mk_call "C:\w\A.xlsx" "C:\w\B.xlsx"] 3 1)
              (mk_result [mk_call "C:\w\A.xlsx" "C:\w\B.xlsx"] 3 1))
    as [H1 H2]; [lia | vm_compute; reflexivity | vm_compute; reflexivity |].
  split.
  - apply H1. now left.
  - apply (H2 (mk_call "C:\w\A.xlsx" "C:\w\B.xlsx")). now left.
Defined.

End LinkUpdaterMore.
